(** * Zebra label-printer tooling: a shallow embedding of [zebra/zeb.py],
    [zebra/system.py] and [zebra/__main__.py], and the properties of the
    specification checked against it.

    Python [str] values are modelled as [string]; a character is a code
    point below 256.  Everything the program does to the machine (spawning
    a command, writing to the device node, sleeping, prompting the operator,
    logging, persisting a binding) is an [event] appended to a trace, and
    what the machine answers is read from a [Host] oracle that may depend on
    everything that happened before. *)

From Stdlib Require Import ZArith QArith Ascii String List Lia DecimalString.
From stdpp Require Import base option list gmap strings.

Local Open Scope Z_scope.

(** ** Python string built-ins *)

Module Py.

(** [str.isspace] for one character (code points below 256). *)
Definition isspace (c : ascii) : bool :=
  let n := N_of_ascii c in
  ((9 <=? n) && (n <=? 13) || (28 <=? n) && (n <=? 32)
   || (n =? 133) || (n =? 160))%N.

(** [s.startswith(p)], returning what follows the prefix. *)
Fixpoint strip_prefix (p s : string) : option string :=
  match p, s with
  | EmptyString, _ => Some s
  | String a p', String b s' =>
      if Ascii.eqb a b then strip_prefix p' s' else None
  | String _ _, EmptyString => None
  end.

Definition startswith (s p : string) : bool :=
  match strip_prefix p s with Some _ => true | None => false end.

(** [s.partition(sep)] at the first occurrence of [sep], [None] when [sep]
    does not occur. *)
Fixpoint cut (sep s : string) : option (string * string) :=
  match strip_prefix sep s with
  | Some r => Some (EmptyString, r)
  | None =>
      match s with
      | EmptyString => None
      | String c s' =>
          match cut sep s' with
          | Some (a, b) => Some (String c a, b)
          | None => None
          end
      end
  end.

(** [sub in s]. *)
Definition contains (sub s : string) : bool :=
  match cut sub s with Some _ => true | None => false end.

(** [s.rpartition(sep)] at the last occurrence of [sep]. *)
Definition rcut (sep s : string) : option (string * string) :=
  match cut (String.rev sep) (String.rev s) with
  | Some (b, a) => Some (String.rev a, String.rev b)
  | None => None
  end.

(** [s.split(sep)] for a non-empty [sep]; every cut consumes at least one
    character, so [String.length s] rounds are enough. *)
Fixpoint split_fuel (n : nat) (sep s : string) : list string :=
  match n with
  | O => [s]
  | S n' =>
      match cut sep s with
      | Some (a, b) => a :: split_fuel n' sep b
      | None => [s]
      end
  end.

Definition split (sep s : string) : list string :=
  split_fuel (String.length s) sep s.

(** [s.split(sep, maxsplit=1)]. *)
Definition split1 (sep s : string) : list string :=
  match cut sep s with
  | Some (a, b) => [a; b]
  | None => [s]
  end.

(** [s.rsplit(sep, maxsplit=1)]. *)
Definition rsplit1 (sep s : string) : list string :=
  match rcut sep s with
  | Some (a, b) => [a; b]
  | None => [s]
  end.

(** [sep.join(l)]. *)
Definition join (sep : string) (l : list string) : string :=
  match l with
  | [] => EmptyString
  | x :: r => fold_left (fun acc y => acc +:+ sep +:+ y) r x
  end.

(** [s.replace(old, new)] for a non-empty [old]. *)
Definition replace (old new s : string) : string :=
  join new (split old s).

(** [s.lstrip()], [s.rstrip()], [s.strip()]. *)
Fixpoint lstrip_by (f : ascii -> bool) (s : string) : string :=
  match s with
  | EmptyString => EmptyString
  | String c s' => if f c then lstrip_by f s' else s
  end.

Definition rstrip_by (f : ascii -> bool) (s : string) : string :=
  String.rev (lstrip_by f (String.rev s)).

Definition strip_by (f : ascii -> bool) (s : string) : string :=
  rstrip_by f (lstrip_by f s).

Definition lstrip : string -> string := lstrip_by isspace.
Definition rstrip : string -> string := rstrip_by isspace.
Definition strip : string -> string := strip_by isspace.

(** [c in chars] for a character. *)
Fixpoint mem_char (c : ascii) (chars : string) : bool :=
  match chars with
  | EmptyString => false
  | String d r => Ascii.eqb c d || mem_char c r
  end.

(** [s.strip(chars)]: removes leading and trailing characters that belong
    to the SET [chars]. *)
Definition strip_chars (chars s : string) : string :=
  strip_by (fun c => mem_char c chars) s.

(** [s.split()] on runs of whitespace. *)
Fixpoint words_go (cur : option string) (s : string) : list string :=
  match s with
  | EmptyString =>
      match cur with Some w => [String.rev w] | None => [] end
  | String c s' =>
      if isspace c
      then match cur with
           | Some w => String.rev w :: words_go None s'
           | None => words_go None s'
           end
      else words_go (Some (String c (default EmptyString cur))) s'
  end.

Definition split_ws (s : string) : list string := words_go None s.

(** [s.rsplit(maxsplit=1)] on whitespace: the last word, preceded by what
    is left of the string when that is not blank. *)
Fixpoint span_by (f : ascii -> bool) (s : string) : string * string :=
  match s with
  | EmptyString => (EmptyString, EmptyString)
  | String c s' =>
      if f c then let '(a, b) := span_by f s' in (String c a, b)
      else (EmptyString, s)
  end.

Definition rsplit_ws1 (s : string) : list string :=
  let r := lstrip (String.rev s) in
  match r with
  | EmptyString => []
  | _ =>
      let '(w, rest) := span_by (fun c => negb (isspace c)) r in
      match lstrip rest with
      | EmptyString => [String.rev w]
      | rest' => [String.rev rest'; String.rev w]
      end
  end.

(** [s.splitlines()]: the line boundaries below 256 are LF, CR, CR LF, VT,
    FF, FS, GS, RS and NEL; no empty last line is produced. *)
Definition is_linebreak (c : ascii) : bool :=
  let n := N_of_ascii c in
  ((10 <=? n) && (n <=? 13) || (28 <=? n) && (n <=? 30) || (n =? 133))%N.

Fixpoint splitlines_go (cur : string) (s : string) : list string :=
  match s with
  | EmptyString =>
      match cur with EmptyString => [] | _ => [String.rev cur] end
  | String c s' =>
      if is_linebreak c then
        match s' with
        | String d s'' =>
            if Ascii.eqb c "013" && Ascii.eqb d "010"
            then String.rev cur :: splitlines_go EmptyString s''
            else String.rev cur :: splitlines_go EmptyString s'
        | EmptyString => [String.rev cur]
        end
      else splitlines_go (String c cur) s'
  end.

Definition splitlines (s : string) : list string :=
  splitlines_go EmptyString s.

(** [s.lower()] on code points below 256. *)
Definition lower_char (c : ascii) : ascii :=
  let n := N_of_ascii c in
  if ((65 <=? n) && (n <=? 90)
      || (192 <=? n) && (n <=? 222) && negb (n =? 215))%N
  then ascii_of_N (n + 32) else c.

Fixpoint lower (s : string) : string :=
  match s with
  | EmptyString => EmptyString
  | String c s' => String (lower_char c) (lower s')
  end.

(** [s.isascii()]: what [s.encode("ascii")] accepts. *)
Fixpoint isascii (s : string) : bool :=
  match s with
  | EmptyString => true
  | String c s' => (N_of_ascii c <? 128)%N && isascii s'
  end.

(** Truth value of a string, and [filter(None, l)] on strings. *)
Definition truthy (s : string) : bool :=
  match s with EmptyString => false | _ => true end.

Definition filter_none (l : list string) : list string :=
  List.filter truthy l.

(** *** Numbers read from text *)

Definition digit_of (base : N) (c : ascii) : option N :=
  let n := N_of_ascii c in
  let d :=
    if ((48 <=? n) && (n <=? 57))%N then Some (n - 48)%N
    else if ((97 <=? n) && (n <=? 122))%N then Some (n - 87)%N
    else if ((65 <=? n) && (n <=? 90))%N then Some (n - 55)%N
    else None in
  match d with
  | Some v => if (v <? base)%N then Some v else None
  | None => None
  end.

(** After a digit: [(["_"] digit)*].  Returns the accumulated value, the
    number of digits read and what follows. *)
Fixpoint digit_run (base acc : N) (k : nat) (s : string) : N * nat * string :=
  match s with
  | String c s' =>
      match digit_of base c with
      | Some d => digit_run base (base * acc + d)%N (S k) s'
      | None =>
          if Ascii.eqb c "_" then
            match s' with
            | String c2 s'' =>
                match digit_of base c2 with
                | Some d => digit_run base (base * acc + d)%N (S k) s''
                | None => (acc, k, s)
                end
            | EmptyString => (acc, k, s)
            end
          else (acc, k, s)
      end
  | EmptyString => (acc, k, s)
  end.

(** [digit (["_"] digit)*], continuing the accumulator [acc]. *)
Definition digitpart (base acc : N) (s : string) : option (N * nat * string) :=
  match s with
  | String c s' =>
      match digit_of base c with
      | Some d => Some (digit_run base (base * acc + d)%N 1 s')
      | None => None
      end
  | EmptyString => None
  end.

(** The blanks [int] and [float] skip around a number: the C locale's
    six ([\t\n\v\f\r] and the space) and the Unicode blanks above 127
    (NEL and the no-break space), which CPython first turns into spaces.
    The separators [0x1c]-[0x1f], which [str.strip] removes, are not among
    them: [float("\x1c1")] raises [ValueError]. *)
Definition number_blank (c : ascii) : bool :=
  let n := N_of_ascii c in
  ((9 <=? n) && (n <=? 13) || (n =? 32) || (n =? 133) || (n =? 160))%N.

Definition read_sign (s : string) : bool * string :=
  match s with
  | String "-" r => (true, r)
  | String "+" r => (false, r)
  | _ => (false, s)
  end.

(** [int(s, base)] for base 10 or 16; [None] stands for [ValueError]. *)
Definition int (base : N) (s : string) : option Z :=
  let '(neg, r) := read_sign (strip_by number_blank s) in
  let r :=
    if (base =? 16)%N then
      match r with
      | String "0" (String x r') =>
          if Ascii.eqb x "x" || Ascii.eqb x "X" then
            match r' with String "_" r'' => r'' | _ => r' end
          else r
      | _ => r
      end
    else r in
  match digitpart base 0 r with
  | Some (v, _, EmptyString) =>
      Some (if neg then - Z.of_N v else Z.of_N v)
  | _ => None
  end.

(** A Python [float] read from text: a binary64.  A finite value other
    than minus zero is kept as the rational it is exactly equal to, in
    lowest terms. *)
Inductive pyfloat : Type :=
  | Finite (q : Q)
  | NegZero
  | Inf (negative : bool)
  | NaN.

Definition zero (neg : bool) : pyfloat :=
  if neg then NegZero else Finite 0.

(** [m * 2 ^ e] as a float, for [0 < m]. *)
Definition dyadic (neg : bool) (m e : Z) : pyfloat :=
  let q := if (0 <=? e)%Z
           then inject_Z (m * 2 ^ e)
           else Qmake m (Z.to_pos (2 ^ (- e))) in
  Finite (Qred (if neg then Qopp q else q)).

(** The binary64 nearest to [n / d], ties to even, for [0 < n] and [0 < d]:
    the significand has 53 bits, the exponent of its last bit is at least
    -1074 (below that the value is subnormal), and what rounds to
    [2 ^ 1024] or more is infinite. *)
Definition nearest_binary64 (neg : bool) (n d : Z) : pyfloat :=
  let k := Z.log2 n - Z.log2 d in
  let above := if (0 <=? k)%Z then (d * 2 ^ k <=? n)%Z
               else (d <=? n * 2 ^ (- k))%Z in
  let e := Z.max ((if above then k else k - 1) - 52) (-1074) in
  let num := if (0 <=? e)%Z then n else (n * 2 ^ (- e))%Z in
  let den := if (0 <=? e)%Z then (d * 2 ^ e)%Z else d in
  let q := (num / den)%Z in
  let r := (num mod den)%Z in
  let m := if (den <? 2 * r)%Z || ((den =? 2 * r)%Z && Z.odd q)
           then (q + 1)%Z else q in
  if (m =? 0)%Z then zero neg
  else if (0 <=? e)%Z && (2 ^ 1024 <=? m * 2 ^ e)%Z then Inf neg
  else dyadic neg m e.

(** [m * 10 ^ e] read as a binary64.  The first two tests answer without
    building a huge power of ten where the exponent alone decides:
    [10 ^ e >= 2 ^ (3 * e)] for [0 <= e], and
    [m * 10 ^ e < 2 ^ (log2 m + 1 + 3 * e)] for [e < 0]. *)
Definition scale10 (neg : bool) (m : N) (e : Z) : pyfloat :=
  let m := Z.of_N m in
  if (m =? 0)%Z then zero neg
  else if (1024 <=? 3 * e)%Z then Inf neg
  else if (Z.log2 m + 1 + 3 * e <=? -1075)%Z then zero neg
  else if (0 <=? e)%Z then nearest_binary64 neg (m * 10 ^ e) 1
  else nearest_binary64 neg m (10 ^ (- e)).

(** The optional exponent and the end of the text. *)
Definition read_exponent (s : string) : option Z :=
  match s with
  | EmptyString => Some 0
  | String c r =>
      if Ascii.eqb c "e" || Ascii.eqb c "E" then
        let '(eneg, r') := read_sign r in
        match digitpart 10 0 r' with
        | Some (v, _, EmptyString) =>
            Some (if eneg then - Z.of_N v else Z.of_N v)
        | _ => None
        end
      else None
  end.

(** [float(s)]; [None] stands for [ValueError]. *)
Definition float (s : string) : option pyfloat :=
  let '(neg, r) := read_sign (strip_by number_blank s) in
  let word := lower r in
  if String.eqb word "inf" || String.eqb word "infinity" then Some (Inf neg)
  else if String.eqb word "nan" then Some NaN
  else
    let mantissa :=
      match digitpart 10 0 r with
      | Some (ip, _, String "." r2) =>
          match digitpart 10 ip r2 with
          | Some (m, k, r3) => Some (m, k, r3)
          | None => Some (ip, O, r2)
          end
      | Some (ip, _, r2) => Some (ip, O, r2)
      | None =>
          match r with
          | String "." r2 => digitpart 10 0 r2
          | _ => None
          end
      end in
    match mantissa with
    | Some (m, k, rest) =>
        match read_exponent rest with
        | Some e => Some (scale10 neg m (e - Z.of_nat k))
        | None => None
        end
    | None => None
    end.

End Py.



(** ** Exceptions, events and the host *)

Inductive exn : Type :=
  | KeyError
  | ValueError
  | TypeError
  | AttributeError
  | IndexError
  | FileNotFoundError
  | EOFError
  | TimeoutExpired
  | UnicodeEncodeError                (* a [ValueError] no handler here catches *)
  | Exception_ (msg : string).

Inductive result (A : Type) : Type :=
  | Ok (a : A)
  | Raise (e : exn).
Arguments Ok {A} a.
Arguments Raise {A} e.

Inductive level : Type := Info | Warning | Error.

(** What the program does to the machine, in the order it does it. *)
Inductive event : Type :=
  | Log (l : level) (msg : string)
  | Print (text : string)             (* [print(text)] *)
  | Spawn (cmd : string)              (* [Popen(shlex.split(cmd))] *)
  | Shell (cmd : string)              (* [Popen(cmd, shell=True)] *)
  | Run (cmd : string)                (* [subprocess.run(cmd.split())] *)
  | OsSystem (cmd : string)           (* [os.system(cmd)] *)
  | Sleep (milliseconds : Z)          (* [time.sleep] *)
  | ListDir (path : string)           (* [os.listdir] *)
  | IsFile (path : string)            (* [os.path.isfile] *)
  | WriteFile (path contents : string)
  | Input (prompt : string)           (* [input(...)] *)
  | SetVariable (key value : string)  (* [Environment.set_variable] *)
  | UsbFind (vid pid : Z)             (* [usb.core.find] *)
  | UsbReset (vid pid : Z)            (* [dev.reset()] *)
  | Lp (queue job : string).          (* [lp -d queue -] fed with the job *)

Definition trace : Type := list event.

(** The machine.  Every answer may depend on the events so far.
    - [h_spawn]: exit status, stdout and stderr of a command started from
      its argument vector, [None] when starting it or talking to it raises;
    - [h_shell]: the same for a command line handed to the shell;
    - [h_run]: [subprocess.run] with its timeout, which raises by itself;
    - [h_listdir]: the entries of a directory, [None] when it is missing;
    - [h_environ]: [os.environ];
    - [h_env_variables]: [Environment.ENV_VARIABLES], the persisted
      bindings ([zebra/environment.py] is not part of the sources; it is
      used as a key/value store only);
    - [h_usb_find]: whether [usb.core.find] finds a device;
    - [h_lp]: whether the [lp] spooler client can be started. *)
Record Host : Type := {
  h_spawn : trace -> string -> option (Z * string * string);
  h_shell : trace -> string -> Z * string * string;
  h_run : trace -> string -> result (Z * string * string);
  h_listdir : trace -> string -> option (list string);
  h_isfile : trace -> string -> bool;
  h_environ : trace -> string -> option string;
  h_env_variables : trace -> string -> option string;
  h_usb_find : trace -> Z -> Z -> bool;
  h_lp : trace -> string -> bool
}.

(** The state a run threads: the events so far and the lines the operator
    will still type; [input] at the end of them raises [EOFError]. *)
Record state : Type := {
  events : trace;
  answers : list string
}.

Definition M (A : Type) : Type := state -> state * result A.

Definition ret {A} (a : A) : M A := fun s => (s, Ok a).

Definition raise {A} (e : exn) : M A := fun s => (s, Raise e).

Definition bind {A B} (m : M A) (k : A -> M B) : M B :=
  fun s =>
    match m s with
    | (s', Ok a) => k a s'
    | (s', Raise e) => (s', Raise e)
    end.

Notation "x <- m ;; k" := (bind m (fun x => k))
  (at level 100, m at next level, right associativity).
Notation "m ;;; k" := (bind m (fun _ => k))
  (at level 100, right associativity).

(** [try: m except <handled>: handler]. *)
Definition try_except {A} (m : M A) (handled : exn -> bool)
    (handler : M A) : M A :=
  fun s =>
    match m s with
    | (s', Raise e) => if handled e then handler s' else (s', Raise e)
    | r => r
    end.

Definition emit (e : event) : M unit :=
  fun s => ({| events := events s ++ [e]; answers := answers s |}, Ok tt).

(** Ask the host, and record the question. *)
Definition ask {A} (e : event) (oracle : trace -> A) : M A :=
  fun s =>
    ({| events := events s ++ [e]; answers := answers s |},
     Ok (oracle (events s))).

Definition log (l : level) (msg : string) : M unit := emit (Log l msg).

(** [for x in l: body], the loop variables threaded through [acc]. *)
Fixpoint for_each {A B} (l : list A) (body : A -> B -> M B) (acc : B) : M B :=
  match l with
  | [] => ret acc
  | x :: r => acc' <- body x acc ;; for_each r body acc'
  end.

(** Method calls and [in] on a value that may be [None]. *)
Definition method {A} (o : option string) (f : string -> A) : M A :=
  match o with
  | Some s => ret (f s)
  | None => raise AttributeError
  end.

Definition is_in (sub : string) (o : option string) : M bool :=
  match o with
  | Some s => ret (Py.contains sub s)
  | None => raise TypeError
  end.

(** [l[i]] and [l[-1]]. *)
Definition getitem {A} (l : list A) (i : nat) : M A :=
  match nth_error l i with
  | Some x => ret x
  | None => raise IndexError
  end.

Definition getlast {A} (l : list A) : M A :=
  match List.rev l with
  | x :: _ => ret x
  | [] => raise IndexError
  end.

Definition dquote : string := String "034" EmptyString.
Definition newline : string := String "010" EmptyString.

Definition peek {A} (oracle : trace -> A) : M A :=
  fun s => (s, Ok (oracle (events s))).

(** [str(n)] for a natural number. *)
Definition str_nat (n : nat) : string :=
  NilZero.string_of_uint (Nat.to_uint n).

(** Truth value of a string that may be [None]. *)
Definition truthy_opt (o : option string) : bool :=
  match o with Some s => Py.truthy s | None => false end.

(** A [dict] with string keys, in insertion order: assigning to a key that
    is present keeps its place. *)
Fixpoint dict_set {V} (k : string) (v : V) (d : list (string * V))
    : list (string * V) :=
  match d with
  | [] => [(k, v)]
  | (k', v') :: r =>
      if String.eqb k k' then (k', v) :: r else (k', v') :: dict_set k v r
  end.

Fixpoint dict_get {V} (k : string) (d : list (string * V)) : option V :=
  match d with
  | [] => None
  | (k', v) :: r => if String.eqb k k' then Some v else dict_get k r
  end.

(** [d[k][field] = ...]: the value stored under [k] is changed in place. *)
Definition dict_alter {V} (f : V -> V) (k : string) (d : list (string * V))
    : list (string * V) :=
  List.map (fun kv => if String.eqb k (fst kv) then (fst kv, f (snd kv)) else kv) d.

(** ** [zebra/system.py] *)

Module System.
Section WithHost.
Variable h : Host.

(** [system_command]: every exception of the [try] body becomes the
    triple [(-1, None, None)]. *)
Definition system_command (cmd : string)
    : M (Z * option string * option string) :=
  r <- ask (Spawn cmd) (fun t => h_spawn h t cmd) ;;
  match r with
  | Some (status, stdout, stderr) => ret (status, Some stdout, Some stderr)
  | None => ret (-1, None, None)
  end.

Definition pipeable_command (cmd : string) : M (Z * string * string) :=
  ask (Shell cmd) (fun t => h_shell h t cmd).

(** The two probes of [get_serial_port]. *)
Definition vendor_cmd (port : string) : string :=
  "udevadm info -n " +:+ port +:+ " -q property | grep VENDOR_ID | cut -d'=' -f2".

Definition model_cmd (port : string) : string :=
  "udevadm info -n " +:+ port +:+ " -q property | grep MODEL_ID | cut -d'=' -f2".

(** ["/dev/" + os.readlink(f).rsplit("/", maxsplit=1)[-1]]. *)
Definition port_of (target : string) : M string :=
  name <- getlast (Py.rsplit1 "/" target) ;;
  ret ("/dev/" +:+ name).

(** The [for] loop of [get_serial_port] with its [break].  [targets] are
    what [os.readlink] answers for the entries of [/dev/serial/by-id], in
    the order [glob] yields them; [vid_match] and [pid_match] live across
    the rounds, as the variables of the source do. *)
Fixpoint scan_ports (vid pid : string) (targets : list string)
    (vid_match pid_match : bool) : M (option string) :=
  match targets with
  | [] => ret None
  | target :: rest =>
      port <- port_of target ;;
      vid_match <-
        (if Py.truthy vid then
           r <- pipeable_command (vendor_cmd port) ;;
           let '(_, stdout, _) := r in
           ret (if String.eqb vid (Py.strip stdout) then true else vid_match)
         else ret vid_match) ;;
      pid_match <-
        (if Py.truthy pid then
           r <- pipeable_command (model_cmd port) ;;
           let '(_, stdout, _) := r in
           ret (if String.eqb pid (Py.strip stdout) then true else pid_match)
         else ret pid_match) ;;
      if (Py.truthy vid && vid_match) && (Py.truthy pid && pid_match)
         || (negb (Py.truthy vid) && pid_match)
         || (negb (Py.truthy pid) && vid_match)
      then ret (Some port)
      else scan_ports vid pid rest vid_match pid_match
  end.

(** [get_serial_port(vid, pid)]; an argument left out ([None]) and an
    empty one behave alike and are both the empty string here. *)
Definition get_serial_port (targets : list string) (vid pid : string)
    : M (option string) :=
  r <- system_command "lsusb" ;;
  let '(_, lsusb, _) := r in
  let absent (id : string) : M bool :=
    found <- is_in id lsusb ;; ret (negb found) in
  both_absent <-
    (if Py.truthy vid && Py.truthy pid then
       a <- absent vid ;; if a : bool then absent pid else ret false
     else ret false) ;;
  if both_absent : bool then
    emit (Print ("No device with VID='" +:+ vid +:+ "' and PID='" +:+ pid
                 +:+ "' enumerating.")) ;;;
    ret None
  else
    vid_absent <-
      (if Py.truthy vid && negb (Py.truthy pid) then absent vid else ret false) ;;
    if vid_absent : bool then
      emit (Print ("No device with VID='" +:+ vid +:+ "' enumerating.")) ;;;
      ret None
    else
      pid_absent <-
        (if Py.truthy pid && negb (Py.truthy vid) then absent pid else ret false) ;;
      if pid_absent : bool then
        emit (Print ("No device with PID='" +:+ pid +:+ "' enumerating.")) ;;;
        ret None
      else if negb (Py.truthy pid) && negb (Py.truthy vid) then
        emit (Print "You must pass either vid or pid args.") ;;;
        ret None
      else scan_ports vid pid targets false false.

End WithHost.
End System.

(** ** [zebra/prompt.py], the two prompts the printer code uses *)

Module Prompt.

Definition CYAN : string := String "027" "[96m" +:+ String "027" "[1m".
Definition ENDC : string := String "027" "[0m" +:+ String "027" "[0m".

(** The question [Prompt.input(prompt, flush=True)] puts on the terminal:
    [input(f">> {Prompt.CYAN}{prompt}{Prompt.ENDC}: ")]. *)
Definition input_event (prompt : string) : event :=
  Input (">> " +:+ CYAN +:+ prompt +:+ ENDC +:+ ": ").

(** [Prompt.input(prompt, flush=True)]. *)
Definition input (prompt : string) : M string :=
  fun s =>
    let t := events s ++ [input_event prompt] in
    match answers s with
    | a :: rest => ({| events := t; answers := rest |}, Ok a)
    | [] => ({| events := t; answers := [] |}, Raise EOFError)
    end.

(** [f"{options}"] for a list of plain strings. *)
Definition repr_list (options : list string) : string :=
  "[" +:+ Py.join ", " (List.map (fun o => "'" +:+ o +:+ "'") options) +:+ "]".

(** [Prompt.choose]: asks until the answer is one of [options]. *)
Fixpoint choose_loop (prompt : string) (options : list string)
    (pending : list string) (t : trace) : state * result string :=
  let t' := t ++ [Print EmptyString;
                  Log Info ("Valid (case sensitive) options are: " +:+ repr_list options);
                  Input (">> " +:+ CYAN +:+ prompt +:+ ENDC +:+ " ")] in
  match pending with
  | [] => ({| events := t'; answers := [] |}, Raise EOFError)
  | a :: rest =>
      if existsb (String.eqb a) options
      then ({| events := t'; answers := rest |}, Ok a)
      else choose_loop prompt options rest
             (t' ++ [Log Error (dquote +:+ a +:+ dquote +:+ " is not a valid option!")])
  end.

Definition choose (prompt : string) (options : list string) : M string :=
  fun s =>
    let prompt := match String.rev prompt with
                  | String c _ =>
                      if Py.mem_char c ":?.!" then prompt else prompt +:+ ":"
                  | EmptyString => prompt +:+ ":"
                  end in
    choose_loop prompt options (answers s) (events s).

End Prompt.

(** ** [zebra/zeb.py] *)

Module Zeb.

(** A [Zebra] session object. *)
Record Zebra : Type := {
  serial_number : string;
  name : option string;
  vid : string;
  pid : string;
  lp_path : option string
}.

(** One record of [connected_printers]; the [installed] key is only set
    once a device node was matched. *)
Record printer_info : Type := {
  info_uri : string;
  info_lp : string;
  info_name : string;
  info_sn : string;
  info_installed : option (option string)
}.

(** A value of the configuration table: a number when [float] accepts the
    text, else the text. *)
Inductive value : Type :=
  | VFloat (f : Py.pyfloat)
  | VStr (s : string).

Definition float_or_str (s : string) : value :=
  match Py.float s with
  | Some f => VFloat f
  | None => VStr s
  end.

(** [list(filter(None, line.split("  ")))[:-1]]. *)
Definition fields (line : string) : list string :=
  removelast (Py.filter_none (Py.split "  " line)).

(** One line of the configuration table, as the loop body of [get_config]
    treats it. *)
Definition config_line (line : string) (data : gmap string value)
    : gmap string value :=
  let values := fields line in
  if (length values =? 2)%nat then
    match values with
    | [v; l] => <[ Py.strip l := float_or_str v ]> data
    | _ => data
    end
  else if (length values =? 3)%nat then
    match List.tl values with
    | [v; l] => <[ Py.strip l := float_or_str v ]> data
    | _ => data
    end
  else data.

(** [re.search("product.*ZTC", x)] on a single line. *)
Definition search_product_ztc (x : string) : bool :=
  match Py.cut "product" x with
  | Some (_, r) => Py.contains "ZTC" r
  | None => false
  end.

(** [bytes.strip()]: ASCII blanks only. *)
Definition bytes_strip : string -> string :=
  Py.strip_by (fun c => let n := N_of_ascii c in
                        ((9 <=? n) && (n <=? 13) || (n =? 32))%N).

Definition test_label : string :=
  Py.join newline
    [ ""; "        ^XA"; ""; "        ^LT-6^LH100,100"; "";
      "        ^FO250,350"; "        ^A@N,70,30,XXX.FNT";
      "        ^FDRJ = Denzel; JV = Dan Blizerian^FS"; "";
      "        ^XZ"; "        " ].

(** [printers_found] filtered down to [zebra_printers] in
    [install_printer]. *)
Definition zebra_lines (stdout : string) : list string :=
  let printers_found := Py.filter_none (Py.split newline stdout) in
  List.filter (Py.contains "Zebra") printers_found.

Definition lpinfo_cmd : string := "lpinfo --include-schemes usb -v".

Definition discovering : string :=
  "Discovering connected printers... This may take up to 15 sec...".

Definition role_prompt : string :=
  "If this is a REGULAR Zebra label printer, enter [R]." +:+ newline +:+
  "If this is a SUPPLEMENTARY (Packout ONLY) label printer, enter [S].".

(** The [while True] of [install_printer]: logs the question and calls
    [Prompt.input("Your input", flush=True)] until the answer is [r] or [s]
    in either case; the result is [is_supplementary].  The recursion is on
    the lines the operator still has to type. *)
Fixpoint ask_role (pending : list string) (t : trace) : state * result bool :=
  let t' := t ++ [Log Info role_prompt; Prompt.input_event "Your input"] in
  match pending with
  | [] => ({| events := t'; answers := [] |}, Raise EOFError)
  | user_input :: rest =>
      if String.eqb (Py.lower user_input) "r"
      then ({| events := t'; answers := rest |}, Ok false)
      else if String.eqb (Py.lower user_input) "s"
      then ({| events := t'; answers := rest |}, Ok true)
      else ask_role rest t'
  end.

Section WithHost.
Variable h : Host.

Definition system_command := System.system_command h.
Definition pipeable_command := System.pipeable_command h.

Definition listdir (path : string) : M (list string) :=
  r <- ask (ListDir path) (fun t => h_listdir h t path) ;;
  match r with
  | Some l => ret l
  | None => raise FileNotFoundError
  end.

(** [usb.core.find(idVendor=int(vid, 16), idProduct=int(pid, 16))]
    followed by [dev.reset()] with every exception of the reset
    swallowed. *)
Definition usb_reset (vid pid : string) : M unit :=
  match Py.int 16 vid with
  | None => raise ValueError
  | Some v =>
      match Py.int 16 pid with
      | None => raise ValueError
      | Some p =>
          found <- ask (UsbFind v p) (fun t => h_usb_find h t v p) ;;
          if found : bool then emit (UsbReset v p) else ret tt
      end
  end.

Definition get_printer_name (serial_number : string) : M (option string) :=
  r <- system_command "lpstat -v" ;;
  let '(_, stdout, _) := r in
  found <- is_in serial_number stdout ;;
  if negb found then
    log Error ("Is " +:+ serial_number +:+ " a valid Zebra serial number? "
               +:+ "Cannot find this printer via lpstat -v.") ;;;
    ret None
  else
    printers <- method stdout (fun s => Py.filter_none (Py.split newline s)) ;;
    let my_printer :=
      match List.find (Py.contains serial_number) printers with
      | Some printer => Some (Py.rstrip printer)
      | None => None
      end in
    if negb (truthy_opt my_printer) then
      raise (Exception_ "Something went wrong.")
    else
      parts <- method my_printer (Py.split ":") ;;
      before <- getitem parts 0 ;;
      printer_name <- getlast (Py.split_ws before) ;;
      ret (Some printer_name).

(** The command [Zebra.__init__] probes a device node with. *)
Definition probe_cmd (serial_number f : string) : string :=
  "udevadm info -a /dev/usb/" +:+ f +:+ " | grep " +:+ serial_number.

(** The [try] statement of [Zebra.__init__], which resolves [lp_path].
    Inside the [try] only [os.listdir] can raise, so the handler always
    finds [lp_path] still [None]. *)
Definition find_lp_path (serial_number : string) : M (option string) :=
  try_except
    (entries <- listdir "/dev/usb/" ;;
     found <- for_each entries (fun f lp_path =>
         if negb (Py.startswith f "lp") then ret lp_path
         else
           r <- system_command (probe_cmd serial_number f) ;;
           let '(status, _, _) := r in
           if negb (status =? 0) then ret lp_path
           else ret (Some ("/dev/usb/" +:+ f))) None ;;
     log Info "OK" ;;;
     ret found)
    (fun e => match e with FileNotFoundError => true | _ => false end)
    (log Warning "Was unable to figure out /dev/usb/lpx!" ;;;
     ret None).

(** [Zebra.__init__]. *)
Definition init (serial_number vid pid : string) : M Zebra :=
  ids <- (if negb (Py.truthy serial_number) then
            v <- peek (fun t => h_environ h t "MFG_PRINTER") ;;
            match v with
            | None => raise KeyError
            | Some env_var =>
                if Py.contains "-" env_var then
                  match Py.split "-" env_var with
                  | [a; b; c] => ret (a, b, c)
                  | _ => raise ValueError
                  end
                else ret (env_var, vid, pid)
            end
          else ret (serial_number, vid, pid)) ;;
  let '(serial_number, vid, pid) := ids in
  log Info ("Trying to reach Zebra S/N " +:+ serial_number +:+ "...") ;;;
  name <- get_printer_name serial_number ;;
  lp_path <- find_lp_path serial_number ;;
  ret {| serial_number := serial_number; name := name;
         vid := vid; pid := pid; lp_path := lp_path |}.

Definition command (self : Zebra) (zpl : string)
    : M (Z * option string * option string) :=
  if negb (truthy_opt (lp_path self)) then
    log Error "The printer does not enumerate on /dev/usb/lpx on this system." ;;;
    ret (-1, None, None)
  else
    let path := default EmptyString (lp_path self) in
    emit (OsSystem ("echo ^XA^XZ > " +:+ path)) ;;;
    emit (Sleep 100) ;;;
    emit (OsSystem ("echo " +:+ zpl +:+ " > " +:+ path)) ;;;
    response <- pipeable_command ("timeout 1s cat " +:+ path) ;;
    let '(status, stdout, stderr) := response in
    ret (status, Some stdout, Some stderr).

Definition get_config (self : Zebra) : M (option (gmap string value)) :=
  response <- command self "^XA^HH^XZ" ;;
  let '(status, stdout, _) := response in
  if negb (status =? 124) then ret None
  else
    lines <- method stdout (Py.split newline) ;;
    ret (Some (fold_left (fun data line => config_line line data) lines ∅)).

Definition print (self : Zebra) (zpl : string) : M bool :=
  r <- system_command lpinfo_cmd ;;
  let '(_, stdout, _) := r in
  found <- is_in (serial_number self) stdout ;;
  if negb found then
    log Error (serial_number self +:+ " is not connected. Skipping print.") ;;;
    ret false
  else if negb (truthy_opt (name self)) then ret false
  else
    let queue := default EmptyString (name self) in
    emit (OsSystem "cancel -a -x") ;;;
    (if Py.truthy (vid self) && Py.truthy (pid self)
     then usb_reset (vid self) (pid self) else ret tt) ;;;
    emit (Sleep 300) ;;;
    log Info ("Queueing a print job for Zebra SN " +:+ serial_number self
              +:+ ", " +:+ queue +:+ ".") ;;;
    let job := if Py.isascii zpl then zpl else EmptyString in
    started <- ask (Lp queue job) (fun t => h_lp h t queue) ;;
    if started : bool then
      if Py.isascii zpl then ret true else raise UnicodeEncodeError
    else raise FileNotFoundError.

Definition test_print (self : Zebra) : M unit :=
  _ <- print self test_label ;; ret tt.

Definition is_connected (self : Zebra) : M bool :=
  r <- system_command lpinfo_cmd ;;
  let '(_, stdout, _) := r in
  found <- is_in (serial_number self) stdout ;;
  if found then
    (if Py.truthy (vid self) && Py.truthy (pid self)
     then usb_reset (vid self) (pid self) else ret tt) ;;;
    ret true
  else ret false.

Definition connect (printer : string) : M (option Zebra) :=
  try_except
    (v <- peek (fun t => h_environ h t printer) ;;
     match v with
     | None => raise KeyError
     | Some binding =>
         match Py.split "-" binding with
         | [sn; vid; pid] =>
             zebra <- init sn vid pid ;;
             connected <- is_connected zebra ;;
             ret (if connected : bool then Some zebra else None)
         | _ => raise ValueError
         end
     end)
    (fun e => match e with KeyError => true | _ => false end)
    (log Error "It appears like MFG_PRINTER environment is not set!" ;;;
     log Info "Run 'mfg-zebra --install' first." ;;;
     ret None).

(** [connected_printers]. *)
Definition probe_device (sn f : string)
    (connected : list (string * printer_info))
    : M (list (string * printer_info)) :=
  if negb (Py.startswith f "lp") then ret connected
  else
    r <- system_command ("udevadm info -a /dev/usb/" +:+ f) ;;
    let '(_, stdout, _) := r in
    found <- is_in sn stdout ;;
    if negb found then ret connected
    else
      let connected :=
        dict_alter (fun i => {| info_uri := info_uri i;
                                info_lp := "/dev/usb/" +:+ f;
                                info_name := info_name i;
                                info_sn := info_sn i;
                                info_installed := info_installed i |})
          sn connected in
      lines <- method stdout Py.splitlines ;;
      name <- getitem (List.filter search_product_ztc lines) 0 ;;
      named <- (if Py.truthy name then
                  n <- getlast (Py.split "=" name) ;;
                  ret (dict_alter
                         (fun i => {| info_uri := info_uri i;
                                      info_lp := info_lp i;
                                      info_name := n;
                                      info_sn := info_sn i;
                                      info_installed := info_installed i |})
                         sn connected)
                else ret connected) ;;
      primary <- peek (fun t => h_env_variables h t "MFG_PRINTER") ;;
      supplementary <- peek (fun t => h_env_variables h t "MFG_PRINTER_XXL") ;;
      let holds (binding : option string) :=
        match binding with
        | Some v => Py.contains sn v
        | None => false
        end in
      let role :=
        if holds primary then Some "MFG_PRINTER"
        else if holds supplementary then Some "MFG_PRINTER_XXL"
        else None in
      ret (dict_alter
             (fun i => {| info_uri := info_uri i;
                          info_lp := info_lp i;
                          info_name := info_name i;
                          info_sn := info_sn i;
                          info_installed := Some role |})
             sn named).

Definition connected_printers : M (list (string * printer_info)) :=
  r <- system_command lpinfo_cmd ;;
  let '(_, stdout, _) := r in
  out <- method stdout (fun s => Py.split newline (Py.strip s)) ;;
  for_each out (fun dev connected =>
      if Py.contains "Zebra" dev then
        sn <- getlast (Py.rsplit1 "=" dev) ;;
        uri <- getlast (Py.rsplit_ws1 dev) ;;
        let connected :=
          dict_set sn {| info_uri := uri; info_lp := EmptyString;
                         info_name := EmptyString; info_sn := sn;
                         info_installed := None |} connected in
        entries <- listdir "/dev/usb/" ;;
        for_each entries (probe_device sn) connected
      else ret connected) [].

(** [printer_of_choice["sn"]] where [printer_of_choice] is a [str]:
    string indices must be integers. *)
Definition str_getitem_str (s key : string) : M string := raise TypeError.

(** [l[i]] for a Python integer index. *)
Definition getitem_int {A} (l : list A) (i : Z) : M A :=
  let n := Z.of_nat (length l) in
  if (0 <=? i) && (i <? n) then getitem l (Z.to_nat i)
  else if (- n <=? i) && (i <? 0) then getitem l (Z.to_nat (n + i))
  else raise IndexError.

Definition choose_printer : M (option Zebra) :=
  connected_printers <- connected_printers ;;
  if (length connected_printers =? 0)%nat then ret None
  else
    serial_number <-
      (if (length connected_printers =? 1)%nat then
         (* next(iter(d)) is the first KEY of the dict *)
         printer_of_choice <- getitem (List.map fst connected_printers) 0 ;;
         str_getitem_str printer_of_choice "sn"
       else
         log Warning "There are multiple printers connected to this device." ;;;
         _ <- for_each (combine (seq 1 (length connected_printers)) connected_printers)
                (fun '(i, (sn, printer_info)) (_ : unit) =>
                   log Info ("[" +:+ str_nat i +:+ "] " +:+ info_name printer_info
                             +:+ ", " +:+ sn)) tt ;;
         user_choice <- Prompt.choose "Which one would you like to work with?" ["1"; "2"] ;;
         match Py.int 10 user_choice with
         | None => raise ValueError
         | Some n =>
             key <- getitem_int (List.map fst connected_printers) (n - 1) ;;
             match dict_get key connected_printers with
             | Some printer_of_choice => ret (info_sn printer_of_choice)
             | None => raise KeyError
             end
         end) ;;
    zebra <- init serial_number EmptyString EmptyString ;;
    (* [zebra.is_connected] is a bound method, hence true *)
    ret (Some zebra).

Definition lsusb_cmd : string :=
  "lsusb | grep 'Zebra' | grep -oP '[a-zA-Z0-9]{4}:[a-zA-Z0-9]{4}'".

Definition rules_file : string := "/etc/udev/rules.d/99-zebra.rules".

Definition install_printer : M bool :=
  log Info discovering ;;;
  r <- system_command lpinfo_cmd ;;
  let '(_, stdout, _) := r in
  zebra_printers <- method stdout zebra_lines ;;
  if (length zebra_printers =? 0)%nat then
    log Error "No Zebra printers connected." ;;;
    ret false
  else if (1 <? length zebra_printers)%nat then
    log Error ("There are " +:+ str_nat (length zebra_printers)
               +:+ " Zebra printers connected." +:+ newline
               +:+ "Installation supports only one printer at a time." +:+ newline
               +:+ "Please disconnect all printers except the one you want to install.") ;;;
    ret false
  else
    line <- getitem zebra_printers 0 ;;
    serial_number <- getitem (Py.split "serial=" line) 1 ;;
    tail <- getitem (Py.split1 "usb://" line) 1 ;;
    let uri := "usb://" +:+ tail in
    path <- getlast (Py.split1 "usb://" uri) ;;
    model <- getitem (Py.split1 "?" path) 0 ;;
    let model := Py.replace "/" "-" (Py.replace "%20" "-" model) in
    if negb (Py.truthy serial_number) then
      log Error ("Couldnt extract serial number from " +:+ line +:+ "!") ;;;
      ret false
    else
      r <- system_command "lpstat -v" ;;
      let '(_, stdout, _) := r in
      installed <- is_in serial_number stdout ;;
      (if negb installed then
         log Info "Printer must be installed first." ;;;
         let cmd := "lpadmin -p '" +:+ model +:+ "-" +:+ serial_number
                    +:+ "' -v '" +:+ uri +:+ "' -E" in
         log Info cmd ;;;
         _ <- system_command cmd ;;
         log Info "Restarting cups.service..." ;;;
         emit (OsSystem "systemctl restart cups") ;;;
         emit (Sleep 2000)
       else ret tt) ;;;
      out <- ask (Shell lsusb_cmd) (fun t => h_shell h t lsusb_cmd) ;;
      let '(_, stdout, _) := out in
      match Py.split ":" (bytes_strip stdout) with
      | [vid; pid] =>
          present <- ask (IsFile rules_file) (fun t => h_isfile h t rules_file) ;;
          (if negb present then
             let rule := "SUBSYSTEM==" +:+ dquote +:+ "usb" +:+ dquote
                         +:+ ", ATTR{idVendor}==" +:+ dquote +:+ vid +:+ dquote
                         +:+ ", MODE=" +:+ dquote +:+ "0666" +:+ dquote in
             emit (WriteFile rules_file rule) ;;;
             emit (OsSystem "udevadm control --reload-rules; udevadm trigger")
           else ret tt) ;;;
          is_supplementary <- (fun s => ask_role (answers s) (events s)) ;;
          let printer_key :=
            if is_supplementary : bool then "MFG_PRINTER_XXL" else "MFG_PRINTER" in
          emit (SetVariable printer_key (Py.join "-" [serial_number; vid; pid])) ;;;
          zebra <- init serial_number vid pid ;;
          test_print zebra ;;;
          ret true
      | _ => raise ValueError
      end.

End WithHost.
End Zeb.

(** ** [zebra/__main__.py] *)

Module Main.
Section WithHost.
Variable h : Host.

(** [system_command(command, timeout=7)]: [subprocess.run] raises when
    the command cannot be started or runs out of time. *)
Definition system_command (command : string) : M (Z * string * string) :=
  r <- ask (Run command) (fun t => h_run h t command) ;;
  match r with
  | Ok x => ret x
  | Raise e => raise e
  end.

(** [re.search(r'usb://[^ ]*', device)]. *)
Definition search_usb_uri (device : string) : option string :=
  match Py.cut "usb://" device with
  | Some (_, r) =>
      Some ("usb://" +:+ fst (Py.span_by (fun c => negb (Ascii.eqb c " ")) r))
  | None => None
  end.

Definition is_zebra_line (device : string) : bool :=
  existsb (fun i => Py.contains i device) ["Zebra"; "ZTC"; "ZPL"].

(** The loop body of [installed_printers]. *)
Definition installed_entry (device : string) (printers : gmap string string)
    : M (gmap string string) :=
  if is_zebra_line device then
    match search_usb_uri device with
    | None => raise TypeError
    | Some uri =>
        head <- getitem (Py.split1 ":" device) 0 ;;
        let name := Py.strip_chars "device for " head in
        ret (<[ name := uri ]> printers)
    end
  else ret printers.

Definition installed_printers : M (gmap string string) :=
  r <- system_command "lpstat -v" ;;
  let '(_, installed, _) := r in
  for_each (Py.splitlines installed) installed_entry ∅.

(** One record of [discover_connected_printers]. *)
Record discovered : Type := {
  found_uri : string;
  found_installed : bool
}.

(** The loop body of [discover_connected_printers]; [uri in
    installed_printers.keys()] looks the URI up among the queue NAMES. *)
Definition discovered_entry (installed_printers : gmap string string)
    (device : string) (printers : gmap string discovered)
    : M (gmap string discovered) :=
  if Py.contains "Zebra" device then
    match search_usb_uri device with
    | None => raise TypeError
    | Some uri =>
        serial_number <- getlast (Py.rsplit1 "=" uri) ;;
        ret (<[ serial_number :=
                  {| found_uri := uri;
                     found_installed :=
                       bool_decide (is_Some (installed_printers !! uri)) |} ]>
               printers)
    end
  else ret printers.

Definition discover_connected_printers : M (gmap string discovered) :=
  installed_printers <- installed_printers ;;
  let cmd := "lpinfo --include-schemes usb -v" in
  r <- system_command cmd ;;
  let '(_, connected, _) := r in
  for_each (Py.splitlines connected) (discovered_entry installed_printers) ∅.

End WithHost.
End Main.

(** ** Vocabulary of the statements *)

(** Every character of [s] satisfies [f]. *)
Fixpoint all_chars (f : ascii -> bool) (s : string) : bool :=
  match s with
  | EmptyString => true
  | String c r => f c && all_chars f r
  end.

(** A computation only ever adds events to the trace. *)
Definition extends {A} (m : M A) : Prop :=
  forall s, exists t, events (m s).1 = events s ++ t.


Definition CR : string := String "013" EmptyString.

Definition head_outside (chars s : string) : bool :=
  match s with
  | EmptyString => true
  | String c _ => negb (Py.mem_char c chars)
  end.

(** Neither the first nor the last character of [s] belongs to [chars]. *)
Definition keeps_edges (chars s : string) : bool :=
  head_outside chars s && head_outside chars (String.rev s).

Definition TAB : string := String "009" EmptyString.

(** ** Machines to run the model on *)

Definition is_lpadmin (e : event) : bool :=
  match e with
  | Spawn cmd => Py.startswith cmd "lpadmin"
  | _ => false
  end.

Definition bench_uri : string :=
  "usb://Zebra%20Technologies/ZTC%20ZT410?serial=ABC123".

Definition bench_line : string := "direct " +:+ bench_uri.

(** A bench with one ZT410, serial ABC123, on [/dev/usb/lp0]; its queue
    shows up in [lpstat -v] once [lpadmin] has run. *)
Definition bench_host : Host := {|
  h_spawn := fun t cmd =>
    if String.eqb cmd Zeb.lpinfo_cmd then
      Some (0, "network lpd" +:+ newline +:+ bench_line +:+ newline, EmptyString)
    else if String.eqb cmd "lpstat -v" then
      Some (0,
            if existsb is_lpadmin t
            then "device for Zebra-Technologies-ZTC-ZT410-ABC123: "
                 +:+ bench_uri +:+ newline
            else EmptyString,
            EmptyString)
    else if Py.startswith cmd "udevadm" then Some (1, EmptyString, EmptyString)
    else Some (0, EmptyString, EmptyString);
  h_shell := fun _ cmd =>
    if String.eqb cmd Zeb.lsusb_cmd
    then (0, "0a5f:0120" +:+ newline, EmptyString)
    else (124, "  +10.0               DARKNESS          " +:+ String "013" newline,
          EmptyString);
  h_run := fun _ _ => Ok (0, EmptyString, EmptyString);
  h_listdir := fun _ _ => Some ["lp0"];
  h_isfile := fun _ _ => false;
  h_environ := fun _ key =>
    if String.eqb key "MFG_PRINTER_XXL" then Some "ABC123" else None;
  h_env_variables := fun _ _ => None;
  h_usb_find := fun _ _ _ => true;
  h_lp := fun _ _ => true
|}.

(** A machine without CUPS, udev or [/dev/usb]: nothing can be started. *)
Definition bare_host : Host := {|
  h_spawn := fun _ _ => None;
  h_shell := fun _ _ => (127, EmptyString, "not found");
  h_run := fun _ _ => Raise FileNotFoundError;
  h_listdir := fun _ _ => None;
  h_isfile := fun _ _ => false;
  h_environ := fun _ _ => None;
  h_env_variables := fun _ _ => None;
  h_usb_find := fun _ _ _ => false;
  h_lp := fun _ _ => false
|}.

(** A machine with two line-printer nodes, on which every command exits
    with status 0. *)
Definition twin_host : Host := {|
  h_spawn := fun _ cmd =>
    if String.eqb cmd "lpstat -v"
    then Some (0, "device for ZT-ABC123: " +:+ bench_uri +:+ newline, EmptyString)
    else Some (0, EmptyString, EmptyString);
  h_shell := fun _ _ => (0, EmptyString, EmptyString);
  h_run := fun _ _ => Ok (0, EmptyString, EmptyString);
  h_listdir := fun _ _ => Some ["lp0"; "lp1"];
  h_isfile := fun _ _ => true;
  h_environ := fun _ _ => None;
  h_env_variables := fun _ _ => None;
  h_usb_find := fun _ _ _ => false;
  h_lp := fun _ _ => true
|}.

(** A session bound to the bench printer, and one without device node. *)
Definition bench_session : Zeb.Zebra := {|
  Zeb.serial_number := "ABC123";
  Zeb.name := Some "Zebra-Technologies-ZTC-ZT410-ABC123";
  Zeb.vid := "0a5f";
  Zeb.pid := "0120";
  Zeb.lp_path := Some "/dev/usb/lp0"
|}.

Definition unreachable_session : Zeb.Zebra := {|
  Zeb.serial_number := "ABC123";
  Zeb.name := None;
  Zeb.vid := EmptyString;
  Zeb.pid := EmptyString;
  Zeb.lp_path := None
|}.

(** A fresh run, the operator about to type [x] and then [R]. *)
Definition start : state := {| events := []; answers := ["x"; "R"] |}.

(** ** Machines for the further properties *)

(** A machine described by what its commands print: [spawn] answers the
    commands started from an argument vector, [run] those of
    [subprocess.run], [entries] is the content of [/dev/usb/] and [environ]
    the process environment; nothing depends on the past. *)
Definition scripted_host
    (spawn : string -> option (Z * string * string))
    (run : string -> result (Z * string * string))
    (entries : option (list string))
    (environ : string -> option string) : Host := {|
  h_spawn := fun _ cmd => spawn cmd;
  h_shell := fun _ _ => (124, EmptyString, EmptyString);
  h_run := fun _ cmd => run cmd;
  h_listdir := fun _ _ => entries;
  h_isfile := fun _ _ => true;
  h_environ := fun _ key => environ key;
  h_env_variables := fun _ _ => None;
  h_usb_find := fun _ _ _ => true;
  h_lp := fun _ _ => true
|}.

(** [lpstat -v] and [lpinfo] both print [listing]. *)
Definition listing_host (listing : string) (entries : option (list string)) : Host :=
  scripted_host (fun _ => Some (0, listing, EmptyString))
                (fun _ => Ok (0, listing, EmptyString))
                entries (fun _ => None).

(** A session with a queue name and no USB ids. *)
Definition queued_session : Zeb.Zebra := {|
  Zeb.serial_number := "ABC123";
  Zeb.name := Some "ZT-ABC123";
  Zeb.vid := EmptyString;
  Zeb.pid := EmptyString;
  Zeb.lp_path := None
|}.

(** What a resolved device path looks like. *)
Definition is_lp_node (p : option string) : Prop :=
  p = None \/
  exists f, p = Some ("/dev/usb/" +:+ f) /\ Py.startswith f "lp" = true.

(** Three Zebra printers on the bus, no device node yet. *)
Definition three_listing : string :=
  "direct usb://Zebra/ZT410?serial=A1" +:+ newline +:+
  "direct usb://Zebra/ZT410?serial=B2" +:+ newline +:+
  "direct usb://Zebra/ZT410?serial=C3" +:+ newline.

Definition three_host : Host := listing_host three_listing (Some []).

(** The operator types [3], then [2]. *)
Definition picking : state := {| events := []; answers := ["3"; "2"] |}.

(** What [connected_printers] keeps true of its dictionary: the keys are
    pairwise distinct, every record is filed under its own serial, and no
    serial holds an equals sign. *)
Definition well_keyed (d : list (string * Zeb.printer_info)) : Prop :=
  List.NoDup (List.map fst d)
  /\ Forall (fun kv => Zeb.info_sn (snd kv) = fst kv
                       /\ Py.contains "=" (fst kv) = false) d.

(** Every value a computation returns satisfies [P]. *)
Definition returns {A} (P : A -> Prop) (m : M A) : Prop :=
  forall s s' r, m s = (s', Ok r) -> P r.

(** Events that change how the machine is set up: a persisted binding, a
    written file, a queue registration, a service restart or a reload of
    the device rules. *)
Definition changes_setup (e : event) : bool :=
  match e with
  | SetVariable _ _ | WriteFile _ _ => true
  | Spawn cmd => Py.startswith cmd "lpadmin"
  | OsSystem cmd => Py.startswith cmd "systemctl" || Py.startswith cmd "udevadm"
  | _ => false
  end.

(** A computation that adds events to the trace, none of which changes the
    set-up. *)
Definition leaves_setup {A} (m : M A) : Prop :=
  forall s, exists t,
    events (m s).1 = events s ++ t /\ forallb (fun e => negb (changes_setup e)) t = true.

(** A machine whose [lpstat -v] prints [queues] and whose [lpinfo] prints
    [devices], both through [subprocess.run]. *)
Definition cups_host (queues devices : string) : Host :=
  scripted_host (fun _ => None)
    (fun cmd => if String.eqb cmd "lpstat -v"
                then Ok (0, queues, EmptyString)
                else Ok (0, devices, EmptyString))
    None (fun _ => None).

(** The bench, installed. *)
Definition bench_cups : Host :=
  cups_host ("device for Zebra-Technologies-ZTC-ZT410-ABC123: " +:+ bench_uri +:+ newline)
            (bench_line +:+ newline).

(** The queue-registration command [install_printer] builds from the
    serial and from what follows [usb://] on the listing line. *)
Definition lpadmin_cmd (serial tail : string) : string :=
  let model := List.hd EmptyString (Py.split1 "?" tail) in
  let model := Py.replace "/" "-" (Py.replace "%20" "-" model) in
  "lpadmin -p '" +:+ model +:+ "-" +:+ serial
  +:+ "' -v '" +:+ ("usb://" +:+ tail) +:+ "' -E".

(** A bench whose USB bus listing shows no Zebra device. *)
Definition busless_host : Host := {|
  h_spawn := h_spawn bench_host;
  h_shell := fun _ _ => (1, EmptyString, EmptyString);
  h_run := h_run bench_host;
  h_listdir := h_listdir bench_host;
  h_isfile := h_isfile bench_host;
  h_environ := h_environ bench_host;
  h_env_variables := h_env_variables bench_host;
  h_usb_find := h_usb_find bench_host;
  h_lp := h_lp bench_host
|}.

(** A bench on which the printer is installed already and the rule file
    written. *)
Definition installed_host : Host := {|
  h_spawn := fun _ cmd =>
    if String.eqb cmd Zeb.lpinfo_cmd then Some (0, bench_line +:+ newline, EmptyString)
    else if String.eqb cmd "lpstat -v" then
      Some (0, "device for Zebra-Technologies-ZTC-ZT410-ABC123: " +:+ bench_uri
               +:+ newline, EmptyString)
    else Some (1, EmptyString, EmptyString);
  h_shell := h_shell bench_host;
  h_run := h_run bench_host;
  h_listdir := h_listdir bench_host;
  h_isfile := fun _ _ => true;
  h_environ := h_environ bench_host;
  h_env_variables := h_env_variables bench_host;
  h_usb_find := h_usb_find bench_host;
  h_lp := h_lp bench_host
|}.

(** The operator types [x], then [s]. *)
Definition supplementary : state := {| events := []; answers := ["x"; "s"] |}.

(** A machine with two serial adapters: [ttyUSB0] of vendor 0403 and model
    6001, [ttyUSB1] of vendor 067b and model 2303. *)
Definition adapters_host : Host := {|
  h_spawn := fun _ _ => Some (0, "Bus 001 Device 004: ID 0403:6001" +:+ newline
                                 +:+ "Bus 001 Device 005: ID 067b:2303" +:+ newline,
                              EmptyString);
  h_shell := fun _ cmd =>
    if String.eqb cmd (System.vendor_cmd "/dev/ttyUSB0") then (0, "0403" +:+ newline, EmptyString)
    else if String.eqb cmd (System.model_cmd "/dev/ttyUSB0") then (0, "6001" +:+ newline, EmptyString)
    else if String.eqb cmd (System.vendor_cmd "/dev/ttyUSB1") then (0, "067b" +:+ newline, EmptyString)
    else if String.eqb cmd (System.model_cmd "/dev/ttyUSB1") then (0, "2303" +:+ newline, EmptyString)
    else (1, EmptyString, EmptyString);
  h_run := fun _ _ => Raise FileNotFoundError;
  h_listdir := fun _ _ => None;
  h_isfile := fun _ _ => false;
  h_environ := fun _ _ => None;
  h_env_variables := fun _ _ => None;
  h_usb_find := fun _ _ _ => false;
  h_lp := fun _ _ => false
|}.

Definition adapter_links : list string := ["../../ttyUSB0"; "../../ttyUSB1"].

(** The device node a link target stands for. *)
Definition node_of (target : string) : string :=
  "/dev/" +:+ List.last (Py.rsplit1 "/" target) EmptyString.

(** The elements of a list up to and including the first one that
    satisfies [f]. *)
Fixpoint through {A} (f : A -> bool) (l : list A) : list A :=
  match l with
  | [] => []
  | x :: rest => x :: (if f x then [] else through f rest)
  end.

(** What a probe printed, without the surrounding white space. *)
Definition printed (r : Z * string * string) : string := Py.strip (snd (fst r)).

(** The key [installed_printers] files a listing line under. *)
Definition line_key (device : string) : string :=
  Py.strip_chars "device for " (List.hd EmptyString (Py.split1 ":" device)).

(** A computation all of whose new events satisfy [ok], whether it returns
    or raises. *)
Definition emits_only {A} (ok : event -> bool) (m : M A) : Prop :=
  forall s, exists t,
    events (m s).1 = events s ++ t /\ forallb ok t = true.

(** Events that hand nothing to a shell and store nothing: logging,
    prompting, sleeping, listing a directory, looking the USB device up or
    resetting it, and starting [lpinfo], [lpstat] or [udevadm info] from an
    argument vector. *)
Definition plain_event (e : event) : bool :=
  match e with
  | Log _ _ | Print _ | Sleep _ | ListDir _ | IsFile _ | Input _
  | UsbFind _ _ | UsbReset _ _ => true
  | Spawn cmd => Py.startswith cmd "lpinfo " || Py.startswith cmd "lpstat "
                 || Py.startswith cmd "udevadm info "
  | Shell _ | Run _ | OsSystem _ | WriteFile _ _ | SetVariable _ _ | Lp _ _ => false
  end.

(** What [print] adds: the constant command line [cancel -a -x] and the
    spooler client. *)
Definition print_event (e : event) : bool :=
  match e with
  | OsSystem cmd => String.eqb cmd "cancel -a -x"
  | Lp _ _ => true
  | _ => plain_event e
  end.

(** What [command] adds for a device path and a payload: the three command
    lines it builds from them, unquoted. *)
Definition device_event (path zpl : string) (e : event) : bool :=
  match e with
  | OsSystem cmd => String.eqb cmd ("echo ^XA^XZ > " +:+ path)
                    || String.eqb cmd ("echo " +:+ zpl +:+ " > " +:+ path)
  | Shell cmd => String.eqb cmd ("timeout 1s cat " +:+ path)
  | _ => plain_event e
  end.

(** ** Facts about the string built-ins *)

Section StringFacts.

Lemma append_cons c a b : String c a +:+ b = String c (a +:+ b).
Proof. reflexivity. Qed.

Lemma append_empty_l s : "" +:+ s = s.
Proof. reflexivity. Qed.

Lemma append_empty_r s : s +:+ "" = s.
Proof. induction s as [|c s IH]; [reflexivity|]. rewrite append_cons, IH. reflexivity. Qed.

Lemma append_assoc a b c : (a +:+ b) +:+ c = a +:+ (b +:+ c).
Proof. induction a as [|x a IH]; [reflexivity|]. rewrite !append_cons, IH. reflexivity. Qed.

Lemma append_length a b : String.length (a +:+ b) = (String.length a + String.length b)%nat.
Proof. induction a as [|x a IH]; [reflexivity|]. rewrite append_cons. simpl. rewrite IH. reflexivity. Qed.

Lemma rev_app_spec a b : String.rev_app a b = String.rev a +:+ b.
Proof.
  revert b. induction a as [|c a IH]; intro b; [reflexivity|].
  unfold String.rev. simpl. rewrite (IH (String c b)), (IH (String c "")).
  rewrite append_assoc. reflexivity.
Qed.

Lemma rev_cons c a : String.rev (String c a) = String.rev a +:+ String c "".
Proof. unfold String.rev at 1. simpl. apply rev_app_spec. Qed.

Lemma rev_append a b : String.rev (a +:+ b) = String.rev b +:+ String.rev a.
Proof.
  induction a as [|c a IH].
  - rewrite append_empty_r. reflexivity.
  - rewrite append_cons, !rev_cons, IH, append_assoc. reflexivity.
Qed.

Lemma rev_rev s : String.rev (String.rev s) = s.
Proof.
  induction s as [|c s IH]; [reflexivity|].
  rewrite rev_cons, rev_append, IH. reflexivity.
Qed.

Lemma strip_prefix_app sep r : Py.strip_prefix sep (sep +:+ r) = Some r.
Proof.
  induction sep as [|c sep IH]; [reflexivity|].
  rewrite append_cons. simpl. rewrite Ascii.eqb_refl. exact IH.
Qed.

Lemma strip_prefix_Some sep s r : Py.strip_prefix sep s = Some r -> s = sep +:+ r.
Proof.
  revert s. induction sep as [|c sep IH]; intros s H.
  - simpl in H. injection H as ->. reflexivity.
  - destruct s as [|d s]; [discriminate|]. simpl in H.
    destruct (Ascii.eqb c d) eqn:E; [|discriminate].
    apply Ascii.eqb_eq in E as ->. rewrite append_cons. f_equal. auto.
Qed.

Lemma strip_prefix_None_app sep u w :
  Py.strip_prefix sep u = None -> (String.length sep <= String.length u)%nat ->
  Py.strip_prefix sep (u +:+ w) = None.
Proof.
  revert u. induction sep as [|c sep IH]; intros u H L; [discriminate|].
  destruct u as [|d u]; [simpl in L; lia|].
  rewrite append_cons. simpl in *. destruct (Ascii.eqb c d); [|reflexivity].
  apply IH; [assumption|lia].
Qed.

Lemma cut_unfold sep s :
  Py.cut sep s =
    match Py.strip_prefix sep s with
    | Some r => Some (EmptyString, r)
    | None =>
        match s with
        | EmptyString => None
        | String c s' =>
            match Py.cut sep s' with
            | Some (a, b) => Some (String c a, b)
            | None => None
            end
        end
    end.
Proof. destruct s; reflexivity. Qed.

(** [cut] stops at the FIRST occurrence: when [sep' c] does not occur in
    [pre] followed by [sep'], the separator that follows [pre] is the one
    found. *)
Lemma cut_first sep' c pre r :
  Py.contains (sep' +:+ String c "") (pre +:+ sep') = false ->
  Py.cut (sep' +:+ String c "") (pre +:+ (sep' +:+ String c "") +:+ r) = Some (pre, r).
Proof.
  induction pre as [|d pre IH]; intro H.
  - change ("" +:+ ?x) with x.
    rewrite cut_unfold, strip_prefix_app. reflexivity.
  - unfold Py.contains in H. rewrite cut_unfold in H.
    rewrite append_cons in *.
    destruct (Py.strip_prefix (sep' +:+ String c "") (String d (pre +:+ sep'))) eqn:E1; [discriminate|].
    destruct (Py.cut (sep' +:+ String c "") (pre +:+ sep')) as [[a b]|] eqn:E2; [discriminate|].
    rewrite cut_unfold.
    assert (E3 : Py.strip_prefix (sep' +:+ String c "")
                   (String d (pre +:+ (sep' +:+ String c "") +:+ r)) = None).
    { replace (String d (pre +:+ (sep' +:+ String c "") +:+ r))
        with (String d (pre +:+ sep') +:+ (String c "" +:+ r)).
      - apply strip_prefix_None_app; [exact E1|].
        simpl. rewrite !append_length. simpl. lia.
      - rewrite append_cons. f_equal. rewrite !append_assoc. reflexivity. }
    rewrite E3. rewrite IH; [reflexivity|].
    unfold Py.contains. rewrite E2. reflexivity.
Qed.

(** What [cut] returns is an occurrence, and no occurrence starts
    earlier. *)
Lemma cut_Some sep s a b :
  Py.cut sep s = Some (a, b) ->
  s = a +:+ sep +:+ b /\
  forall p q, s = p +:+ sep +:+ q -> (String.length a <= String.length p)%nat.
Proof.
  revert a b. induction s as [|c s IH]; intros a b H; rewrite cut_unfold in H.
  - destruct (Py.strip_prefix sep "") eqn:E; [|discriminate].
    injection H as <- <-. split; [apply strip_prefix_Some in E; exact E|].
    intros; simpl; lia.
  - destruct (Py.strip_prefix sep (String c s)) eqn:E.
    + injection H as <- <-. split; [apply strip_prefix_Some in E; exact E|].
      intros; simpl; lia.
    + destruct (Py.cut sep s) as [[a' b']|] eqn:E2; [|discriminate].
      injection H as <- <-. destruct (IH _ _ eq_refl) as [-> Hmin].
      split; [reflexivity|]. intros [|d p] q Hq.
      * rewrite append_empty_l in Hq.
        rewrite Hq, strip_prefix_app in E. discriminate.
      * rewrite append_cons in Hq. injection Hq as -> Hq.
        apply Hmin in Hq. simpl. lia.
Qed.


Lemma cut_shrinks sep s a b :
  sep <> EmptyString -> Py.cut sep s = Some (a, b) ->
  (String.length b < String.length s)%nat.
Proof.
  intros Hsep H. apply cut_Some in H as [-> _].
  rewrite !append_length. destruct sep; [congruence|]. simpl. lia.
Qed.

Lemma split_fuel_irrelevant sep :
  sep <> EmptyString ->
  forall n m s, (String.length s <= n)%nat -> (String.length s <= m)%nat ->
  Py.split_fuel n sep s = Py.split_fuel m sep s.
Proof.
  intros Hsep. induction n as [|n IH]; intros m s Hn Hm.
  - destruct s; [|simpl in Hn; lia]. destruct m; [reflexivity|].
    simpl. destruct sep; [congruence|reflexivity].
  - destruct m as [|m].
    + destruct s; [|simpl in Hm; lia].
      simpl. destruct sep; [congruence|reflexivity].
    + simpl. destruct (Py.cut sep s) as [[a b]|] eqn:E; [|reflexivity].
      apply cut_shrinks in E; [|assumption]. f_equal. apply IH; lia.
Qed.

(** The fuel of [split] never runs out: [split] satisfies the equation
    of the unbounded recursion. *)
Lemma split_eq sep s :
  sep <> EmptyString ->
  Py.split sep s =
    match Py.cut sep s with
    | Some (a, b) => a :: Py.split sep b
    | None => [s]
    end.
Proof.
  intro Hsep. unfold Py.split. destruct s as [|c s].
  - simpl. destruct sep; [congruence|reflexivity].
  - change (String.length (String c s)) with (S (String.length s)).
    cbn [Py.split_fuel].
    destruct (Py.cut sep (String c s)) as [[a b]|] eqn:E; [|reflexivity].
    apply cut_shrinks in E; [|assumption]. f_equal.
    apply split_fuel_irrelevant; [assumption| simpl in E; lia | lia].
Qed.

Lemma lstrip_by_prefix f p s :
  all_chars f p = true -> Py.lstrip_by f (p +:+ s) = Py.lstrip_by f s.
Proof.
  induction p as [|c p IH]; intro H; [reflexivity|].
  simpl in H. apply andb_prop in H as [Hc Hp].
  rewrite append_cons. simpl. rewrite Hc. auto.
Qed.

End StringFacts.

(** ** Facts about runs *)

Section RunFacts.

Lemma extends_ret {A} (a : A) : extends (ret a).
Proof. intro s. exists []. simpl. rewrite app_nil_r. reflexivity. Qed.

Lemma extends_raise {A} e : extends (@raise A e).
Proof. intro s. exists []. simpl. rewrite app_nil_r. reflexivity. Qed.

Lemma extends_emit e : extends (emit e).
Proof. intro s. exists [e]. reflexivity. Qed.

Lemma extends_log l msg : extends (log l msg).
Proof. apply extends_emit. Qed.

Lemma extends_ask {A} e (oracle : trace -> A) : extends (ask e oracle).
Proof. intro s. exists [e]. reflexivity. Qed.

Lemma extends_peek {A} (oracle : trace -> A) : extends (peek oracle).
Proof. intro s. exists []. simpl. rewrite app_nil_r. reflexivity. Qed.

Lemma extends_bind {A B} (m : M A) (k : A -> M B) :
  extends m -> (forall a, extends (k a)) -> extends (bind m k).
Proof.
  intros Hm Hk s. unfold bind. destruct (Hm s) as [t Ht].
  destruct (m s) as [s' [a|e]]; simpl in Ht.
  - destruct (Hk a s') as [t' Ht']. exists (t ++ t').
    rewrite Ht', Ht, app_assoc. reflexivity.
  - exists t. exact Ht.
Qed.

Lemma extends_try_except {A} (m : M A) handled handler :
  extends m -> extends handler -> extends (try_except m handled handler).
Proof.
  intros Hm Hh s. unfold try_except. destruct (Hm s) as [t Ht].
  destruct (m s) as [s' [a|e]]; simpl in Ht.
  - exists t. exact Ht.
  - destruct (handled e).
    + destruct (Hh s') as [t' Ht']. exists (t ++ t').
      rewrite Ht', Ht, app_assoc. reflexivity.
    + exists t. exact Ht.
Qed.

Lemma extends_for_each {A B} (l : list A) (body : A -> B -> M B) acc :
  (forall x b, extends (body x b)) -> extends (for_each l body acc).
Proof.
  intro Hb. revert acc. induction l as [|x l IH]; intro acc; simpl.
  - apply extends_ret.
  - apply extends_bind; [apply Hb | intro; apply IH].
Qed.

Lemma extends_method {A} o (f : string -> A) : extends (method o f).
Proof. destruct o; [apply extends_ret | apply extends_raise]. Qed.

Lemma extends_is_in sub o : extends (is_in sub o).
Proof. destruct o; [apply extends_ret | apply extends_raise]. Qed.

Lemma extends_getitem {A} (l : list A) i : extends (getitem l i).
Proof.
  unfold getitem. destruct (nth_error l i); [apply extends_ret | apply extends_raise].
Qed.

Lemma extends_getlast {A} (l : list A) : extends (getlast l).
Proof.
  unfold getlast. destruct (List.rev l); [apply extends_raise | apply extends_ret].
Qed.

End RunFacts.

Create HintDb run_db.
#[export] Hint Resolve extends_ret extends_raise extends_emit extends_log
  extends_ask extends_peek extends_method extends_is_in extends_getitem
  extends_getlast : run_db.

(** Splits an [extends] goal along the structure of the computation. *)
Ltac extends_step :=
  match goal with
  | |- extends (bind _ _) => apply extends_bind; [|intros]
  | |- extends (try_except _ _ _) => apply extends_try_except
  | |- extends (for_each _ _ _) => apply extends_for_each; intros
  | |- extends (let '(_, _) := ?x in _) => destruct x
  | |- extends (match ?x with _ => _ end) => destruct x
  | |- extends _ => solve [auto with run_db]
  end.

Section ZebExtends.
Variable h : Host.

Lemma extends_system_command cmd : extends (Zeb.system_command h cmd).
Proof. unfold Zeb.system_command, System.system_command. repeat extends_step. Qed.

Lemma extends_listdir path : extends (Zeb.listdir h path).
Proof. unfold Zeb.listdir. repeat extends_step. Qed.

Lemma extends_usb_reset vid pid : extends (Zeb.usb_reset h vid pid).
Proof. unfold Zeb.usb_reset. repeat extends_step. Qed.

Hint Resolve extends_system_command extends_listdir extends_usb_reset : run_db.

Lemma extends_get_printer_name sn : extends (Zeb.get_printer_name h sn).
Proof. unfold Zeb.get_printer_name. repeat extends_step. Qed.

Hint Resolve extends_get_printer_name : run_db.

Lemma extends_find_lp_path sn : extends (Zeb.find_lp_path h sn).
Proof. unfold Zeb.find_lp_path. repeat extends_step. Qed.

Hint Resolve extends_find_lp_path : run_db.

Lemma extends_init sn vid pid : extends (Zeb.init h sn vid pid).
Proof. unfold Zeb.init. repeat extends_step. Qed.

Lemma extends_print self zpl : extends (Zeb.print h self zpl).
Proof. unfold Zeb.print. repeat extends_step. Qed.

Hint Resolve extends_print : run_db.

Lemma extends_test_print self : extends (Zeb.test_print h self).
Proof. unfold Zeb.test_print. repeat extends_step. Qed.

End ZebExtends.

(** ** The session protocol *)

(** Unfolds the plumbing of a run. *)
Ltac run :=
  cbv beta iota zeta delta
    [Zeb.system_command Zeb.pipeable_command System.system_command
     System.pipeable_command Zeb.listdir bind ask emit log ret raise
     peek method is_in try_except];
  cbn [events answers fst snd].

(** C5: [command] gives up at once, with the error tuple and an error
    line in the log, when the session has no device path; otherwise it
    writes the reset sequence to the device node, waits 100 ms, writes the
    payload, reads the node back through a separate one-second [timeout]
    process, in this order, and returns that read's status and text. *)
Theorem command_protocol (h : Host) (self : Zeb.Zebra) (zpl : string) (s : state) :
  (Zeb.lp_path self = None \/ Zeb.lp_path self = Some EmptyString ->
   Zeb.command h self zpl s =
     ({| events := events s ++
           [Log Error "The printer does not enumerate on /dev/usb/lpx on this system."];
         answers := answers s |},
      Ok (-1, None, None)))
  /\
  (forall path, Zeb.lp_path self = Some path -> path <> EmptyString ->
   let sent := events s ++ [OsSystem ("echo ^XA^XZ > " +:+ path);
                            Sleep 100;
                            OsSystem ("echo " +:+ zpl +:+ " > " +:+ path)] in
   let read := "timeout 1s cat " +:+ path in
   Zeb.command h self zpl s =
     ({| events := sent ++ [Shell read]; answers := answers s |},
      let '(status, stdout, stderr) := h_shell h sent read in
      Ok (status, Some stdout, Some stderr))).
Proof.
  split.
  - intros [H|H]; unfold Zeb.command; rewrite H; reflexivity.
  - intros path H Hne sent read. unfold Zeb.command. rewrite H.
    destruct path as [|c path]; [congruence|].
    subst sent read. run. cbn [truthy_opt Py.truthy negb default].
    rewrite <- !app_assoc. cbn [app].
    destruct (h_shell h _ _) as [[status stdout] stderr]. reflexivity.
Qed.

Lemma command_protocol_witness :
  Zeb.command bench_host unreachable_session "^XA^HH^XZ" start =
    ({| events := [Log Error "The printer does not enumerate on /dev/usb/lpx on this system."];
        answers := answers start |},
     Ok (-1, None, None))
  /\ Zeb.command bench_host bench_session "^XA^HH^XZ" start =
       ({| events := [OsSystem "echo ^XA^XZ > /dev/usb/lp0"; Sleep 100;
                      OsSystem "echo ^XA^HH^XZ > /dev/usb/lp0";
                      Shell "timeout 1s cat /dev/usb/lp0"];
           answers := answers start |},
        Ok (124, Some ("  +10.0               DARKNESS          " +:+ CR +:+ newline),
            Some EmptyString)).
Proof.
  split.
  - apply (proj1 (command_protocol bench_host unreachable_session "^XA^HH^XZ" start)).
    left. reflexivity.
  - apply (proj2 (command_protocol bench_host bench_session "^XA^HH^XZ" start)
             "/dev/usb/lp0"); [reflexivity | discriminate].
Defined.

(** C3: whatever the session and whatever the device answers, [get_config]
    returns [None] when the status of the exchange is not 124, and a
    parsed table can only come from a status equal to 124. *)
Theorem get_config_needs_124 (h : Host) (self : Zeb.Zebra) (s : state) :
  exists s' status stdout stderr,
    Zeb.command h self "^XA^HH^XZ" s = (s', Ok (status, stdout, stderr)) /\
    (status <> 124 -> Zeb.get_config h self s = (s', Ok None)) /\
    (forall s'' data,
       Zeb.get_config h self s = (s'', Ok (Some data)) -> status = 124).
Proof.
  assert (Hc : exists s' status stdout stderr,
             Zeb.command h self "^XA^HH^XZ" s = (s', Ok (status, stdout, stderr))).
  { unfold Zeb.command. destruct (negb (truthy_opt (Zeb.lp_path self))).
    - run. eauto.
    - run. destruct (h_shell h _ _) as [[st o] e]. eauto. }
  destruct Hc as (s' & status & stdout & stderr & Hc).
  exists s', status, stdout, stderr. split; [exact Hc|].
  unfold Zeb.get_config, bind. rewrite Hc.
  destruct (status =? 124) eqn:E; cbn [negb].
  - apply Z.eqb_eq in E. split; [congruence|auto].
  - split; [reflexivity|]. intros s'' data H. discriminate H.
Qed.

Lemma get_config_needs_124_witness :
  exists s', Zeb.get_config bench_host unreachable_session start = (s', Ok None).
Proof.
  destruct (get_config_needs_124 bench_host unreachable_session start)
    as (s' & status & stdout & stderr & Hc & Hnone & _).
  exists s'. apply Hnone. vm_compute in Hc. injection Hc as _ <- _ _.
  discriminate.
Defined.

(** C10: [connect] returns [None], after logging, when the role key is
    not in the process environment; when the key is there and its value
    does not split on [-] into exactly three fields, [connect] lets a
    [ValueError] escape. *)
Theorem connect_missing_or_malformed (h : Host) (printer : string) (s : state) :
  (h_environ h (events s) printer = None ->
   Zeb.connect h printer s =
     ({| events := events s ++
           [Log Error "It appears like MFG_PRINTER environment is not set!";
            Log Info "Run 'mfg-zebra --install' first."];
         answers := answers s |},
      Ok None))
  /\
  (forall binding,
     h_environ h (events s) printer = Some binding ->
     length (Py.split "-" binding) <> 3%nat ->
     Zeb.connect h printer s = (s, Raise ValueError)).
Proof.
  split.
  - intro H. unfold Zeb.connect. run. rewrite H. cbn.
    rewrite <- app_assoc. reflexivity.
  - intros binding H Hlen. unfold Zeb.connect. run. rewrite H.
    destruct (Py.split "-" binding) as [|a [|b [|c [|d l]]]]; try reflexivity.
    simpl in Hlen. congruence.
Qed.

Lemma connect_missing_or_malformed_witness :
  Zeb.connect bench_host "MFG_PRINTER" start =
    ({| events := [Log Error "It appears like MFG_PRINTER environment is not set!";
                   Log Info "Run 'mfg-zebra --install' first."];
        answers := answers start |},
     Ok None)
  /\ Zeb.connect bench_host "MFG_PRINTER_XXL" start = (start, Raise ValueError).
Proof.
  split.
  - apply (proj1 (connect_missing_or_malformed bench_host "MFG_PRINTER" start)).
    reflexivity.
  - apply (proj2 (connect_missing_or_malformed bench_host "MFG_PRINTER_XXL" start)
             "ABC123"); [reflexivity | vm_compute; lia].
Defined.

(** C9: whenever the enumeration yields exactly one printer,
    [choose_printer] does not return a session: it takes the first key of
    the map, a string, subscripts it with ["sn"] and raises [TypeError]. *)
Theorem choose_printer_single_raises (h : Host) (s s' : state)
    (connected : list (string * Zeb.printer_info)) :
  Zeb.connected_printers h s = (s', Ok connected) ->
  length connected = 1%nat ->
  Zeb.choose_printer h s = (s', Raise TypeError).
Proof.
  intros H Hlen. unfold Zeb.choose_printer, bind at 1. rewrite H.
  destruct connected as [|[sn info] [|? ?]]; try discriminate Hlen.
  reflexivity.
Qed.

Lemma choose_printer_single_raises_witness :
  Zeb.choose_printer bench_host start =
    ({| events := [Spawn Zeb.lpinfo_cmd; ListDir "/dev/usb/";
                   Spawn "udevadm info -a /dev/usb/lp0"];
        answers := answers start |},
     Raise TypeError).
Proof.
  eapply choose_printer_single_raises; [vm_compute; reflexivity | reflexivity].
Defined.

(** C6: when the connected-device listing holds no Zebra line, or more
    than one, [install_printer] returns [False] having only logged and
    queried the listing: no queue is registered and no binding written. *)
Theorem install_printer_aborts (h : Host) (s : state) status out err :
  h_spawn h (events s ++ [Log Info Zeb.discovering]) Zeb.lpinfo_cmd
    = Some (status, out, err) ->
  length (Zeb.zebra_lines out) <> 1%nat ->
  exists msg,
    Zeb.install_printer h s =
      ({| events := events s ++ [Log Info Zeb.discovering;
                                 Spawn Zeb.lpinfo_cmd;
                                 Log Error msg];
          answers := answers s |},
       Ok false).
Proof.
  intros H Hlen. unfold Zeb.install_printer. run. rewrite H. cbn.
  destruct (Zeb.zebra_lines out) as [|l1 [|l2 rest]] eqn:E.
  - eexists. cbn. rewrite <- !app_assoc. reflexivity.
  - simpl in Hlen. congruence.
  - eexists. cbn [length Nat.eqb Nat.ltb Nat.leb]. cbn [events answers].
    rewrite <- !app_assoc. reflexivity.
Qed.

Lemma install_printer_aborts_witness :
  exists msg,
    Zeb.install_printer twin_host start =
      ({| events := [Log Info Zeb.discovering; Spawn Zeb.lpinfo_cmd; Log Error msg];
          answers := answers start |},
       Ok false).
Proof.
  apply (install_printer_aborts twin_host start 0 EmptyString EmptyString);
    [reflexivity | vm_compute; lia].
Defined.

(** ** The configuration table *)

(** The loop body of [get_config], read off the non-empty fields of the
    line: the last of them is dropped before the fields are counted. *)
Lemma config_line_fields (line : string) (data : gmap string Zeb.value) :
  Zeb.config_line line data =
    match Py.filter_none (Py.split "  " line) with
    | [v; l; _] | [_; v; l; _] => <[ Py.strip l := Zeb.float_or_str v ]> data
    | _ => data
    end.
Proof.
  unfold Zeb.config_line, Zeb.fields.
  destruct (Py.filter_none (Py.split "  " line)) as [|a [|b [|c [|d [|e l]]]]];
    reflexivity.
Qed.

(** Evaluates the fields of a concrete line. *)
Ltac eval_fields :=
  rewrite config_line_fields;
  match goal with
  | |- context [Py.filter_none (Py.split ?sep ?line)] =>
      let l := eval vm_compute in (Py.filter_none (Py.split sep line)) in
      change (Py.filter_none (Py.split sep line)) with l
  end;
  cbv beta iota.

(** C2, as the code has it: the parser splits a line on two-space
    separators, drops the empty fields and then the last field that is
    left; a line with three non-empty fields (value, label, trailer) gives
    the entry label -> value and one with four gives the entry of its two
    middle fields, so that ["20.0  DARKNESS  \r"] maps to
    [{"DARKNESS": 20.0}] and ["  12  PRINT WIDTH  \r"] to
    [{"PRINT WIDTH": 12.0}]; a line with any other number of non-empty
    fields, five or more among them, contributes nothing. *)
Theorem config_line_reads_middle_fields :
  (forall line data,
     Zeb.config_line line data =
       match Py.filter_none (Py.split "  " line) with
       | [v; l; _] | [_; v; l; _] => <[ Py.strip l := Zeb.float_or_str v ]> data
       | _ => data
       end)
  /\ (forall data,
        Zeb.config_line ("20.0  DARKNESS  " +:+ CR) data
          = <[ "DARKNESS" := Zeb.VFloat (Py.Finite 20) ]> data)
  /\ (forall data,
        Zeb.config_line ("  12  PRINT WIDTH  " +:+ CR) data
          = <[ "PRINT WIDTH" := Zeb.VFloat (Py.Finite 12) ]> data)
  /\ (forall line data,
        (5 <= length (Py.filter_none (Py.split "  " line)))%nat ->
        Zeb.config_line line data = data).
Proof.
  split; [exact config_line_fields|].
  split; [intro data; eval_fields; reflexivity|].
  split; [intro data; eval_fields; reflexivity|].
  intros line data H. rewrite config_line_fields.
  destruct (Py.filter_none (Py.split "  " line)) as [|a [|b [|c [|d [|e l]]]]];
    simpl in H; try lia; reflexivity.
Qed.

Lemma config_line_reads_middle_fields_witness :
  Zeb.config_line "a  b  c  d  e" ∅ = ∅.
Proof.
  apply (proj2 (proj2 (proj2 config_line_reads_middle_fields))).
  vm_compute. lia.
Defined.

(** The examples of the specification, on the code: a line that ends with
    its label has the label dropped and gives nothing, and a line with four
    non-empty fields is not ignored. *)
Lemma config_line_examples_differ :
  Zeb.config_line "20.0  DARKNESS" ∅ = ∅
  /\ Zeb.config_line "  12  PRINT WIDTH  " ∅ = ∅
  /\ Zeb.config_line "a  12  WIDTH  x" ∅
       = {[ "WIDTH" := Zeb.VFloat (Py.Finite 12) ]}.
Proof.
  repeat split; eval_fields; reflexivity.
Qed.

(** ** Enumeration *)

(** A loop whose body leaves the accumulator alone on every element. *)
Lemma for_each_skip {A B} (l : list A) (body : A -> B -> M B) (acc : B) (s : state) :
  Forall (fun x => forall b s', body x b s' = (s', Ok b)) l ->
  for_each l body acc s = (s, Ok acc).
Proof.
  induction 1 as [|x l Hx _ IH]; [reflexivity|].
  simpl. unfold bind. rewrite Hx. exact IH.
Qed.

Lemma filter_nil_Forall {A} (f : A -> bool) (l : list A) :
  List.filter f l = [] -> Forall (fun x => f x = false) l.
Proof.
  induction l as [|x l IH]; simpl; [constructor|].
  destruct (f x) eqn:E; [discriminate|]. constructor; auto.
Qed.

(** C4, as the code has it: when the listing command of an enumeration
    runs and prints no Zebra-marked line, as a command that fails with
    empty output does, the result is the empty map whatever the exit
    status; nothing is raised and nothing is logged. *)
Theorem enumeration_without_zebra_lines (h : Host) (s : state) status out err :
  (h_spawn h (events s) Zeb.lpinfo_cmd = Some (status, out, err) ->
   List.filter (Py.contains "Zebra") (Py.split newline (Py.strip out)) = [] ->
   Zeb.connected_printers h s =
     ({| events := events s ++ [Spawn Zeb.lpinfo_cmd]; answers := answers s |},
      Ok []))
  /\
  (h_run h (events s) "lpstat -v" = Ok (status, out, err) ->
   List.filter Main.is_zebra_line (Py.splitlines out) = [] ->
   Main.installed_printers h s =
     ({| events := events s ++ [Run "lpstat -v"]; answers := answers s |},
      Ok ∅)).
Proof.
  split; intros H Hnone.
  - unfold Zeb.connected_printers. run. rewrite H.
    apply for_each_skip. apply filter_nil_Forall in Hnone.
    eapply Forall_impl; [exact Hnone|]. cbv beta. intros dev Hdev b s'.
    rewrite Hdev. reflexivity.
  - unfold Main.installed_printers, Main.system_command. run. rewrite H.
    apply for_each_skip. apply filter_nil_Forall in Hnone.
    eapply Forall_impl; [exact Hnone|]. cbv beta. intros dev Hdev b s'.
    unfold Main.installed_entry. rewrite Hdev. reflexivity.
Qed.

Lemma enumeration_without_zebra_lines_witness :
  Zeb.connected_printers twin_host start =
    ({| events := [Spawn Zeb.lpinfo_cmd]; answers := answers start |}, Ok [])
  /\ Main.installed_printers bench_host start =
       ({| events := [Run "lpstat -v"]; answers := answers start |}, Ok ∅).
Proof.
  split.
  - apply (proj1 (enumeration_without_zebra_lines twin_host start 0
                    EmptyString EmptyString)); reflexivity.
  - apply (proj2 (enumeration_without_zebra_lines bench_host start 0
                    EmptyString EmptyString)); reflexivity.
Defined.

(** Where the listing command cannot be started, [system_command] hands
    back [None] for the output and [connected_printers] raises on it, and
    [subprocess.run] of [installed_printers] raises by itself. *)
Lemma enumeration_raises_without_cups :
  Zeb.connected_printers bare_host start =
    ({| events := [Spawn Zeb.lpinfo_cmd]; answers := answers start |},
     Raise AttributeError)
  /\ Main.installed_printers bare_host start =
       ({| events := [Run "lpstat -v"]; answers := answers start |},
        Raise FileNotFoundError).
Proof. split; reflexivity. Qed.

(** ** Resolving the device node *)





(** ** The installed-queue listing *)

Section ListingFacts.

Lemma contains_char_cons c d s :
  Py.contains (String c "") (String d s)
    = Ascii.eqb c d || Py.contains (String c "") s.
Proof.
  unfold Py.contains. rewrite cut_unfold. cbn [Py.strip_prefix].
  destruct (Ascii.eqb c d); [reflexivity|].
  destruct (Py.cut (String c "") s) as [[a b]|]; reflexivity.
Qed.

Lemma contains_char_app c a b :
  Py.contains (String c "") (a +:+ b)
    = Py.contains (String c "") a || Py.contains (String c "") b.
Proof.
  induction a as [|d a IH]; [reflexivity|].
  rewrite append_cons, !contains_char_cons, IH, orb_assoc. reflexivity.
Qed.

Lemma contains_char_all c s :
  Py.contains (String c "") s = false ->
  all_chars (fun d => negb (Ascii.eqb d c)) s = true.
Proof.
  induction s as [|d s IH]; [reflexivity|].
  rewrite contains_char_cons. intro H. apply orb_false_elim in H as [H1 H2].
  simpl. rewrite Ascii.eqb_sym, H1. simpl. auto.
Qed.

Lemma span_by_app f body rest :
  all_chars f body = true ->
  (rest = EmptyString \/ exists d r, rest = String d r /\ f d = false) ->
  Py.span_by f (body +:+ rest) = (body, rest).
Proof.
  intros Hall Hrest. induction body as [|c body IH].
  - rewrite append_empty_l. destruct Hrest as [->|(d & r & -> & Hd)]; [reflexivity|].
    simpl. rewrite Hd. reflexivity.
  - simpl in Hall. apply andb_prop in Hall as [Hc Hall].
    rewrite append_cons. simpl. rewrite Hc, (IH Hall). reflexivity.
Qed.

Lemma lstrip_by_head f chars s :
  (forall c, f c = Py.mem_char c chars) ->
  head_outside chars s = true -> Py.lstrip_by f s = s.
Proof.
  intros Hf H. destruct s as [|c s]; [reflexivity|].
  simpl in *. rewrite Hf. destruct (Py.mem_char c chars); [discriminate|reflexivity].
Qed.

(** Stripping a character set takes a prefix made of its characters away
    and stops at a text whose two ends are outside the set. *)
Lemma strip_chars_prefix chars p s :
  all_chars (fun c => Py.mem_char c chars) p = true ->
  keeps_edges chars s = true ->
  Py.strip_chars chars (p +:+ s) = s.
Proof.
  intros Hp Hs. apply andb_prop in Hs as [Hhead Hlast].
  unfold Py.strip_chars, Py.strip_by, Py.rstrip_by.
  rewrite lstrip_by_prefix by exact Hp.
  rewrite (lstrip_by_head _ chars s) by (auto || reflexivity).
  rewrite (lstrip_by_head _ chars (String.rev s)) by (auto || reflexivity).
  apply rev_rev.
Qed.

End ListingFacts.

Lemma for_each_app {A B} (l1 l2 : list A) (body : A -> B -> M B) acc s :
  for_each (l1 ++ l2) body acc s
    = bind (for_each l1 body acc) (for_each l2 body) s.
Proof.
  revert acc s. induction l1 as [|x l1 IH]; intros acc s.
  - reflexivity.
  - cbn [app for_each]. unfold bind.
    destruct (body x acc s) as [s1 [acc1|e]]; [|reflexivity].
    rewrite IH. reflexivity.
Qed.

Lemma getitem_split1_head sep s st :
  getitem (Py.split1 sep s) 0 st = (st, Ok (List.hd EmptyString (Py.split1 sep s))).
Proof. unfold Py.split1. destruct (Py.cut sep s) as [[a b]|]; reflexivity. Qed.

(** A line that is not of interest, or carries a URI, is read without
    touching the entries filed under other keys. *)
Lemma installed_entry_other (l : string) (m : gmap string string) (s : state) :
  (Main.is_zebra_line l = true -> Py.contains "usb://" l = true) ->
  exists m',
    Main.installed_entry l m s = (s, Ok m')
    /\ forall key, (Main.is_zebra_line l = true -> line_key l <> key) ->
                   m' !! key = m !! key.
Proof.
  intro Huri. unfold Main.installed_entry.
  destruct (Main.is_zebra_line l); [|exists m; split; reflexivity].
  specialize (Huri eq_refl). unfold Main.search_usb_uri.
  unfold Py.contains in Huri.
  destruct (Py.cut "usb://" l) as [[a r]|]; [|discriminate].
  unfold bind. rewrite getitem_split1_head. eexists. split; [reflexivity|].
  intros key Hkey. apply lookup_insert_ne. apply Hkey. reflexivity.
Qed.

Lemma installed_loop_other (lines : list string) :
  Forall (fun l => Main.is_zebra_line l = true -> Py.contains "usb://" l = true)
    lines ->
  forall (m : gmap string string) (s : state),
  exists m',
    for_each lines Main.installed_entry m s = (s, Ok m')
    /\ forall key,
         Forall (fun l => Main.is_zebra_line l = true -> line_key l <> key) lines ->
         m' !! key = m !! key.
Proof.
  induction 1 as [|l lines Hl _ IH]; intros m s.
  - exists m. split; reflexivity.
  - destruct (installed_entry_other l m s Hl) as (m1 & E1 & K1).
    destruct (IH m1 s) as (m2 & E2 & K2).
    exists m2. split.
    + cbn [for_each]. unfold bind. rewrite E1. exact E2.
    + intros key Hkey. apply Forall_cons_iff in Hkey as [Hk Hrest].
      rewrite (K2 key Hrest). apply K1. exact Hk.
Qed.

(** What the loop body makes of a line [device for NAME: ... usb://BODY...]. *)
Lemma installed_entry_line (name mid body rest : string)
    (printers : gmap string string) (s : state) :
  let device :=
    "device for " +:+ name +:+ ":" +:+ mid +:+ "usb://" +:+ body +:+ rest in
  Main.is_zebra_line device = true ->
  Py.contains ":" name = false ->
  Py.contains "usb://" ("device for " +:+ name +:+ ":" +:+ mid +:+ "usb:/") = false ->
  Py.contains " " body = false ->
  (rest = EmptyString \/ Py.startswith rest " " = true) ->
  Main.installed_entry device printers s
    = (s, Ok (<[ line_key device := "usb://" +:+ body ]> printers))
  /\ (keeps_edges "device for " name = true -> line_key device = name).
Proof.
  intros device Hzebra Hcolon Hfirst Hbody Hrest.
  assert (Huri : Main.search_usb_uri device = Some ("usb://" +:+ body)).
  { unfold Main.search_usb_uri.
    assert (Hcut : Py.cut "usb://" device
                   = Some ("device for " +:+ name +:+ ":" +:+ mid, body +:+ rest)).
    { subst device.
      replace ("device for " +:+ name +:+ ":" +:+ mid +:+ "usb://" +:+ body +:+ rest)
        with (("device for " +:+ name +:+ ":" +:+ mid)
              +:+ ("usb:/" +:+ String "/" "") +:+ (body +:+ rest))
        by (rewrite !append_assoc; reflexivity).
      apply (cut_first "usb:/" "/").
      rewrite !append_assoc. exact Hfirst. }
    rewrite Hcut. rewrite span_by_app; [reflexivity | |].
    - apply contains_char_all in Hbody. exact Hbody.
    - destruct Hrest as [->|Hrest]; [left; reflexivity|right].
      destruct rest as [|d r]; [discriminate|]. exists d, r. split; [reflexivity|].
      unfold Py.startswith in Hrest. cbn [Py.strip_prefix] in Hrest.
      destruct (Ascii.eqb " " d) eqn:E; [|discriminate].
      apply Ascii.eqb_eq in E. subst d. reflexivity. }
  assert (Hhead : Py.split1 ":" device
                  = ["device for " +:+ name; mid +:+ "usb://" +:+ body +:+ rest]).
  { unfold Py.split1. subst device.
    replace ("device for " +:+ name +:+ ":" +:+ mid +:+ "usb://" +:+ body +:+ rest)
      with (("device for " +:+ name) +:+ ("" +:+ String ":" "")
            +:+ (mid +:+ "usb://" +:+ body +:+ rest))
      by (rewrite !append_assoc; reflexivity).
    rewrite (cut_first "" ":"); [reflexivity|].
    rewrite append_empty_l, append_empty_r, contains_char_app, Hcolon. reflexivity. }
  split.
  - unfold Main.installed_entry. rewrite Hzebra, Huri.
    unfold bind. rewrite getitem_split1_head. reflexivity.
  - intro Hedges. unfold line_key. rewrite Hhead. cbn [List.hd].
    apply strip_chars_prefix; [reflexivity | exact Hedges].
Qed.

(** C8, as the code has it: in a listing whose lines with a Zebra marker
    all carry [usb://], a marked line [device for NAME: ... usb://BODY...]
    makes [installed_printers] take as URI the text from the first [usb://]
    up to the next SPACE character or the end of the line, and file it
    under the key it reads from that line, where it stays unless a later
    line is filed under the same key; when NAME neither begins nor ends
    with a character of ["device for "], that key is NAME, the text before
    the first colon without the [device for ] prefix. *)
Theorem installed_printers_extracts (h : Host) (s : state)
    (status : Z) (installed err : string) (before after : list string)
    (name mid body rest : string) :
  let device :=
    "device for " +:+ name +:+ ":" +:+ mid +:+ "usb://" +:+ body +:+ rest in
  h_run h (events s) "lpstat -v" = Ok (status, installed, err) ->
  Py.splitlines installed = before ++ device :: after ->
  Forall (fun l => Main.is_zebra_line l = true -> Py.contains "usb://" l = true)
    (before ++ after) ->
  Main.is_zebra_line device = true ->
  Py.contains ":" name = false ->
  Py.contains "usb://" ("device for " +:+ name +:+ ":" +:+ mid +:+ "usb:/") = false ->
  Py.contains " " body = false ->
  (rest = EmptyString \/ Py.startswith rest " " = true) ->
  exists printers,
    Main.installed_printers h s
      = ({| events := events s ++ [Run "lpstat -v"]; answers := answers s |},
         Ok printers)
    /\ (Forall (fun l => Main.is_zebra_line l = true -> line_key l <> line_key device)
          after ->
        printers !! line_key device = Some ("usb://" +:+ body))
    /\ (keeps_edges "device for " name = true -> line_key device = name).
Proof.
  intros device Hrun Hlines Hothers Hzebra Hcolon Hfirst Hbody Hrest.
  apply Forall_app in Hothers as [Hbefore Hafter].
  destruct (installed_entry_line name mid body rest) with (printers := (∅ : gmap string string)) (s := s)
    as [_ Hname]; try assumption.
  unfold Main.installed_printers, Main.system_command.
  cbv beta iota zeta delta [bind ask ret raise]. cbn [events answers].
  rewrite Hrun. cbn iota beta. rewrite Hlines, for_each_app.
  set (s1 := {| events := events s ++ [Run "lpstat -v"]; answers := answers s |}).
  destruct (installed_loop_other before Hbefore ∅ s1) as (m0 & E0 & _).
  unfold bind at 1. rewrite E0. cbn [for_each]. unfold bind at 1.
  destruct (installed_entry_line name mid body rest m0 s1) as [E1 _];
    try assumption.
  fold device in E1. rewrite E1.
  destruct (installed_loop_other after Hafter
              (<[ line_key device := "usb://" +:+ body ]> m0) s1)
    as (m2 & E2 & K2).
  exists m2. split; [exact E2|]. split; [|exact Hname].
  intro Hkeys. rewrite (K2 _ Hkeys). apply lookup_insert_eq.
Qed.

Lemma installed_printers_extracts_witness :
  exists printers,
    Main.installed_printers
      (cups_host ("device for office: usb://Zebra/ZT230?serial=XYZ789 (idle)"
                  +:+ newline
                  +:+ "device for Zebra-Technologies-ZTC-ZT410-ABC123: "
                  +:+ bench_uri +:+ " (idle)" +:+ newline
                  +:+ "device for laser: socket://10.0.0.7" +:+ newline)
                 EmptyString) start
      = ({| events := [Run "lpstat -v"]; answers := answers start |}, Ok printers)
    /\ printers !! "Zebra-Technologies-ZTC-ZT410-ABC123" = Some bench_uri.
Proof.
  destruct (installed_printers_extracts
              (cups_host ("device for office: usb://Zebra/ZT230?serial=XYZ789 (idle)"
                          +:+ newline
                          +:+ "device for Zebra-Technologies-ZTC-ZT410-ABC123: "
                          +:+ bench_uri +:+ " (idle)" +:+ newline
                          +:+ "device for laser: socket://10.0.0.7" +:+ newline)
                         EmptyString) start
              0 ("device for office: usb://Zebra/ZT230?serial=XYZ789 (idle)"
                 +:+ newline
                 +:+ "device for Zebra-Technologies-ZTC-ZT410-ABC123: "
                 +:+ bench_uri +:+ " (idle)" +:+ newline
                 +:+ "device for laser: socket://10.0.0.7" +:+ newline)
              EmptyString
              ["device for office: usb://Zebra/ZT230?serial=XYZ789 (idle)"]
              ["device for laser: socket://10.0.0.7"]
              "Zebra-Technologies-ZTC-ZT410-ABC123" " "
              "Zebra%20Technologies/ZTC%20ZT410?serial=ABC123" " (idle)")
    as (printers & Hrun & Hfiled & Hname);
    try reflexivity.
  - repeat constructor; vm_compute; congruence.
  - right. reflexivity.
  - exists printers. split; [exact Hrun|].
    rewrite <- (Hname eq_refl). apply Hfiled.
    repeat constructor. vm_compute. discriminate.
Defined.

(** A URI followed by a tabulation is not cut at the tabulation: the
    pattern stops at a space only.  The line alone, and as the listing
    [lpstat -v] prints. *)
Lemma installed_entry_uri_runs_past_tab :
  Main.installed_entry
    ("device for ZT410-ABC123: usb://Zebra/ZT410?serial=ABC123" +:+ TAB +:+ "(idle)")
    ∅ start
  = (start,
     Ok {[ "ZT410-ABC123" :=
             "usb://Zebra/ZT410?serial=ABC123" +:+ TAB +:+ "(idle)" ]})
  /\ Main.installed_printers
       (cups_host ("device for ZT410-ABC123: usb://Zebra/ZT410?serial=ABC123"
                   +:+ TAB +:+ "(idle)" +:+ newline) EmptyString) start
     = ({| events := [Run "lpstat -v"]; answers := answers start |},
        Ok {[ "ZT410-ABC123" :=
                "usb://Zebra/ZT410?serial=ABC123" +:+ TAB +:+ "(idle)" ]}).
Proof. split; reflexivity. Qed.

(** [strip("device for ")] removes characters, not a prefix: a queue name
    that ends in such characters loses them. *)
Lemma installed_entry_name_loses_characters :
  Main.installed_entry
    ("device for Zebra-ZT410-front-office: usb://Zebra/ZT410?serial=ABC123")
    ∅ start
  = (start, Ok {[ "Zebra-ZT410-front-" := "usb://Zebra/ZT410?serial=ABC123" ]}).
Proof. reflexivity. Qed.

(** ** Installation *)

(** Evaluates a closed term in place. *)
Ltac eval_closed t :=
  let v := eval vm_compute in t in change t with v.

Lemma ask_role_primary junk a rest t :
  Forall (fun x => Py.lower x <> "r" /\ Py.lower x <> "s") junk ->
  Py.lower a = "r" ->
  exists asked,
    Zeb.ask_role (junk ++ a :: rest) t
      = ({| events := t ++ asked; answers := rest |}, Ok false).
Proof.
  intros Hjunk Ha. revert t. induction Hjunk as [|x junk [Hr Hs] _ IH]; intro t.
  - cbn [app Zeb.ask_role]. rewrite Ha. cbn. eexists. reflexivity.
  - cbn [app Zeb.ask_role].
    apply String.eqb_neq in Hr, Hs. rewrite Hr, Hs.
    destruct (IH (t ++ [Log Info Zeb.role_prompt; Prompt.input_event "Your input"]))
      as [asked ->].
    eexists. rewrite <- app_assoc. reflexivity.
Qed.

Lemma install_tail_extends (h : Host) sn vid pid st :
  exists after,
    events
      (let (s', r) := Zeb.init h sn vid pid st in
       match r with
       | Ok zebra =>
           let (s'', r') := Zeb.test_print h zebra s' in
           match r' with
           | Ok _ => (s'', Ok true)
           | Raise e => (s'', Raise e)
           end
       | Raise e => (s', Raise e)
       end).1
    = events st ++ after.
Proof.
  apply (extends_bind (Zeb.init h sn vid pid)
           (fun zebra => Zeb.test_print h zebra ;;; ret true)).
  - apply extends_init.
  - intro zebra. apply extends_bind; [apply extends_test_print|].
    intro. apply extends_ret.
Qed.

(** C1, as the code has it: with exactly one Zebra line in the
    connected-device listing, carrying the URI
    [usb://Zebra%20Technologies/ZTC%20ZT410?serial=ABC123], and no mention
    of ABC123 in the installed-queue listing, [install_printer] registers
    with that URI a queue named after the WHOLE path of the URI,
    [Zebra-Technologies-ZTC-ZT410-ABC123], and, once the operator has
    answered [r], persists [ABC123-<vid>-<pid>] under [MFG_PRINTER]. *)
Theorem install_printer_registers_and_persists (h : Host) (s : state)
    status out err status' out' err' shell_status lsusb shell_err vid pid junk a rest :
  let t1 := events s ++ [Log Info Zeb.discovering] in
  h_spawn h t1 Zeb.lpinfo_cmd = Some (status, out, err) ->
  Zeb.zebra_lines out = [bench_line] ->
  h_spawn h (t1 ++ [Spawn Zeb.lpinfo_cmd]) "lpstat -v" = Some (status', out', err') ->
  Py.contains "ABC123" out' = false ->
  (forall t, h_shell h t Zeb.lsusb_cmd = (shell_status, lsusb, shell_err)) ->
  Py.split ":" (Zeb.bytes_strip lsusb) = [vid; pid] ->
  answers s = junk ++ a :: rest ->
  Forall (fun x => Py.lower x <> "r" /\ Py.lower x <> "s") junk ->
  Py.lower a = "r" ->
  exists before between after,
    events (Zeb.install_printer h s).1 =
      events s ++ before
      ++ [Spawn ("lpadmin -p 'Zebra-Technologies-ZTC-ZT410-ABC123' -v '"
                 +:+ bench_uri +:+ "' -E")]
      ++ between
      ++ [SetVariable "MFG_PRINTER" ("ABC123-" +:+ vid +:+ "-" +:+ pid)]
      ++ after.
Proof.
  intros t1 Hlpinfo Hlines Hlpstat Hfresh Hlsusb Hids Hanswers Hjunk Ha.
  unfold Zeb.install_printer. run. fold t1. rewrite Hlpinfo. rewrite Hlines.
  cbn [length Nat.eqb Nat.ltb Nat.leb getitem nth_error]. run.
  match goal with |- context [getitem ?l 1] => eval_closed l end.
  cbn [getitem nth_error]. run.
  match goal with |- context [getitem ?l 1] => eval_closed l end.
  cbn [getitem nth_error]. run.
  match goal with |- context [getlast ?l] => eval_closed l end.
  cbn [getlast List.rev app]. run.
  match goal with |- context [getitem ?l 0] => eval_closed l end.
  cbn [getitem nth_error]. run.
  cbn [Py.truthy negb]. run. rewrite Hlpstat. run. rewrite Hfresh. cbn [negb]. run.
  repeat match goal with |- context [Py.replace ?x ?y ?z] =>
    eval_closed (Py.replace x y z) end.
  match goal with |- context [h_spawn ?h' ?t ?c] => destruct (h_spawn h' t c) as [[[? ?] ?]|] end.
  all: run; rewrite Hlsusb, Hids; run.
  all: match goal with |- context [h_isfile ?h' ?t ?p] => destruct (h_isfile h' t p) end.
  all: cbn [negb]; run; rewrite Hanswers.
  all: match goal with |- context [Zeb.ask_role _ ?t] =>
         destruct (ask_role_primary junk a rest t Hjunk Ha) as [asked ->] end.
  all: run.
  all: match goal with |- context [Zeb.init ?h' ?x ?y ?z ?st] =>
         destruct (install_tail_extends h' x y z st) as [after ->] end.
  all: cbn [events]; unfold t1.
  all: exists [Log Info Zeb.discovering; Spawn Zeb.lpinfo_cmd; Spawn "lpstat -v";
               Log Info "Printer must be installed first.";
               Log Info ("lpadmin -p 'Zebra-Technologies-ZTC-ZT410-ABC123' -v '"
                         +:+ bench_uri +:+ "' -E")].
  all: first
    [ exists ([Log Info "Restarting cups.service..."; OsSystem "systemctl restart cups";
               Sleep 2000; Shell Zeb.lsusb_cmd; IsFile Zeb.rules_file] ++ asked),
        after; rewrite <- !app_assoc; reflexivity
    | eexists ([Log Info "Restarting cups.service..."; OsSystem "systemctl restart cups";
                Sleep 2000; Shell Zeb.lsusb_cmd; IsFile Zeb.rules_file; _; _] ++ asked),
        after; rewrite <- !app_assoc; reflexivity ].
Qed.

Lemma install_printer_registers_and_persists_witness :
  exists before between after,
    events (Zeb.install_printer bench_host start).1 =
      [] ++ before
      ++ [Spawn ("lpadmin -p 'Zebra-Technologies-ZTC-ZT410-ABC123' -v '"
                 +:+ bench_uri +:+ "' -E")]
      ++ between
      ++ [SetVariable "MFG_PRINTER" ("ABC123-" +:+ "0a5f" +:+ "-" +:+ "0120")]
      ++ after.
Proof.
  apply (install_printer_registers_and_persists bench_host start
           0 ("network lpd" +:+ newline +:+ bench_line +:+ newline) EmptyString
           0 EmptyString EmptyString
           0 ("0a5f:0120" +:+ newline) EmptyString "0a5f" "0120" ["x"] "R" []);
    try reflexivity.
  constructor; [|constructor]. split; vm_compute; discriminate.
Defined.

(** On the bench the one queue [install_printer] registers carries the
    vendor part of the URI path in its name. *)
Lemma install_printer_queue_name_has_vendor :
  List.filter is_lpadmin (events (Zeb.install_printer bench_host start).1)
  = [Spawn ("lpadmin -p 'Zebra-Technologies-ZTC-ZT410-ABC123' -v '"
            +:+ bench_uri +:+ "' -E")].
Proof. vm_compute. reflexivity. Qed.

(** * Further properties of the code *)

(** ** More facts about the string built-ins *)

Section MoreStringFacts.

Lemma contains_intro sub p q : Py.contains sub (p +:+ sub +:+ q) = true.
Proof.
  unfold Py.contains. induction p as [|c p IH].
  - rewrite append_empty_l, cut_unfold, strip_prefix_app. reflexivity.
  - rewrite append_cons, cut_unfold.
    destruct (Py.strip_prefix sub (String c (p +:+ sub +:+ q))); [reflexivity|].
    destruct (Py.cut sub (p +:+ sub +:+ q)) as [[a b]|]; [reflexivity|discriminate].
Qed.

Lemma contains_elim sub s :
  Py.contains sub s = true -> exists p q, s = p +:+ sub +:+ q.
Proof.
  unfold Py.contains. destruct (Py.cut sub s) as [[a b]|] eqn:E; [|discriminate].
  intros _. apply cut_Some in E as [-> _]. eauto.
Qed.

(** A piece of a split is a piece of the text. *)
Lemma split_fuel_In sep piece n s :
  In piece (Py.split_fuel n sep s) -> exists a b, s = a +:+ piece +:+ b.
Proof.
  revert s. induction n as [|n IH]; intros s H.
  - destruct H as [<-|[]]. exists EmptyString, EmptyString.
    rewrite append_empty_l, append_empty_r. reflexivity.
  - simpl in H. destruct (Py.cut sep s) as [[x y]|] eqn:E.
    + apply cut_Some in E as [-> _]. destruct H as [<-|H].
      * exists EmptyString, (sep +:+ y). reflexivity.
      * apply IH in H as (a & b & ->). exists (x +:+ sep +:+ a), b.
        rewrite !append_assoc. reflexivity.
    + destruct H as [<-|[]]. exists EmptyString, EmptyString.
      rewrite append_empty_l, append_empty_r. reflexivity.
Qed.

Lemma contains_piece sep sub piece s :
  In piece (Py.split sep s) -> Py.contains sub piece = true ->
  Py.contains sub s = true.
Proof.
  intros Hin Hsub. apply split_fuel_In in Hin as (a & b & ->).
  apply contains_elim in Hsub as (p & q & ->).
  replace (a +:+ (p +:+ sub +:+ q) +:+ b) with ((a +:+ p) +:+ sub +:+ (q +:+ b))
    by (rewrite !append_assoc; reflexivity).
  apply contains_intro.
Qed.

Lemma lstrip_by_stop f x c y :
  f c = false ->
  Py.lstrip_by f (x +:+ String c y) = Py.lstrip_by f x +:+ String c y.
Proof.
  intro Hc. induction x as [|d x IH].
  - rewrite append_empty_l. simpl. rewrite Hc. reflexivity.
  - rewrite append_cons. simpl. destruct (f d); [exact IH|reflexivity].
Qed.

(** Stripping on the right never passes a character that is kept. *)
Lemma rstrip_by_stop f a c b :
  f c = false ->
  Py.rstrip_by f (a +:+ String c b) = a +:+ String c (Py.rstrip_by f b).
Proof.
  intro Hc. unfold Py.rstrip_by.
  rewrite rev_append, rev_cons, append_assoc.
  change (String c "" +:+ String.rev a) with (String c (String.rev a)).
  rewrite lstrip_by_stop by exact Hc.
  rewrite rev_append, rev_cons, rev_rev, append_assoc. reflexivity.
Qed.

Lemma words_go_word name :
  all_chars (fun c => negb (Py.isspace c)) name = true ->
  forall acc, Py.words_go (Some acc) name = [String.rev acc +:+ name].
Proof.
  induction name as [|c name IH]; intros H acc.
  - simpl. rewrite append_empty_r. reflexivity.
  - simpl in H. apply andb_prop in H as [Hc H]. simpl.
    destruct (Py.isspace c); [discriminate|].
    rewrite (IH H). simpl. rewrite rev_cons, append_assoc. reflexivity.
Qed.

(** The last word of a text that ends in a blank followed by a word. *)
Lemma split_ws_last pre w name :
  Py.isspace w = true -> name <> EmptyString ->
  all_chars (fun c => negb (Py.isspace c)) name = true ->
  exists l, Py.split_ws (pre +:+ String w name) = l ++ [name].
Proof.
  intros Hw Hne Hname. unfold Py.split_ws. generalize (@None string).
  induction pre as [|c pre IH]; intro cur.
  - rewrite append_empty_l. simpl. rewrite Hw.
    assert (Hword : Py.words_go None name = [name]).
    { destruct name as [|d name]; [congruence|].
      simpl in *. apply andb_prop in Hname as [Hd Hname].
      destruct (Py.isspace d); [discriminate|].
      rewrite (words_go_word name Hname). reflexivity. }
    rewrite Hword. destruct cur as [acc|].
    + exists [String.rev acc]. reflexivity.
    + exists []. reflexivity.
  - rewrite append_cons. simpl. destruct (Py.isspace c).
    + destruct cur as [acc|].
      * destruct (IH None) as [l ->]. exists (String.rev acc :: l). reflexivity.
      * apply IH.
    + apply IH.
Qed.

Lemma getlast_snoc {A} (l : list A) (x : A) : getlast (l ++ [x]) = ret x.
Proof. unfold getlast. rewrite rev_unit. reflexivity. Qed.

End MoreStringFacts.

(** ** Queue names *)

(** An equation for a run of [bind]. *)
Lemma bind_Ok {A B} (m : M A) (k : A -> M B) s s' a :
  m s = (s', Ok a) -> bind m k s = k a s'.
Proof. intro H. unfold bind. rewrite H. reflexivity. Qed.

(** X1: [get_printer_name] raises [TypeError] when [lpstat] cannot be
    started, logs an error and returns [None] when the serial is not in the
    listing, and raises [Exception("Something went wrong.")] when the serial
    is in the listing but in none of its lines. *)
Theorem get_printer_name_failures (h : Host) (sn : string) (s : state) :
  (h_spawn h (events s) "lpstat -v" = None ->
   Zeb.get_printer_name h sn s =
     ({| events := events s ++ [Spawn "lpstat -v"]; answers := answers s |},
      Raise TypeError))
  /\
  (forall status out err,
     h_spawn h (events s) "lpstat -v" = Some (status, out, err) ->
     Py.contains sn out = false ->
     Zeb.get_printer_name h sn s =
       ({| events := events s ++
             [Spawn "lpstat -v";
              Log Error ("Is " +:+ sn +:+ " a valid Zebra serial number? "
                         +:+ "Cannot find this printer via lpstat -v.")];
           answers := answers s |},
        Ok None))
  /\
  (forall status out err,
     h_spawn h (events s) "lpstat -v" = Some (status, out, err) ->
     Py.contains sn out = true ->
     List.find (Py.contains sn) (Py.filter_none (Py.split newline out)) = None ->
     Zeb.get_printer_name h sn s =
       ({| events := events s ++ [Spawn "lpstat -v"]; answers := answers s |},
        Raise (Exception_ "Something went wrong."))).
Proof.
  repeat split.
  - intro H. unfold Zeb.get_printer_name. run. rewrite H. reflexivity.
  - intros status out err H Hno. unfold Zeb.get_printer_name. run.
    rewrite H, Hno. cbn. rewrite <- app_assoc. reflexivity.
  - intros status out err H Hyes Hfind. unfold Zeb.get_printer_name. run.
    rewrite H, Hyes, Hfind. reflexivity.
Qed.

Lemma get_printer_name_failures_witness :
  Zeb.get_printer_name bare_host "ABC123" start =
    ({| events := [Spawn "lpstat -v"]; answers := answers start |}, Raise TypeError)
  /\ (exists s', Zeb.get_printer_name bench_host "ABC123" start = (s', Ok None))
  /\ Zeb.get_printer_name
       (listing_host ("device for A: usb://x?serial=ABC" +:+ newline
                      +:+ "123 device" +:+ newline) None)
       ("ABC" +:+ newline +:+ "123") start =
     ({| events := [Spawn "lpstat -v"]; answers := answers start |},
      Raise (Exception_ "Something went wrong.")).
Proof.
  split; [|split].
  - apply (proj1 (get_printer_name_failures bare_host "ABC123" start)). reflexivity.
  - eexists.
    apply (proj1 (proj2 (get_printer_name_failures bench_host "ABC123" start))
             0 EmptyString EmptyString); reflexivity.
  - apply (proj2 (proj2 (get_printer_name_failures _ _ start))
             0 ("device for A: usb://x?serial=ABC" +:+ newline
                +:+ "123 device" +:+ newline) EmptyString); reflexivity.
Defined.

(** X2: when the first line of [lpstat -v] that mentions the serial reads
    [device for NAME:...], NAME being one word without a colon,
    [get_printer_name] returns NAME. *)
Theorem get_printer_name_reads_queue (h : Host) (sn : string) (s : state)
    status out err name rest :
  h_spawn h (events s) "lpstat -v" = Some (status, out, err) ->
  List.find (Py.contains sn) (Py.filter_none (Py.split newline out))
    = Some ("device for " +:+ name +:+ ":" +:+ rest) ->
  name <> EmptyString ->
  all_chars (fun c => negb (Py.isspace c)) name = true ->
  Py.contains ":" name = false ->
  Zeb.get_printer_name h sn s =
    ({| events := events s ++ [Spawn "lpstat -v"]; answers := answers s |},
     Ok (Some name)).
Proof.
  intros H Hfind Hne Hword Hcolon.
  assert (Hin : Py.contains sn out = true).
  { apply find_some in Hfind as [Hin Hsub].
    apply filter_In in Hin as [Hin _]. eapply contains_piece; eassumption. }
  unfold Zeb.get_printer_name. run. rewrite H, Hin, Hfind. cbn [negb].
  replace ("device for " +:+ name +:+ ":" +:+ rest)
    with (("device for " +:+ name) +:+ String ":" rest)
    by (rewrite append_assoc; reflexivity).
  unfold Py.rstrip. rewrite rstrip_by_stop by reflexivity.
  assert (Htruthy : truthy_opt
            (Some (("device for " +:+ name) +:+ String ":" (Py.rstrip_by Py.isspace rest)))
          = true) by reflexivity.
  rewrite Htruthy. cbn [negb].
  rewrite split_eq by discriminate.
  replace (("device for " +:+ name) +:+ String ":" (Py.rstrip_by Py.isspace rest))
    with (("device for " +:+ name) +:+ ("" +:+ String ":" "")
          +:+ Py.rstrip_by Py.isspace rest)
    by reflexivity.
  rewrite (cut_first "" ":");
    [|rewrite append_empty_l, append_empty_r, contains_char_app, Hcolon; reflexivity].
  cbn [getitem nth_error]. run.
  destruct (split_ws_last "device for" " " name eq_refl Hne Hword) as [l Hl].
  change ("device for " +:+ name) with ("device for" +:+ String " " name).
  rewrite Hl, getlast_snoc. reflexivity.
Qed.

Lemma get_printer_name_reads_queue_witness :
  Zeb.get_printer_name twin_host "ABC123" start =
    ({| events := [Spawn "lpstat -v"]; answers := answers start |},
     Ok (Some "ZT-ABC123")).
Proof.
  apply (get_printer_name_reads_queue twin_host "ABC123" start 0
           ("device for ZT-ABC123: " +:+ bench_uri +:+ newline) EmptyString
           "ZT-ABC123" (" " +:+ bench_uri));
    try reflexivity.
  discriminate.
Defined.

(** ** Connectivity *)

(** X3: [is_connected] answers whether the serial occurs in the
    connected-device listing, and as long as the serial is not listed or
    the session lacks a vendor or product id it does nothing but query the
    listing: no USB lookup, no reset. *)
Theorem is_connected_reports_listing (h : Host) (self : Zeb.Zebra) (s : state)
    status out err :
  h_spawn h (events s) Zeb.lpinfo_cmd = Some (status, out, err) ->
  Py.contains (Zeb.serial_number self) out = false
    \/ Zeb.vid self = EmptyString \/ Zeb.pid self = EmptyString ->
  Zeb.is_connected h self s =
    ({| events := events s ++ [Spawn Zeb.lpinfo_cmd]; answers := answers s |},
     Ok (Py.contains (Zeb.serial_number self) out)).
Proof.
  intros H Hcase. unfold Zeb.is_connected. run. rewrite H.
  destruct (Py.contains (Zeb.serial_number self) out) eqn:E; [|reflexivity].
  destruct Hcase as [Hc|[Hv|Hp]]; [discriminate| |].
  - rewrite Hv. reflexivity.
  - rewrite Hp, andb_false_r. reflexivity.
Qed.

Lemma is_connected_reports_listing_witness :
  Zeb.is_connected bench_host unreachable_session start =
    ({| events := [Spawn Zeb.lpinfo_cmd]; answers := answers start |}, Ok true).
Proof.
  apply (is_connected_reports_listing bench_host unreachable_session start 0
           ("network lpd" +:+ newline +:+ bench_line +:+ newline) EmptyString);
    [reflexivity | right; left; reflexivity].
Defined.

(** X4: for a listed printer whose session has both ids, [is_connected]
    reads them as hexadecimal outside any [try]: an id that is not
    hexadecimal raises [ValueError]; otherwise the device is looked up,
    reset if found, and the answer is [True] either way. *)
Theorem is_connected_resets_by_ids (h : Host) (self : Zeb.Zebra) (s : state)
    status out err :
  h_spawn h (events s) Zeb.lpinfo_cmd = Some (status, out, err) ->
  Py.contains (Zeb.serial_number self) out = true ->
  Zeb.vid self <> EmptyString -> Zeb.pid self <> EmptyString ->
  let listed := events s ++ [Spawn Zeb.lpinfo_cmd] in
  match Py.int 16 (Zeb.vid self), Py.int 16 (Zeb.pid self) with
  | Some v, Some p =>
      Zeb.is_connected h self s =
        ({| events := listed ++ UsbFind v p ::
                      (if h_usb_find h listed v p then [UsbReset v p] else []);
            answers := answers s |},
         Ok true)
  | _, _ =>
      Zeb.is_connected h self s =
        ({| events := listed; answers := answers s |}, Raise ValueError)
  end.
Proof.
  intros H Hin Hv Hp listed. unfold Zeb.is_connected. run. rewrite H, Hin.
  destruct (Zeb.vid self) as [|c1 v1] eqn:Ev; [congruence|].
  destruct (Zeb.pid self) as [|c2 p1] eqn:Ep; [congruence|].
  cbn [Py.truthy andb]. unfold Zeb.usb_reset.
  destruct (Py.int 16 (String c1 v1)) as [v|]; [|reflexivity].
  destruct (Py.int 16 (String c2 p1)) as [p|]; [|reflexivity].
  run. fold listed. destruct (h_usb_find h listed v p); run.
  - rewrite <- !app_assoc. reflexivity.
  - reflexivity.
Qed.

Lemma is_connected_resets_by_ids_witness :
  Zeb.is_connected bench_host bench_session start =
    ({| events := [Spawn Zeb.lpinfo_cmd; UsbFind 2655 288; UsbReset 2655 288];
        answers := answers start |},
     Ok true).
Proof.
  apply (is_connected_resets_by_ids bench_host bench_session start 0
           ("network lpd" +:+ newline +:+ bench_line +:+ newline) EmptyString);
    [reflexivity | reflexivity | discriminate | discriminate].
Defined.

(** ** Printing *)

(** X5: [print] gives up with [False] before touching anything when the
    printer is not in the connected-device listing (an error is logged) or
    the session has no queue name (silently): no job is cancelled, no USB
    reset is made and nothing is handed to the spooler. *)
Theorem print_refuses (h : Host) (self : Zeb.Zebra) (zpl : string) (s : state)
    status out err :
  h_spawn h (events s) Zeb.lpinfo_cmd = Some (status, out, err) ->
  (Py.contains (Zeb.serial_number self) out = false ->
   Zeb.print h self zpl s =
     ({| events := events s ++
           [Spawn Zeb.lpinfo_cmd;
            Log Error (Zeb.serial_number self +:+ " is not connected. Skipping print.")];
         answers := answers s |},
      Ok false))
  /\
  (Py.contains (Zeb.serial_number self) out = true ->
   Zeb.name self = None \/ Zeb.name self = Some EmptyString ->
   Zeb.print h self zpl s =
     ({| events := events s ++ [Spawn Zeb.lpinfo_cmd]; answers := answers s |},
      Ok false)).
Proof.
  intro H. split.
  - intro Hno. unfold Zeb.print. run. rewrite H, Hno. cbn.
    rewrite <- app_assoc. reflexivity.
  - intros Hyes Hname. unfold Zeb.print. run. rewrite H, Hyes.
    destruct Hname as [-> | ->]; reflexivity.
Qed.

Lemma print_refuses_witness :
  Zeb.print bench_host unreachable_session Zeb.test_label start =
    ({| events := [Spawn Zeb.lpinfo_cmd]; answers := answers start |}, Ok false).
Proof.
  apply (proj2 (print_refuses bench_host unreachable_session Zeb.test_label start 0
                  ("network lpd" +:+ newline +:+ bench_line +:+ newline) EmptyString
                  eq_refl));
    [reflexivity | left; reflexivity].
Defined.

(** X6: for a listed printer with a queue name and no ids, [print] cancels
    every job of every queue, waits 300 ms, logs and starts [lp -d <queue> -],
    in this order.  The pipe to the client encodes in ASCII: a payload of
    ASCII characters is handed over unchanged and [print] returns [True] as
    soon as the client could be started, whatever the spooler says; a
    payload with a character above 127 raises [UnicodeEncodeError] once the
    client is started, and the client is fed nothing. *)
Theorem print_submits (h : Host) (self : Zeb.Zebra) (zpl : string) (s : state)
    status out err queue :
  h_spawn h (events s) Zeb.lpinfo_cmd = Some (status, out, err) ->
  Py.contains (Zeb.serial_number self) out = true ->
  Zeb.name self = Some queue -> queue <> EmptyString ->
  Zeb.vid self = EmptyString \/ Zeb.pid self = EmptyString ->
  let before := events s ++
       [Spawn Zeb.lpinfo_cmd; OsSystem "cancel -a -x"; Sleep 300;
        Log Info ("Queueing a print job for Zebra SN " +:+ Zeb.serial_number self
                  +:+ ", " +:+ queue +:+ ".")] in
  Zeb.print h self zpl s =
    ({| events := before ++ [Lp queue (if Py.isascii zpl then zpl else EmptyString)];
        answers := answers s |},
     if h_lp h before queue then
       if Py.isascii zpl then Ok true else Raise UnicodeEncodeError
     else Raise FileNotFoundError).
Proof.
  intros H Hin Hname Hq Hids before. unfold Zeb.print. run.
  rewrite H, Hin, Hname. destruct queue as [|c q]; [congruence|].
  cbn [negb truthy_opt Py.truthy default].
  assert (Hno : Py.truthy (Zeb.vid self) && Py.truthy (Zeb.pid self) = false).
  { destruct Hids as [-> | ->]; [reflexivity | apply andb_false_r]. }
  rewrite Hno. run. subst before. rewrite <- !app_assoc. cbn [app].
  destruct (h_lp h _ _); [|reflexivity].
  destruct (Py.isascii zpl); reflexivity.
Qed.

Lemma print_submits_witness :
  Zeb.print bench_host queued_session "^XA^XZ" start =
    ({| events := [Spawn Zeb.lpinfo_cmd; OsSystem "cancel -a -x"; Sleep 300;
                   Log Info "Queueing a print job for Zebra SN ABC123, ZT-ABC123.";
                   Lp "ZT-ABC123" "^XA^XZ"];
        answers := answers start |},
     Ok true)
  /\ Zeb.print bench_host queued_session
       ("^XA^FDcaf" +:+ String "233" "^FS^XZ") start =
       ({| events := [Spawn Zeb.lpinfo_cmd; OsSystem "cancel -a -x"; Sleep 300;
                      Log Info "Queueing a print job for Zebra SN ABC123, ZT-ABC123.";
                      Lp "ZT-ABC123" EmptyString];
           answers := answers start |},
        Raise UnicodeEncodeError).
Proof.
  split.
  - apply (print_submits bench_host queued_session "^XA^XZ" start 0
             ("network lpd" +:+ newline +:+ bench_line +:+ newline) EmptyString
             "ZT-ABC123");
      [reflexivity | reflexivity | reflexivity | discriminate | left; reflexivity].
  - apply (print_submits bench_host queued_session
             ("^XA^FDcaf" +:+ String "233" "^FS^XZ") start 0
             ("network lpd" +:+ newline +:+ bench_line +:+ newline) EmptyString
             "ZT-ABC123");
      [reflexivity | reflexivity | reflexivity | discriminate | left; reflexivity].
Defined.

(** ** Session construction *)

(** [run] in a hypothesis. *)
Ltac run_in H :=
  cbv beta iota zeta delta
    [Zeb.system_command Zeb.pipeable_command System.system_command
     System.pipeable_command Zeb.listdir bind ask emit log ret raise
     peek method is_in try_except] in H;
  cbn [events answers fst snd] in H.

(** A loop keeps what every round of its body keeps. *)
Lemma for_each_keeps {A B} (P : B -> Prop) (l : list A) (body : A -> B -> M B) :
  (forall x b s1 s2 b', P b -> body x b s1 = (s2, Ok b') -> P b') ->
  forall acc s s' r,
    P acc -> for_each l body acc s = (s', Ok r) -> P r.
Proof.
  intro Hbody. induction l as [|x l IH]; intros acc s s' r Hacc H.
  - injection H as _ <-. exact Hacc.
  - simpl in H. unfold bind in H.
    destruct (body x acc s) as [s1 [b|e]] eqn:E; [|discriminate].
    eapply IH; [|exact H]. eapply Hbody; eassumption.
Qed.

Lemma find_lp_path_node (h : Host) (sn : string) (s s' : state) r :
  Zeb.find_lp_path h sn s = (s', Ok r) -> is_lp_node r.
Proof.
  unfold Zeb.find_lp_path, try_except, bind at 1, Zeb.listdir. run.
  destruct (h_listdir h (events s) "/dev/usb/") as [entries|].
  - match goal with |- context [for_each entries ?b None ?st] =>
      destruct (for_each entries b None st) as [s1 [found|e]] eqn:E
    end.
    + intro H. injection H as _ <-.
      eapply (for_each_keeps is_lp_node); [|left; reflexivity|exact E].
      clear. intros f b s1 s2 b' Hb H. run_in H.
      destruct (Py.startswith f "lp") eqn:Elp; cbn [negb] in H.
      * destruct (h_spawn h (events s1) (Zeb.probe_cmd sn f)) as [[[st o] e]|].
        -- destruct (st =? 0); cbn [negb] in H; injection H as _ <-;
             [right; eauto | exact Hb].
        -- cbn in H. injection H as _ <-. exact Hb.
      * injection H as _ <-. exact Hb.
    + destruct e; intro H; try discriminate H.
      injection H as _ <-. left. reflexivity.
  - intro H. injection H as _ <-. left. reflexivity.
Qed.

(** What [Zebra.__init__] hands back. *)
Lemma init_keeps_identity (h : Host) (sn vid pid : string) (s s' : state)
    (zebra : Zeb.Zebra) :
  Zeb.init h sn vid pid s = (s', Ok zebra) ->
  is_lp_node (Zeb.lp_path zebra)
  /\ (sn <> EmptyString ->
      Zeb.serial_number zebra = sn /\ Zeb.vid zebra = vid /\ Zeb.pid zebra = pid).
Proof.
  unfold Zeb.init. intro H. unfold bind at 1 in H.
  match type of H with context [(if ?c then ?a else ?b) s] =>
    destruct ((if c then a else b) s) as [s0 [[[sn' vid'] pid']|e]] eqn:Eids
  end; [|discriminate].
  unfold bind at 1 in H. cbv [log emit] in H.
  unfold bind at 1 in H.
  destruct (Zeb.get_printer_name h sn' _) as [s1 [name|e]]; [|discriminate].
  unfold bind at 1 in H.
  destruct (Zeb.find_lp_path h sn' s1) as [s2 [lp|e]] eqn:Elp; [|discriminate].
  injection H as _ <-. cbn [Zeb.lp_path Zeb.serial_number Zeb.vid Zeb.pid].
  split; [eapply find_lp_path_node; exact Elp|].
  intro Hne. destruct sn as [|c sn]; [congruence|].
  cbn in Eids. injection Eids as _ <- <- <-. auto.
Qed.

(** X7: a session that [Zebra(serial, vid, pid)] builds from a non-empty
    serial carries exactly that serial, vid and pid, and its device path is
    either unset or [/dev/usb/] followed by a directory entry that begins
    with [lp]; the device path is of that form whatever the arguments. *)
Theorem init_identity (h : Host) (sn vid pid : string) (s s' : state)
    (zebra : Zeb.Zebra) :
  Zeb.init h sn vid pid s = (s', Ok zebra) ->
  is_lp_node (Zeb.lp_path zebra)
  /\ (sn <> EmptyString ->
      Zeb.serial_number zebra = sn /\ Zeb.vid zebra = vid /\ Zeb.pid zebra = pid).
Proof. apply init_keeps_identity. Qed.

Lemma init_identity_witness :
  exists s' zebra,
    Zeb.init twin_host "ABC123" "0a5f" "0120" start = (s', Ok zebra)
    /\ is_lp_node (Zeb.lp_path zebra)
    /\ Zeb.serial_number zebra = "ABC123" /\ Zeb.vid zebra = "0a5f"
    /\ Zeb.pid zebra = "0120".
Proof.
  destruct (Zeb.init twin_host "ABC123" "0a5f" "0120" start) as [s' [zebra|e]] eqn:E;
    [|vm_compute in E; discriminate].
  exists s', zebra. split; [reflexivity|].
  destruct (init_identity twin_host "ABC123" "0a5f" "0120" start s' zebra E)
    as [Hnode Hid].
  split; [exact Hnode|]. apply Hid. discriminate.
Defined.

(** X8: [Zebra()] without a serial falls back on [MFG_PRINTER]: a missing
    variable raises [KeyError] and a value with a dash that is not made of
    exactly three dash-separated fields raises [ValueError], both before
    anything is done; a value [SN-VID-PID] with SN not empty makes the call
    behave as [Zebra(SN, VID, PID)], and a non-empty value without dash as
    [Zebra(value, vid, pid)]. *)
Theorem init_from_environment (h : Host) (vid pid : string) (s : state) :
  (h_environ h (events s) "MFG_PRINTER" = None ->
   Zeb.init h EmptyString vid pid s = (s, Raise KeyError))
  /\
  (forall binding,
     h_environ h (events s) "MFG_PRINTER" = Some binding ->
     Py.contains "-" binding = true ->
     length (Py.split "-" binding) <> 3%nat ->
     Zeb.init h EmptyString vid pid s = (s, Raise ValueError))
  /\
  (forall binding sn v p,
     h_environ h (events s) "MFG_PRINTER" = Some binding ->
     Py.split "-" binding = [sn; v; p] -> sn <> EmptyString ->
     Zeb.init h EmptyString vid pid s = Zeb.init h sn v p s)
  /\
  (forall binding,
     h_environ h (events s) "MFG_PRINTER" = Some binding ->
     Py.contains "-" binding = false -> binding <> EmptyString ->
     Zeb.init h EmptyString vid pid s = Zeb.init h binding vid pid s).
Proof.
  repeat split.
  - intro H. unfold Zeb.init. cbn [Py.truthy negb]. run. rewrite H. reflexivity.
  - intros binding H Hdash Hlen. unfold Zeb.init. cbn [Py.truthy negb]. run. rewrite H, Hdash.
    destruct (Py.split "-" binding) as [|a [|b [|c [|d l]]]]; try reflexivity.
    simpl in Hlen. congruence.
  - intros binding sn v p H Hsplit Hne. unfold Zeb.init. cbn [Py.truthy negb]. run. rewrite H.
    assert (Hdash : Py.contains "-" binding = true).
    { unfold Py.contains. rewrite split_eq in Hsplit by discriminate.
      destruct (Py.cut "-" binding) as [[a b]|]; [reflexivity|discriminate]. }
    rewrite Hdash, Hsplit. destruct sn as [|c sn]; [congruence|]. reflexivity.
  - intros binding H Hdash Hne. unfold Zeb.init. cbn [Py.truthy negb]. run. rewrite H, Hdash.
    destruct binding as [|c b]; [congruence|]. reflexivity.
Qed.

Lemma init_from_environment_witness :
  Zeb.init bare_host EmptyString EmptyString EmptyString start = (start, Raise KeyError)
  /\ Zeb.init (scripted_host (fun _ => None) (fun _ => Raise FileNotFoundError) None
                 (fun _ => Some "ABC123-0a5f"))
       EmptyString EmptyString EmptyString start = (start, Raise ValueError).
Proof.
  split.
  - apply (proj1 (init_from_environment bare_host EmptyString EmptyString start)).
    reflexivity.
  - apply (proj1 (proj2 (init_from_environment _ EmptyString EmptyString start))
             "ABC123-0a5f"); [reflexivity | reflexivity | vm_compute; lia].
Defined.

(** X9: on a machine without [/dev/usb/] every session that can be built
    is unreachable for good: [command] answers [(-1, None, None)] to any
    payload without writing to any device, and [get_config] returns
    [None]. *)
Theorem unreachable_without_dev_usb (h : Host) (sn vid pid : string)
    (s s' : state) (zebra : Zeb.Zebra) :
  (forall t, h_listdir h t "/dev/usb/" = None) ->
  Zeb.init h sn vid pid s = (s', Ok zebra) ->
  forall zpl s2,
    let logged := {| events := events s2 ++
                       [Log Error "The printer does not enumerate on /dev/usb/lpx on this system."];
                     answers := answers s2 |} in
    Zeb.command h zebra zpl s2 = (logged, Ok (-1, None, None))
    /\ Zeb.get_config h zebra s2 = (logged, Ok None).
Proof.
  intros Hdir H zpl s2 logged.
  assert (Hlp : Zeb.lp_path zebra = None).
  { unfold Zeb.init in H. unfold bind at 1 in H.
    match type of H with context [(if ?c then ?a else ?b) s] =>
      destruct ((if c then a else b) s) as [s0 [[[sn' vid'] pid']|e]]
    end; [|discriminate].
    unfold bind at 1 in H. cbv [log emit] in H. unfold bind at 1 in H.
    destruct (Zeb.get_printer_name h sn' _) as [s1 [name|e]]; [|discriminate].
    unfold bind at 1 in H.
    assert (Hfind : exists s2', Zeb.find_lp_path h sn' s1 = (s2', Ok None)).
    { unfold Zeb.find_lp_path. run. rewrite Hdir. eexists. reflexivity. }
    destruct Hfind as [s2' Hfind]. rewrite Hfind in H.
    injection H as _ <-. reflexivity. }
  assert (Hcmd : forall z, Zeb.command h zebra z s2 = (logged, Ok (-1, None, None))).
  { intro z. unfold Zeb.command. rewrite Hlp. reflexivity. }
  split; [apply Hcmd|].
  unfold Zeb.get_config, bind. rewrite Hcmd. reflexivity.
Qed.

Lemma unreachable_without_dev_usb_witness :
  exists s2,
    Zeb.get_config (listing_host ("device for ZT-ABC123: " +:+ bench_uri) None)
      {| Zeb.serial_number := "ABC123"; Zeb.name := Some "ZT-ABC123";
         Zeb.vid := EmptyString; Zeb.pid := EmptyString; Zeb.lp_path := None |}
      start = (s2, Ok None).
Proof.
  eexists.
  apply (unreachable_without_dev_usb
           (listing_host ("device for ZT-ABC123: " +:+ bench_uri) None)
           "ABC123" EmptyString EmptyString start
           _ _ (fun _ => eq_refl) eq_refl "^XA^HH^XZ" start).
Defined.

(** ** Choosing among several printers *)

Lemma choose_loop_spec prompt options pending t :
  match Prompt.choose_loop prompt options pending t with
  | (s', Ok a) =>
      In a options /\
      exists junk, pending = junk ++ a :: answers s'
                   /\ Forall (fun x => ~ In x options) junk
  | (s', Raise e) =>
      e = EOFError /\ answers s' = [] /\ Forall (fun x => ~ In x options) pending
  end.
Proof.
  revert t. induction pending as [|a rest IH]; intro t; cbn [Prompt.choose_loop].
  - repeat split. constructor.
  - destruct (existsb (String.eqb a) options) eqn:E.
    + cbn [answers]. split.
      * apply existsb_exists in E as (x & Hx & Heq).
        apply String.eqb_eq in Heq. subst x. exact Hx.
      * exists []. split; [reflexivity|constructor].
    + assert (Hbad : ~ In a options).
      { intro Hin. apply Bool.not_true_iff_false in E. apply E.
        apply existsb_exists. exists a. split; [exact Hin|apply String.eqb_refl]. }
      match goal with |- context [Prompt.choose_loop prompt options rest ?t'] =>
        specialize (IH t');
        destruct (Prompt.choose_loop prompt options rest t') as [s' [b|e]]
      end.
      * destruct IH as [Hin (junk & -> & Hjunk)]. split; [exact Hin|].
        exists (a :: junk). split; [reflexivity|constructor; assumption].
      * destruct IH as (-> & Hnil & Hall). repeat split; [exact Hnil|].
        constructor; assumption.
Qed.

(** X10: [Prompt.choose] returns the first line the operator types that
    is one of the options, leaving the lines after it unread, so that its
    result is always an option; when none of the remaining lines is an
    option it ends in [EOFError] with all of them consumed. *)
Theorem choose_first_option (prompt : string) (options : list string) (s : state) :
  match Prompt.choose prompt options s with
  | (s', Ok a) =>
      In a options /\
      exists junk, answers s = junk ++ a :: answers s'
                   /\ Forall (fun x => ~ In x options) junk
  | (s', Raise e) =>
      e = EOFError /\ answers s' = []
      /\ Forall (fun x => ~ In x options) (answers s)
  end.
Proof. unfold Prompt.choose. apply choose_loop_spec. Qed.

Lemma getitem_int_nat {A} (l : list A) (i : nat) (x : A) :
  nth_error l i = Some x -> Zeb.getitem_int l (Z.of_nat i) = ret x.
Proof.
  intro H. unfold Zeb.getitem_int.
  assert (Hlt : (i < length l)%nat) by (apply nth_error_Some; congruence).
  replace (0 <=? Z.of_nat i) with true by (symmetry; apply Z.leb_le; lia).
  replace (Z.of_nat i <? Z.of_nat (length l)) with true
    by (symmetry; apply Z.ltb_lt; lia).
  cbn [andb]. rewrite Nat2Z.id. unfold getitem. rewrite H. reflexivity.
Qed.

(** The menu loop of [choose_printer] only logs. *)
Lemma menu_loop_returns (l : list (nat * (string * Zeb.printer_info))) s :
  exists s',
    for_each l
      (fun '(i, (sn, printer_info)) (_ : unit) =>
         log Info ("[" +:+ str_nat i +:+ "] " +:+ Zeb.info_name printer_info
                   +:+ ", " +:+ sn)) tt s = (s', Ok tt).
Proof.
  revert s. induction l as [|[i [sn info]] l IH]; intro s.
  - eexists. reflexivity.
  - cbn [for_each]. unfold bind at 1. cbv [log emit]. apply IH.
Qed.

(** X11: with two or more printers enumerated, a session that
    [choose_printer] returns is never [None] and is always built from the
    first or the second printer of the enumeration, the menu accepting only
    [1] and [2]: a third printer is listed but cannot be chosen. *)
Theorem choose_printer_first_two (h : Host) (s s1 s' : state)
    (connected : list (string * Zeb.printer_info)) (r : option Zeb.Zebra) :
  Zeb.connected_printers h s = (s1, Ok connected) ->
  (2 <= length connected)%nat ->
  Zeb.choose_printer h s = (s', Ok r) ->
  exists zebra i key info,
    r = Some zebra /\ (i < 2)%nat
    /\ nth_error (List.map fst connected) i = Some key
    /\ dict_get key connected = Some info
    /\ (Zeb.info_sn info <> EmptyString ->
        Zeb.serial_number zebra = Zeb.info_sn info).
Proof.
  intros Hconn Hlen H. unfold Zeb.choose_printer in H.
  rewrite (bind_Ok _ _ _ _ _ Hconn) in H.
  destruct connected as [|[k1 i1] [|[k2 i2] more]]; try (simpl in Hlen; lia).
  cbn [length Nat.eqb] in H. unfold bind at 1 in H.
  unfold bind at 1 in H. cbv [log emit] in H. unfold bind at 1 in H.
  match type of H with context [for_each ?l ?b tt ?st] =>
    destruct (menu_loop_returns l st) as [s2 Hmenu]
  end.
  cbv [log emit] in Hmenu. rewrite Hmenu in H. unfold bind at 1 in H.
  pose proof (choose_loop_spec "Which one would you like to work with?"
                ["1"; "2"] (answers s2) (events s2)) as Hchoice.
  change (Prompt.choose_loop "Which one would you like to work with?"
            ["1"; "2"] (answers s2) (events s2))
    with (Prompt.choose "Which one would you like to work with?" ["1"; "2"] s2)
    in Hchoice.
  destruct (Prompt.choose "Which one would you like to work with?" ["1"; "2"] s2)
    as [s3 [a|e]]; [|discriminate].
  destruct Hchoice as [Hin _].
  assert (Hkey : exists i key info,
             (i < 2)%nat
             /\ nth_error (List.map fst ((k1, i1) :: (k2, i2) :: more)) i = Some key
             /\ dict_get key ((k1, i1) :: (k2, i2) :: more) = Some info
             /\ (match Py.int 10 a with
                 | Some n =>
                     key <- Zeb.getitem_int (List.map fst ((k1, i1) :: (k2, i2) :: more)) (n - 1) ;;
                     match dict_get key ((k1, i1) :: (k2, i2) :: more) with
                     | Some printer_of_choice => ret (Zeb.info_sn printer_of_choice)
                     | None => raise KeyError
                     end
                 | None => raise ValueError
                 end) s3 = (s3, Ok (Zeb.info_sn info))).
  { destruct Hin as [<-|[<-|[]]].
    - exists 0%nat, k1, i1.
      assert (Hget : dict_get k1 ((k1, i1) :: (k2, i2) :: more) = Some i1)
        by (cbn [dict_get]; rewrite String.eqb_refl; reflexivity).
      repeat split; [lia | exact Hget |].
      change (Py.int 10 "1") with (Some 1). cbv beta iota.
      change (1 - 1) with (Z.of_nat 0).
      unfold bind. rewrite (getitem_int_nat (List.map fst ((k1, i1) :: (k2, i2) :: more)) 0 k1 eq_refl). cbv [ret].
      rewrite Hget. reflexivity.
    - assert (Hget : exists info,
                 dict_get k2 ((k1, i1) :: (k2, i2) :: more) = Some info).
      { cbn [dict_get]. destruct (String.eqb k2 k1); [eauto|].
        rewrite String.eqb_refl. eauto. }
      destruct Hget as [info Hget]. exists 1%nat, k2, info.
      repeat split; [lia | exact Hget |].
      change (Py.int 10 "2") with (Some 2). cbv beta iota.
      change (2 - 1) with (Z.of_nat 1).
      unfold bind. rewrite (getitem_int_nat (List.map fst ((k1, i1) :: (k2, i2) :: more)) 1 k2 eq_refl). cbv [ret].
      rewrite Hget. reflexivity. }
  destruct Hkey as (i & key & info & Hi & Hnth & Hget & Hrun).
  rewrite Hrun in H. unfold bind at 1 in H.
  destruct (Zeb.init h (Zeb.info_sn info) "" "" s3) as [s4 [zebra|e]] eqn:Einit;
    [|discriminate].
  injection H as _ <-.
  exists zebra, i, key, info. repeat split; try assumption.
  intro Hne. apply (init_keeps_identity _ _ _ _ _ _ _ Einit). exact Hne.
Qed.

Lemma choose_printer_first_two_witness :
  exists s' zebra,
    Zeb.choose_printer three_host picking = (s', Ok (Some zebra)).
Proof.
  destruct (Zeb.choose_printer three_host picking) as [s' [r|e]] eqn:Hrun;
    [|vm_compute in Hrun; discriminate].
  destruct (Zeb.connected_printers three_host picking) as [s1 [connected|e]] eqn:Hconn;
    [|vm_compute in Hconn; discriminate].
  assert (Hlen : (2 <= length connected)%nat).
  { vm_compute in Hconn. injection Hconn as _ <-. simpl. lia. }
  destruct (choose_printer_first_two _ _ _ _ _ _ Hconn Hlen Hrun)
    as (zebra & i & key & info & -> & _).
  exists s', zebra. reflexivity.
Defined.

(** The third printer is out of reach: the operator's [3] is refused and
    the [2] that follows binds the session to the second one. *)
Lemma choose_printer_third_refused :
  exists s' zebra,
    Zeb.choose_printer three_host picking = (s', Ok (Some zebra))
    /\ Zeb.serial_number zebra = "B2" /\ answers s' = [].
Proof. do 2 eexists. split; [vm_compute; reflexivity|]. split; reflexivity. Qed.

(** ** The connected-printer enumeration *)

Section EnumerationFacts.

Lemma contains_char_rev c s :
  Py.contains (String c "") (String.rev s) = Py.contains (String c "") s.
Proof.
  induction s as [|d s IH]; [reflexivity|].
  rewrite rev_cons, contains_char_app, IH, !contains_char_cons.
  change (Py.contains (String c "") "") with false.
  rewrite orb_false_r, orb_comm. reflexivity.
Qed.

Lemma cut_char_before c s a b :
  Py.cut (String c "") s = Some (a, b) -> Py.contains (String c "") a = false.
Proof.
  revert a. induction s as [|d s IH]; intros a H; rewrite cut_unfold in H.
  - discriminate.
  - cbn [Py.strip_prefix] in H. destruct (Ascii.eqb c d) eqn:E.
    + injection H as <- _. reflexivity.
    + destruct (Py.cut (String c "") s) as [[a' b']|]; [|discriminate].
      injection H as <- <-. rewrite contains_char_cons, E. apply (IH a' eq_refl).
Qed.

(** [s.rsplit(c, maxsplit=1)[-1]] exists and holds no [c]. *)
Lemma rsplit1_last c s :
  exists x, getlast (Py.rsplit1 (String c "") s) = ret x
            /\ Py.contains (String c "") x = false.
Proof.
  unfold Py.rsplit1, Py.rcut.
  change (String.rev (String c "")) with (String c "").
  destruct (Py.cut (String c "") (String.rev s)) as [[b a]|] eqn:E.
  - exists (String.rev b). split; [reflexivity|].
    rewrite contains_char_rev. eapply cut_char_before. exact E.
  - exists s. split; [reflexivity|].
    rewrite <- contains_char_rev. unfold Py.contains. rewrite E. reflexivity.
Qed.

(** The text after the last [c]. *)
Lemma rsplit1_after c a b :
  Py.contains (String c "") b = false ->
  getlast (Py.rsplit1 (String c "") (a +:+ String c b)) = ret b.
Proof.
  intro H. unfold Py.rsplit1, Py.rcut.
  change (String.rev (String c "")) with (String c "").
  rewrite rev_append, rev_cons, append_assoc.
  change (String.rev b +:+ String c "" +:+ String.rev a)
    with (String.rev b +:+ ("" +:+ String c "") +:+ String.rev a).
  rewrite (cut_first "" c);
    [|rewrite append_empty_l, append_empty_r, contains_char_rev; exact H].
  unfold getlast. cbn [List.rev app]. rewrite rev_rev. reflexivity.
Qed.

Lemma all_chars_app f a b :
  all_chars f (a +:+ b) = all_chars f a && all_chars f b.
Proof.
  induction a as [|c a IH]; [reflexivity|].
  rewrite append_cons. simpl. rewrite IH, andb_assoc. reflexivity.
Qed.

Lemma all_chars_rev f s : all_chars f (String.rev s) = all_chars f s.
Proof.
  induction s as [|c s IH]; [reflexivity|].
  rewrite rev_cons, all_chars_app, IH. simpl.
  rewrite andb_true_r, andb_comm. reflexivity.
Qed.

(** [s.rsplit(maxsplit=1)[-1]] is the last word. *)
Lemma rsplit_ws1_last pre w word :
  Py.isspace w = true -> word <> EmptyString ->
  all_chars (fun c => negb (Py.isspace c)) word = true ->
  getlast (Py.rsplit_ws1 (pre +:+ String w word)) = ret word.
Proof.
  intros Hw Hne Hword. unfold Py.rsplit_ws1.
  rewrite rev_append, rev_cons, append_assoc.
  change (String w "" +:+ String.rev pre) with (String w (String.rev pre)).
  assert (Hrev : all_chars (fun c => negb (Py.isspace c)) (String.rev word) = true)
    by (rewrite all_chars_rev; exact Hword).
  assert (Hhead : exists d r, String.rev word = String d r).
  { destruct (String.rev word) as [|d r] eqn:E; [|eauto].
    exfalso. apply Hne. rewrite <- (rev_rev word), E. reflexivity. }
  destruct Hhead as (d & r & Hd).
  assert (Hl : Py.lstrip (String.rev word +:+ String w (String.rev pre))
               = String.rev word +:+ String w (String.rev pre)).
  { rewrite Hd in *. rewrite append_cons. unfold Py.lstrip. simpl.
    simpl in Hrev. apply andb_prop in Hrev as [Hnd _].
    destruct (Py.isspace d); [discriminate|reflexivity]. }
  rewrite Hl.
  rewrite (span_by_app _ (String.rev word) (String w (String.rev pre)) Hrev);
    [|right; exists w, (String.rev pre); split; [reflexivity|rewrite Hw; reflexivity]].
  rewrite Hd at 1. rewrite append_cons.
  destruct (Py.lstrip (String w (String.rev pre)));
    unfold getlast; cbn [List.rev app]; rewrite rev_rev; reflexivity.
Qed.

(** A line that mentions Zebra has a last word. *)
Lemma rsplit_ws1_nonblank dev :
  Py.contains "Zebra" dev = true -> exists x, getlast (Py.rsplit_ws1 dev) = ret x.
Proof.
  intro H. apply contains_elim in H as (a & b & ->). unfold Py.rsplit_ws1.
  rewrite rev_append, rev_append.
  change (String.rev "Zebra") with ("arbe" +:+ String "Z" "").
  rewrite !append_assoc.
  change (String.rev b +:+ "arbe" +:+ String "Z" "" +:+ String.rev a)
    with (String.rev b +:+ String "a" ("rbeZ" +:+ String.rev a)).
  unfold Py.lstrip. rewrite lstrip_by_stop by reflexivity.
  destruct (Py.lstrip_by Py.isspace (String.rev b)) as [|c r].
  - rewrite append_empty_l.
    destruct (Py.span_by (fun c => negb (Py.isspace c))
                (String "a" ("rbeZ" +:+ String.rev a))) as [w rest].
    destruct (Py.lstrip_by Py.isspace rest); eexists; reflexivity.
  - rewrite append_cons.
    destruct (Py.span_by (fun c0 => negb (Py.isspace c0))
                (String c (r +:+ String "a" ("rbeZ" +:+ String.rev a)))) as [w rest].
    destruct (Py.lstrip_by Py.isspace rest); eexists; reflexivity.
Qed.

Lemma dict_set_keys {V} (k : string) (v : V) d k' :
  In k' (List.map fst (dict_set k v d)) -> k' = k \/ In k' (List.map fst d).
Proof.
  induction d as [|[k0 v0] d IH]; simpl.
  - intros [<-|[]]. left. reflexivity.
  - destruct (String.eqb k k0) eqn:E; simpl.
    + intros [<-|H]; [right; left; reflexivity|right; right; exact H].
    + intros [<-|H]; [right; left; reflexivity|].
      apply IH in H as [->|H]; [left; reflexivity|right; right; exact H].
Qed.

Lemma dict_set_well_keyed k i d :
  Zeb.info_sn i = k -> Py.contains "=" k = false ->
  well_keyed d -> well_keyed (dict_set k i d).
Proof.
  intros Hsn Heq [Hnd Hall]. induction d as [|[k0 v0] d IH]; simpl.
  - split.
    + constructor; [intros []|constructor].
    + constructor; [split; assumption|constructor].
  - apply NoDup_cons_iff in Hnd as [Hnotin Hnd'].
    apply Forall_cons_iff in Hall as [[Hk0 He0] Hall']. simpl in *.
    destruct (String.eqb k k0) eqn:E.
    + apply String.eqb_eq in E. split.
      * simpl. apply NoDup_cons_iff. split; assumption.
      * constructor; [split; simpl; congruence|exact Hall'].
    + apply String.eqb_neq in E. destruct (IH Hnd' Hall') as [Hnd2 Hall2].
      split.
      * simpl. apply NoDup_cons_iff. split; [|exact Hnd2].
        intro Hin. apply dict_set_keys in Hin as [Hin|Hin]; [congruence|auto].
      * constructor; [split; assumption|exact Hall2].
Qed.

Lemma dict_alter_well_keyed f k d :
  (forall i, Zeb.info_sn (f i) = Zeb.info_sn i) ->
  well_keyed d -> well_keyed (dict_alter f k d).
Proof.
  intros Hf [Hnd Hall]. unfold dict_alter. split.
  - rewrite List.map_map.
    erewrite List.map_ext; [exact Hnd|].
    intros [k0 v0]. simpl. destruct (String.eqb k k0); reflexivity.
  - apply List.Forall_forall. intros kv Hin.
    apply in_map_iff in Hin as ([k0 v0] & <- & Hin).
    rewrite List.Forall_forall in Hall. specialize (Hall _ Hin). simpl in *.
    destruct (String.eqb k k0); simpl; [rewrite Hf|]; exact Hall.
Qed.

End EnumerationFacts.

Lemma returns_ret {A} (P : A -> Prop) a : P a -> returns P (ret a).
Proof. intros Ha s s' r H. injection H as _ <-. exact Ha. Qed.

Lemma returns_raise {A} (P : A -> Prop) e : returns P (raise e).
Proof. intros s s' r H. discriminate H. Qed.

Lemma returns_bind {A B} (Q : A -> Prop) (P : B -> Prop) (m : M A) (k : A -> M B) :
  returns Q m -> (forall a, Q a -> returns P (k a)) -> returns P (bind m k).
Proof.
  intros Hm Hk s s' r H. unfold bind in H.
  destruct (m s) as [s1 [a|e]] eqn:E; [|discriminate].
  eapply Hk; [eapply Hm; exact E|exact H].
Qed.

Lemma returns_any {A} (m : M A) : returns (fun _ => True) m.
Proof. intros s s' r _. exact I. Qed.

Lemma probe_device_well_keyed (h : Host) sn f d :
  well_keyed d -> returns well_keyed (Zeb.probe_device h sn f d).
Proof.
  intro Hd. unfold Zeb.probe_device.
  destruct (negb (Py.startswith f "lp")); [apply returns_ret; exact Hd|].
  eapply returns_bind; [apply returns_any|]. intros [[st stdout] stderr] _.
  eapply returns_bind; [apply returns_any|]. intros found _.
  destruct (negb found); [apply returns_ret; exact Hd|].
  eapply returns_bind; [apply returns_any|]. intros lines _.
  eapply returns_bind; [apply returns_any|]. intros name _.
  apply (returns_bind well_keyed).
  - destruct (Py.truthy name).
    + eapply returns_bind; [apply returns_any|]. intros n _.
      apply returns_ret.
      repeat (apply dict_alter_well_keyed; [intro; reflexivity|]). exact Hd.
    + apply returns_ret.
      repeat (apply dict_alter_well_keyed; [intro; reflexivity|]). exact Hd.
  - intros named Hnamed.
    eapply returns_bind; [apply returns_any|]. intros primary _.
    eapply returns_bind; [apply returns_any|]. intros supplementary _.
    apply returns_ret. apply dict_alter_well_keyed; [intro; reflexivity|exact Hnamed].
Qed.

(** X12: the dictionary [connected_printers] returns has pairwise distinct
    keys, files every record under the serial the record itself carries,
    and has no equals sign in any serial, the serial being what follows the
    last [=] of the listing line. *)
Theorem connected_printers_well_keyed (h : Host) (s s' : state)
    (connected : list (string * Zeb.printer_info)) :
  Zeb.connected_printers h s = (s', Ok connected) -> well_keyed connected.
Proof.
  unfold Zeb.connected_printers. intro H. unfold bind at 1 in H.
  destruct (Zeb.system_command h Zeb.lpinfo_cmd s) as [s0 [[[st stdout] stderr]|e]];
    [|discriminate].
  unfold bind at 1 in H.
  destruct (method stdout (fun s => Py.split newline (Py.strip s)) s0)
    as [s1 [out|e]]; [|discriminate].
  eapply (for_each_keeps well_keyed); [| |exact H].
  - clear. intros dev d s1 s2 d' Hd H. cbv beta in H.
    destruct (Py.contains "Zebra" dev); [|injection H as _ <-; exact Hd].
    destruct (rsplit1_last "=" dev) as (sn & Hsn & Hfree).
    rewrite (bind_Ok _ _ _ _ _ (f_equal (fun m => m s1) Hsn)) in H.
    unfold bind at 1 in H.
    destruct (getlast (Py.rsplit_ws1 dev) s1) as [s3 [uri|e]]; [|discriminate].
    unfold bind at 1 in H.
    destruct (Zeb.listdir h "/dev/usb/" s3) as [s4 [entries|e]]; [|discriminate].
    eapply (for_each_keeps well_keyed); [| |exact H].
    + intros f b t1 t2 b' Hb Hprobe.
      eapply (probe_device_well_keyed h sn f b Hb); exact Hprobe.
    + apply dict_set_well_keyed; [reflexivity|exact Hfree|exact Hd].
  - split; constructor.
Qed.

Lemma connected_printers_well_keyed_witness :
  exists s' connected,
    Zeb.connected_printers three_host picking = (s', Ok connected)
    /\ List.map fst connected = ["A1"; "B2"; "C3"]
    /\ well_keyed connected.
Proof.
  destruct (Zeb.connected_printers three_host picking) as [s' [connected|e]] eqn:E;
    [|vm_compute in E; discriminate].
  exists s', connected. split; [reflexivity|]. split.
  - vm_compute in E. injection E as _ <-. reflexivity.
  - exact (connected_printers_well_keyed three_host picking s' connected E).
Defined.

(** A loop that meets an element on which the body raises [e], every
    element before it being skipped or raising [e] too, raises [e]. *)
Lemma for_each_raises {A B} (e : exn) (hit : A -> bool) (l : list A)
    (body : A -> B -> M B) :
  (forall x b s, hit x = false -> body x b s = (s, Ok b)) ->
  (forall x b s, hit x = true -> exists s', body x b s = (s', Raise e)) ->
  existsb hit l = true ->
  forall acc s, exists s', for_each l body acc s = (s', Raise e).
Proof.
  intros Hskip Hhit. induction l as [|x l IH]; intros Hex acc s; [discriminate|].
  simpl in Hex. cbn [for_each]. unfold bind.
  destruct (hit x) eqn:E.
  - destruct (Hhit x acc s E) as [s' ->]. eauto.
  - rewrite (Hskip x acc s E). apply IH. exact Hex.
Qed.

(** X13: [connected_printers] has no handler around [os.listdir]: with a
    Zebra line in the listing and no [/dev/usb/] directory it raises
    [FileNotFoundError], where [Zebra.__init__] logs a warning and goes
    on. *)
Theorem connected_printers_needs_dev_usb (h : Host) (s : state) status out err :
  h_spawn h (events s) Zeb.lpinfo_cmd = Some (status, out, err) ->
  existsb (Py.contains "Zebra") (Py.split newline (Py.strip out)) = true ->
  (forall t, h_listdir h t "/dev/usb/" = None) ->
  exists s', Zeb.connected_printers h s = (s', Raise FileNotFoundError).
Proof.
  intros H Hzebra Hdir. unfold Zeb.connected_printers.
  unfold bind at 1. unfold Zeb.system_command, System.system_command, bind at 1, ask.
  rewrite H. cbv [ret]. unfold bind at 1. cbv [method ret].
  apply (for_each_raises FileNotFoundError (Py.contains "Zebra")); [| |exact Hzebra].
  - intros dev b s0 Hdev. rewrite Hdev. reflexivity.
  - intros dev b s0 Hdev. rewrite Hdev.
    destruct (rsplit1_last "=" dev) as (sn & Hsn & _).
    destruct (rsplit_ws1_nonblank dev Hdev) as (uri & Huri).
    rewrite Hsn, Huri. run. rewrite Hdir. eexists. reflexivity.
Qed.

Lemma connected_printers_needs_dev_usb_witness :
  exists s',
    Zeb.connected_printers (listing_host three_listing None) start
    = (s', Raise FileNotFoundError).
Proof.
  apply (connected_printers_needs_dev_usb (listing_host three_listing None) start
           0 three_listing EmptyString);
    [reflexivity | reflexivity | intro; reflexivity].
Defined.

(** X14: for a listing whose only line mentions Zebra and ends, after a
    blank, in a word [BODY=SERIAL] with no equals sign in SERIAL,
    [connected_printers] files under SERIAL a record whose URI is that last
    word; with no entry in [/dev/usb/] the device path and the model name
    stay empty and the [installed] key is not set. *)
Theorem connected_printers_reads_line (h : Host) (s : state) status out err
    (pre body serial : string) :
  let uri := body +:+ "=" +:+ serial in
  h_spawn h (events s) Zeb.lpinfo_cmd = Some (status, out, err) ->
  Py.split newline (Py.strip out) = [pre +:+ " " +:+ uri] ->
  Py.contains "Zebra" (pre +:+ " " +:+ uri) = true ->
  all_chars (fun c => negb (Py.isspace c)) uri = true ->
  Py.contains "=" serial = false ->
  h_listdir h (events s ++ [Spawn Zeb.lpinfo_cmd]) "/dev/usb/" = Some [] ->
  Zeb.connected_printers h s =
    ({| events := events s ++ [Spawn Zeb.lpinfo_cmd; ListDir "/dev/usb/"];
        answers := answers s |},
     Ok [(serial,
          {| Zeb.info_uri := uri; Zeb.info_lp := EmptyString;
             Zeb.info_name := EmptyString; Zeb.info_sn := serial;
             Zeb.info_installed := None |})]).
Proof.
  intros uri H Hline Hzebra Hword Hserial Hdir. unfold Zeb.connected_printers.
  run. rewrite H, Hline. cbn [for_each]. unfold bind at 1. rewrite Hzebra.
  assert (Hsn : getlast (Py.rsplit1 "=" (pre +:+ " " +:+ uri)) = ret serial).
  { subst uri.
    replace (pre +:+ " " +:+ body +:+ "=" +:+ serial)
      with ((pre +:+ " " +:+ body) +:+ String "=" serial)
      by (rewrite !append_assoc; reflexivity).
    apply rsplit1_after. exact Hserial. }
  assert (Huri : getlast (Py.rsplit_ws1 (pre +:+ " " +:+ uri)) = ret uri).
  { apply (rsplit_ws1_last pre " " uri); [reflexivity| |exact Hword].
    subst uri. destruct body; discriminate. }
  rewrite Hsn. run. rewrite Huri. run. rewrite Hdir. cbn [for_each]. run.
  rewrite <- app_assoc. reflexivity.
Qed.

Lemma connected_printers_reads_line_witness :
  Zeb.connected_printers (listing_host (bench_line +:+ newline) (Some [])) start =
    ({| events := [Spawn Zeb.lpinfo_cmd; ListDir "/dev/usb/"];
        answers := answers start |},
     Ok [("ABC123",
          {| Zeb.info_uri := bench_uri; Zeb.info_lp := EmptyString;
             Zeb.info_name := EmptyString; Zeb.info_sn := "ABC123";
             Zeb.info_installed := None |})]).
Proof.
  apply (connected_printers_reads_line
           (listing_host (bench_line +:+ newline) (Some [])) start
           0 (bench_line +:+ newline) EmptyString
           "direct" "usb://Zebra%20Technologies/ZTC%20ZT410?serial" "ABC123");
    reflexivity.
Defined.

(** ** Events that leave the set-up alone *)

Section SetupFacts.

Lemma leaves_ret {A} (a : A) : leaves_setup (ret a).
Proof. intro s. exists []. simpl. rewrite app_nil_r. auto. Qed.

Lemma leaves_raise {A} e : leaves_setup (@raise A e).
Proof. intro s. exists []. simpl. rewrite app_nil_r. auto. Qed.

Lemma leaves_peek {A} (oracle : trace -> A) : leaves_setup (peek oracle).
Proof. intro s. exists []. simpl. rewrite app_nil_r. auto. Qed.

Lemma leaves_emit e : changes_setup e = false -> leaves_setup (emit e).
Proof. intros He s. exists [e]. simpl. rewrite He. auto. Qed.

Lemma leaves_log l msg : leaves_setup (log l msg).
Proof. apply leaves_emit. reflexivity. Qed.

Lemma leaves_ask {A} e (oracle : trace -> A) :
  changes_setup e = false -> leaves_setup (ask e oracle).
Proof. intros He s. exists [e]. simpl. rewrite He. auto. Qed.

Lemma leaves_bind {A B} (m : M A) (k : A -> M B) :
  leaves_setup m -> (forall a, leaves_setup (k a)) -> leaves_setup (bind m k).
Proof.
  intros Hm Hk s. unfold bind. destruct (Hm s) as (t & Ht & Hq).
  destruct (m s) as [s' [a|e]]; simpl in Ht.
  - destruct (Hk a s') as (t' & Ht' & Hq'). exists (t ++ t').
    rewrite Ht', Ht, app_assoc, forallb_app, Hq, Hq'. auto.
  - exists t. auto.
Qed.

Lemma leaves_try_except {A} (m : M A) handled handler :
  leaves_setup m -> leaves_setup handler ->
  leaves_setup (try_except m handled handler).
Proof.
  intros Hm Hh s. unfold try_except. destruct (Hm s) as (t & Ht & Hq).
  destruct (m s) as [s' [a|e]]; simpl in Ht.
  - exists t. auto.
  - destruct (handled e).
    + destruct (Hh s') as (t' & Ht' & Hq'). exists (t ++ t').
      rewrite Ht', Ht, app_assoc, forallb_app, Hq, Hq'. auto.
    + exists t. auto.
Qed.

Lemma leaves_for_each {A B} (l : list A) (body : A -> B -> M B) acc :
  (forall x b, leaves_setup (body x b)) -> leaves_setup (for_each l body acc).
Proof.
  intro Hb. revert acc. induction l as [|x l IH]; intro acc; simpl.
  - apply leaves_ret.
  - apply leaves_bind; [apply Hb | intro; apply IH].
Qed.

Lemma leaves_method {A} o (f : string -> A) : leaves_setup (method o f).
Proof. destruct o; [apply leaves_ret | apply leaves_raise]. Qed.

Lemma leaves_is_in sub o : leaves_setup (is_in sub o).
Proof. destruct o; [apply leaves_ret | apply leaves_raise]. Qed.

Lemma leaves_getitem {A} (l : list A) i : leaves_setup (getitem l i).
Proof.
  unfold getitem. destruct (nth_error l i); [apply leaves_ret | apply leaves_raise].
Qed.

Lemma leaves_getlast {A} (l : list A) : leaves_setup (getlast l).
Proof.
  unfold getlast. destruct (List.rev l); [apply leaves_raise | apply leaves_ret].
Qed.

End SetupFacts.

Create HintDb setup_db.
#[export] Hint Resolve leaves_ret leaves_raise leaves_peek leaves_log
  leaves_method leaves_is_in leaves_getitem leaves_getlast : setup_db.

(** Splits a [leaves_setup] goal along the structure of the computation. *)
Ltac leaves_step :=
  match goal with
  | |- leaves_setup (bind _ _) => apply leaves_bind; [|intros]
  | |- leaves_setup (try_except _ _ _) => apply leaves_try_except
  | |- leaves_setup (for_each _ _ _) => apply leaves_for_each; intros
  | |- leaves_setup (emit _) => apply leaves_emit; reflexivity
  | |- leaves_setup (ask _ _) => apply leaves_ask; reflexivity
  | |- leaves_setup (let '(_, _) := ?x in _) => destruct x
  | |- leaves_setup (match ?x with _ => _ end) => destruct x
  | |- leaves_setup _ => solve [auto with setup_db]
  end.

Section ZebSetup.
Variable h : Host.

Lemma leaves_system_command cmd :
  Py.startswith cmd "lpadmin" = false -> leaves_setup (Zeb.system_command h cmd).
Proof.
  intro H. unfold Zeb.system_command, System.system_command.
  apply leaves_bind; [apply leaves_ask; exact H|]. intros. repeat leaves_step.
Qed.

Lemma leaves_listdir path : leaves_setup (Zeb.listdir h path).
Proof. unfold Zeb.listdir. repeat leaves_step. Qed.

Lemma leaves_usb_reset vid pid : leaves_setup (Zeb.usb_reset h vid pid).
Proof. unfold Zeb.usb_reset. repeat leaves_step. Qed.

Hint Resolve leaves_listdir leaves_usb_reset : setup_db.

Lemma leaves_get_printer_name sn : leaves_setup (Zeb.get_printer_name h sn).
Proof.
  unfold Zeb.get_printer_name.
  apply leaves_bind; [apply leaves_system_command; reflexivity|]. intros.
  repeat leaves_step.
Qed.

Lemma leaves_find_lp_path sn : leaves_setup (Zeb.find_lp_path h sn).
Proof.
  unfold Zeb.find_lp_path. repeat leaves_step.
  apply leaves_system_command. reflexivity.
Qed.

Hint Resolve leaves_get_printer_name leaves_find_lp_path : setup_db.

Lemma leaves_init sn vid pid : leaves_setup (Zeb.init h sn vid pid).
Proof. unfold Zeb.init. repeat leaves_step. Qed.

Lemma leaves_print self zpl : leaves_setup (Zeb.print h self zpl).
Proof.
  unfold Zeb.print.
  apply leaves_bind; [apply leaves_system_command; reflexivity|]. intros.
  repeat leaves_step.
Qed.

Hint Resolve leaves_init leaves_print : setup_db.

Lemma leaves_test_print self : leaves_setup (Zeb.test_print h self).
Proof. unfold Zeb.test_print. repeat leaves_step. Qed.

End ZebSetup.

(** ** What the session operations hand to a shell *)

Section OnlyFacts.
Variable ok : event -> bool.

Lemma only_ret {A} (a : A) : emits_only ok (ret a).
Proof. intro s. exists []. simpl. rewrite app_nil_r. auto. Qed.

Lemma only_raise {A} e : emits_only ok (@raise A e).
Proof. intro s. exists []. simpl. rewrite app_nil_r. auto. Qed.

Lemma only_peek {A} (oracle : trace -> A) : emits_only ok (peek oracle).
Proof. intro s. exists []. simpl. rewrite app_nil_r. auto. Qed.

Lemma only_emit e : ok e = true -> emits_only ok (emit e).
Proof. intros He s. exists [e]. simpl. rewrite He. auto. Qed.

Lemma only_ask {A} e (oracle : trace -> A) :
  ok e = true -> emits_only ok (ask e oracle).
Proof. intros He s. exists [e]. simpl. rewrite He. auto. Qed.

Lemma only_bind {A B} (m : M A) (k : A -> M B) :
  emits_only ok m -> (forall a, emits_only ok (k a)) -> emits_only ok (bind m k).
Proof.
  intros Hm Hk s. unfold bind. destruct (Hm s) as (t & Ht & Hq).
  destruct (m s) as [s' [a|e]]; simpl in Ht.
  - destruct (Hk a s') as (t' & Ht' & Hq'). exists (t ++ t').
    rewrite Ht', Ht, app_assoc, forallb_app, Hq, Hq'. auto.
  - exists t. auto.
Qed.

Lemma only_try_except {A} (m : M A) handled handler :
  emits_only ok m -> emits_only ok handler ->
  emits_only ok (try_except m handled handler).
Proof.
  intros Hm Hh s. unfold try_except. destruct (Hm s) as (t & Ht & Hq).
  destruct (m s) as [s' [a|e]]; simpl in Ht.
  - exists t. auto.
  - destruct (handled e).
    + destruct (Hh s') as (t' & Ht' & Hq'). exists (t ++ t').
      rewrite Ht', Ht, app_assoc, forallb_app, Hq, Hq'. auto.
    + exists t. auto.
Qed.

Lemma only_for_each {A B} (l : list A) (body : A -> B -> M B) acc :
  (forall x b, emits_only ok (body x b)) -> emits_only ok (for_each l body acc).
Proof.
  intro Hb. revert acc. induction l as [|x l IH]; intro acc; simpl.
  - apply only_ret.
  - apply only_bind; [apply Hb | intro; apply IH].
Qed.

Lemma only_method {A} o (f : string -> A) : emits_only ok (method o f).
Proof. destruct o; [apply only_ret | apply only_raise]. Qed.

Lemma only_is_in sub o : emits_only ok (is_in sub o).
Proof. destruct o; [apply only_ret | apply only_raise]. Qed.

Lemma only_getitem {A} (l : list A) i : emits_only ok (getitem l i).
Proof.
  unfold getitem. destruct (nth_error l i); [apply only_ret | apply only_raise].
Qed.

Lemma only_getlast {A} (l : list A) : emits_only ok (getlast l).
Proof.
  unfold getlast. destruct (List.rev l); [apply only_raise | apply only_ret].
Qed.

End OnlyFacts.

Lemma only_choose prompt options :
  emits_only plain_event (Prompt.choose prompt options).
Proof.
  intro s. unfold Prompt.choose.
  generalize (match String.rev prompt with
              | String c _ => if Py.mem_char c ":?.!" then prompt else prompt +:+ ":"
              | EmptyString => prompt +:+ ":"
              end).
  intro q. generalize (events s). induction (answers s) as [|a rest IH]; intro t.
  - cbn [Prompt.choose_loop fst events]. eexists. split; reflexivity.
  - cbn [Prompt.choose_loop]. destruct (existsb (String.eqb a) options).
    + cbn [fst events]. eexists. split; reflexivity.
    + match goal with |- context [Prompt.choose_loop q options rest ?t'] =>
        destruct (IH t') as (t2 & -> & Hq)
      end.
      eexists. rewrite <- !app_assoc. split; [reflexivity|].
      cbn [app forallb plain_event andb]. exact Hq.
Qed.

Create HintDb only_db.
#[export] Hint Resolve only_ret only_raise only_peek only_method only_is_in
  only_getitem only_getlast only_choose : only_db.

(** Splits an [emits_only] goal along the structure of the computation. *)
Ltac only_step :=
  match goal with
  | |- emits_only _ (bind _ _) => apply only_bind; [|intros]
  | |- emits_only _ (try_except _ _ _) => apply only_try_except
  | |- emits_only _ (for_each _ _ _) => apply only_for_each; intros
  | |- emits_only _ (log _ _) => apply only_emit; reflexivity
  | |- emits_only _ (emit _) => apply only_emit; reflexivity
  | |- emits_only _ (ask _ _) => apply only_ask; reflexivity
  | |- emits_only _ (let '(_, _) := ?x in _) => destruct x
  | |- emits_only _ (match ?x with _ => _ end) => destruct x
  | |- emits_only _ _ => solve [auto with only_db]
  end.

Section ZebOnly.
Variable h : Host.
Variable ok : event -> bool.
Hypothesis ok_plain : forall e, plain_event e = true -> ok e = true.

Lemma only_system_command cmd :
  plain_event (Spawn cmd) = true -> emits_only ok (Zeb.system_command h cmd).
Proof.
  intro H. unfold Zeb.system_command, System.system_command.
  apply only_bind; [apply only_ask, ok_plain; exact H|]. intros.
  repeat only_step.
Qed.

Lemma only_listdir path : emits_only ok (Zeb.listdir h path).
Proof.
  unfold Zeb.listdir.
  apply only_bind; [apply only_ask, ok_plain; reflexivity|]. intros.
  repeat only_step.
Qed.

Lemma only_usb_reset vid pid : emits_only ok (Zeb.usb_reset h vid pid).
Proof.
  unfold Zeb.usb_reset.
  destruct (Py.int 16 vid) as [v|]; [|apply only_raise].
  destruct (Py.int 16 pid) as [p|]; [|apply only_raise].
  apply only_bind; [apply only_ask, ok_plain; reflexivity|]. intros [|].
  - apply only_emit, ok_plain. reflexivity.
  - apply only_ret.
Qed.

End ZebOnly.

Section ZebPlain.
Variable h : Host.

Lemma only_get_printer_name sn :
  emits_only plain_event (Zeb.get_printer_name h sn).
Proof.
  unfold Zeb.get_printer_name.
  apply only_bind; [apply only_system_command; auto|]. intros.
  repeat only_step.
Qed.

Lemma only_find_lp_path sn : emits_only plain_event (Zeb.find_lp_path h sn).
Proof.
  unfold Zeb.find_lp_path. apply only_try_except; [|repeat only_step].
  apply only_bind; [apply only_listdir; auto|]. intros.
  apply only_bind; [|intros; repeat only_step].
  apply only_for_each. intros f lp_path.
  destruct (negb (Py.startswith f "lp")); [apply only_ret|].
  apply only_bind; [apply only_system_command; auto|]. intros.
  repeat only_step.
Qed.

Lemma only_init sn vid pid : emits_only plain_event (Zeb.init h sn vid pid).
Proof.
  unfold Zeb.init.
  apply only_bind; [repeat only_step|]. intros [[sn' vid'] pid'].
  apply only_bind; [only_step|]. intros.
  apply only_bind; [apply only_get_printer_name|]. intros.
  apply only_bind; [apply only_find_lp_path|]. intros.
  apply only_ret.
Qed.

Lemma only_is_connected self : emits_only plain_event (Zeb.is_connected h self).
Proof.
  unfold Zeb.is_connected.
  apply only_bind; [apply only_system_command; auto|]. intros [[st out] err].
  apply only_bind; [apply only_is_in|]. intros [|]; [|apply only_ret].
  apply only_bind; [|intros; apply only_ret].
  destruct (Py.truthy (Zeb.vid self) && Py.truthy (Zeb.pid self));
    [apply only_usb_reset; auto | apply only_ret].
Qed.

Lemma only_connect printer : emits_only plain_event (Zeb.connect h printer).
Proof.
  unfold Zeb.connect. apply only_try_except; [|repeat only_step].
  apply only_bind; [apply only_peek|]. intros [binding|]; [|apply only_raise].
  destruct (Py.split "-" binding) as [|sn [|vid [|pid [|]]]];
    try apply only_raise.
  apply only_bind; [apply only_init|]. intros.
  apply only_bind; [apply only_is_connected|]. intros. apply only_ret.
Qed.

Lemma only_probe_device sn f d : emits_only plain_event (Zeb.probe_device h sn f d).
Proof.
  unfold Zeb.probe_device. destruct (negb (Py.startswith f "lp")); [apply only_ret|].
  apply only_bind; [apply only_system_command; auto|]. intros.
  repeat only_step.
Qed.

Lemma only_connected_printers : emits_only plain_event (Zeb.connected_printers h).
Proof.
  unfold Zeb.connected_printers.
  apply only_bind; [apply only_system_command; auto|]. intros [[st out] err].
  apply only_bind; [apply only_method|]. intros lines.
  apply only_for_each. intros dev connected.
  destruct (Py.contains "Zebra" dev); [|apply only_ret].
  apply only_bind; [apply only_getlast|]. intros.
  apply only_bind; [apply only_getlast|]. intros.
  apply only_bind; [apply only_listdir; auto|]. intros.
  apply only_for_each. intros. apply only_probe_device.
Qed.

Lemma only_choose_printer : emits_only plain_event (Zeb.choose_printer h).
Proof.
  unfold Zeb.choose_printer, Zeb.str_getitem_str, Zeb.getitem_int.
  apply only_bind; [apply only_connected_printers|]. intros printers.
  destruct (length printers =? 0)%nat; [apply only_ret|].
  apply only_bind; [|intros; apply only_bind; [apply only_init|intros; apply only_ret]].
  destruct (length printers =? 1)%nat; [repeat only_step|].
  apply only_bind; [only_step|]. intros.
  apply only_bind.
  { apply only_for_each. intros [i [sn info]] b. only_step. }
  intros. apply only_bind; [apply only_choose|]. intros choice.
  repeat only_step.
Qed.

Lemma only_print self zpl : emits_only print_event (Zeb.print h self zpl).
Proof.
  assert (Hok : forall e, plain_event e = true -> print_event e = true).
  { intros [] H; try discriminate H; exact H || reflexivity. }
  unfold Zeb.print.
  apply only_bind; [apply only_system_command; auto|]. intros [[st out] err].
  apply only_bind; [apply only_is_in|]. intros found.
  destruct (negb found); [repeat only_step|].
  destruct (negb (truthy_opt (Zeb.name self))); [apply only_ret|].
  apply only_bind; [only_step|]. intros.
  apply only_bind.
  { destruct (Py.truthy (Zeb.vid self) && Py.truthy (Zeb.pid self));
      [apply only_usb_reset; auto | apply only_ret]. }
  intros. repeat only_step.
Qed.

Lemma only_command self zpl :
  emits_only (device_event (default EmptyString (Zeb.lp_path self)) zpl)
    (Zeb.command h self zpl).
Proof.
  unfold Zeb.command, Zeb.pipeable_command, System.pipeable_command.
  destruct (negb (truthy_opt (Zeb.lp_path self))); [repeat only_step|].
  cbv zeta.
  apply only_bind.
  { apply only_emit. cbn [device_event]. rewrite String.eqb_refl. reflexivity. }
  intros. apply only_bind; [only_step|]. intros.
  apply only_bind.
  { apply only_emit. cbn [device_event]. rewrite String.eqb_refl.
    apply orb_true_r. }
  intros. apply only_bind.
  { apply only_ask. cbn [device_event]. apply String.eqb_refl. }
  intros [[st out] err]. apply only_ret.
Qed.

End ZebPlain.

(** X15: what the session operations hand to a shell, whatever the machine
    answers and whether they return or raise.  [connect], [choose_printer],
    [connected_printers], [Zebra.__init__] and [is_connected] hand nothing
    to a shell, persist no binding and write no file: they log, prompt,
    list [/dev/usb/], look the USB device up or reset it, and start
    [lpinfo], [lpstat] and [udevadm info] from an argument vector.  [print]
    and [test_print] add the constant command line [cancel -a -x] and the
    spooler client.  [command] and [get_config] add three command lines
    built, unquoted, from the session's device path and the payload:
    [echo ^XA^XZ > PATH], [echo PAYLOAD > PATH] and [timeout 1s cat PATH];
    what the shell makes of them is not part of the statement. *)
Theorem session_operations_shell_lines (h : Host) :
  (forall printer, emits_only plain_event (Zeb.connect h printer))
  /\ emits_only plain_event (Zeb.choose_printer h)
  /\ emits_only plain_event (Zeb.connected_printers h)
  /\ (forall sn vid pid, emits_only plain_event (Zeb.init h sn vid pid))
  /\ (forall self, emits_only plain_event (Zeb.is_connected h self))
  /\ (forall self zpl, emits_only print_event (Zeb.print h self zpl))
  /\ (forall self, emits_only print_event (Zeb.test_print h self))
  /\ (forall self zpl,
        emits_only (device_event (default EmptyString (Zeb.lp_path self)) zpl)
          (Zeb.command h self zpl))
  /\ (forall self,
        emits_only (device_event (default EmptyString (Zeb.lp_path self)) "^XA^HH^XZ")
          (Zeb.get_config h self)).
Proof.
  repeat split; intros.
  - apply only_connect.
  - apply only_choose_printer.
  - apply only_connected_printers.
  - apply only_init.
  - apply only_is_connected.
  - apply only_print.
  - unfold Zeb.test_print. apply only_bind; [apply only_print|].
    intros. apply only_ret.
  - apply only_command.
  - unfold Zeb.get_config. apply only_bind; [apply only_command|].
    intros [[st out] err]. repeat only_step.
Qed.

(** ** The stand-alone listing of [__main__.py] *)

Section MainFacts.

Lemma lstrip_by_suffix f s : exists p, s = p +:+ Py.lstrip_by f s.
Proof.
  induction s as [|c s [p IH]].
  - exists EmptyString. reflexivity.
  - simpl. destruct (f c).
    + exists (String c p). rewrite append_cons, <- IH. reflexivity.
    + exists EmptyString. reflexivity.
Qed.

Lemma contains_char_lstrip c f s :
  Py.contains (String c "") s = false ->
  Py.contains (String c "") (Py.lstrip_by f s) = false.
Proof.
  intro H. destruct (lstrip_by_suffix f s) as [p Hp]. rewrite Hp in H.
  rewrite contains_char_app in H. apply orb_false_elim in H as [_ H]. exact H.
Qed.

(** Stripping never brings a character in. *)
Lemma contains_char_strip c f s :
  Py.contains (String c "") s = false ->
  Py.contains (String c "") (Py.strip_by f s) = false.
Proof.
  intro H. unfold Py.strip_by, Py.rstrip_by.
  rewrite contains_char_rev. apply contains_char_lstrip.
  rewrite contains_char_rev. apply contains_char_lstrip. exact H.
Qed.

(** The text before the first colon of a line holds no colon. *)
Lemma split1_head_colon_free device :
  exists head, getitem (Py.split1 ":" device) 0 = ret head
               /\ Py.contains ":" head = false.
Proof.
  unfold Py.split1. destruct (Py.cut ":" device) as [[a b]|] eqn:E.
  - exists a. split; [reflexivity|]. eapply cut_char_before. exact E.
  - exists device. split; [reflexivity|]. unfold Py.contains. rewrite E. reflexivity.
Qed.

Lemma search_usb_uri_colon device uri :
  Main.search_usb_uri device = Some uri -> Py.contains ":" uri = true.
Proof.
  unfold Main.search_usb_uri. destruct (Py.cut "usb://" device) as [[a r]|]; [|discriminate].
  intro H. injection H as <-.
  apply (contains_intro ":" "usb" ("//" +:+ fst (Py.span_by _ r))).
Qed.

Lemma installed_printers_names (h : Host) :
  returns (fun m : gmap string string =>
             forall k, is_Some (m !! k) -> Py.contains ":" k = false)
          (Main.installed_printers h).
Proof.
  unfold Main.installed_printers.
  eapply returns_bind; [apply returns_any|]. intros [[st installed] err] _.
  intros s s' r H.
  eapply (for_each_keeps
            (fun m : gmap string string =>
               forall k, is_Some (m !! k) -> Py.contains ":" k = false));
    [| |exact H].
  - clear. intros device m s1 s2 m' Hm H. unfold Main.installed_entry in H.
    destruct (Main.is_zebra_line device); [|injection H as _ <-; exact Hm].
    destruct (Main.search_usb_uri device) as [uri|]; [|discriminate].
    destruct (split1_head_colon_free device) as (head & Hhead & Hfree).
    rewrite (bind_Ok _ _ _ _ _ (f_equal (fun m => m s1) Hhead)) in H.
    injection H as _ <-. intros k Hk.
    apply lookup_insert_is_Some in Hk as [<-|[_ Hk]]; [|apply Hm; exact Hk].
    apply contains_char_strip. exact Hfree.
  - intros k Hk. rewrite lookup_empty in Hk. destruct Hk as [? Hk]. discriminate.
Qed.

End MainFacts.

(** X16: [discover_connected_printers] never reports a printer as
    installed: it looks the URI up among the queue names that
    [installed_printers] returns, a queue name holds no colon, being cut
    before the first one, and a URI starts with [usb://]. *)
Theorem discover_never_installed (h : Host) (s s' : state)
    (printers : gmap string Main.discovered) :
  Main.discover_connected_printers h s = (s', Ok printers) ->
  forall serial record,
    printers !! serial = Some record -> Main.found_installed record = false.
Proof.
  unfold Main.discover_connected_printers. intro H. unfold bind at 1 in H.
  destruct (Main.installed_printers h s) as [s1 [installed|e]] eqn:Einst;
    [|discriminate].
  pose proof (installed_printers_names h s s1 installed Einst) as Hnames.
  cbv zeta in H. unfold bind at 1 in H.
  destruct (Main.system_command h _ s1) as [s2 [[[st connected] err]|e]];
    [|discriminate].
  eapply (for_each_keeps
            (fun m : gmap string Main.discovered =>
               forall serial record,
                 m !! serial = Some record -> Main.found_installed record = false));
    [| |exact H].
  - clear - Hnames. intros device m t1 t2 m' Hm H. unfold Main.discovered_entry in H.
    destruct (Py.contains "Zebra" device); [|injection H as _ <-; exact Hm].
    destruct (Main.search_usb_uri device) as [uri|] eqn:Euri; [|discriminate].
    unfold bind in H.
    destruct (getlast (Py.rsplit1 "=" uri) t1) as [t3 [sn|e]]; [|discriminate].
    injection H as _ <-. intros serial record Hrec.
    apply lookup_insert_Some in Hrec as [[_ <-]|[_ Hrec]]; [|eapply Hm; exact Hrec].
    cbn [Main.found_installed]. apply bool_decide_eq_false. intro Hin.
    apply Hnames in Hin. apply search_usb_uri_colon in Euri. congruence.
  - intros serial record Hrec. rewrite lookup_empty in Hrec. discriminate.
Qed.

Lemma discover_never_installed_witness :
  exists s' printers record,
    Main.discover_connected_printers bench_cups start = (s', Ok printers)
    /\ printers !! "ABC123" = Some record
    /\ Main.found_uri record = bench_uri
    /\ Main.found_installed record = false.
Proof.
  destruct (Main.discover_connected_printers bench_cups start)
    as [s' [printers|e]] eqn:E; [|vm_compute in E; discriminate].
  assert (Hrec : printers !! "ABC123"
                 = Some {| Main.found_uri := bench_uri; Main.found_installed := false |}).
  { vm_compute in E. injection E as _ <-. reflexivity. }
  exists s', printers, {| Main.found_uri := bench_uri; Main.found_installed := false |}.
  split; [reflexivity|]. split; [exact Hrec|]. split; [reflexivity|].
  exact (discover_never_installed bench_cups start s' printers E "ABC123" _ Hrec).
Defined.

(** A loop whose body can only raise [e], and does so on some element,
    raises [e]. *)
Lemma for_each_raises_only {A B} (e : exn) (hit : A -> bool) (l : list A)
    (body : A -> B -> M B) :
  (forall x b s, (exists s' b', body x b s = (s', Ok b'))
                 \/ (exists s', body x b s = (s', Raise e))) ->
  (forall x b s, hit x = true -> exists s', body x b s = (s', Raise e)) ->
  existsb hit l = true ->
  forall acc s, exists s', for_each l body acc s = (s', Raise e).
Proof.
  intros Hany Hhit. induction l as [|x l IH]; intros Hex acc s; [discriminate|].
  simpl in Hex. cbn [for_each]. unfold bind.
  destruct (hit x) eqn:E.
  - destruct (Hhit x acc s E) as [s' ->]. eauto.
  - destruct (Hany x acc s) as [(s' & b' & ->)|(s' & ->)]; [|eauto].
    apply IH. exact Hex.
Qed.

(** X17: a line of [lpstat -v] that carries a Zebra marker and no [usb://]
    is not skipped: the pattern search yields [None], subscripting it
    raises, and [installed_printers] ends in [TypeError] whatever the other
    lines are. *)
Theorem installed_printers_rejects_marked_line (h : Host) (s : state)
    status out err :
  h_run h (events s) "lpstat -v" = Ok (status, out, err) ->
  existsb (fun device => Main.is_zebra_line device
                         && negb (Py.contains "usb://" device))
          (Py.splitlines out) = true ->
  exists s', Main.installed_printers h s = (s', Raise TypeError).
Proof.
  intros H Hbad. unfold Main.installed_printers, Main.system_command.
  run. rewrite H.
  apply (for_each_raises_only TypeError
           (fun device => Main.is_zebra_line device
                          && negb (Py.contains "usb://" device)));
    [| |exact Hbad].
  - intros device m s0. unfold Main.installed_entry.
    destruct (Main.is_zebra_line device); [|left; eauto].
    destruct (Main.search_usb_uri device) as [uri|]; [|right; eauto].
    destruct (split1_head_colon_free device) as (head & -> & _). left. eauto.
  - intros device m s0 Hdev. apply andb_prop in Hdev as [Hz Hno].
    unfold Main.installed_entry, Main.search_usb_uri. rewrite Hz.
    unfold Py.contains in Hno.
    destruct (Py.cut "usb://" device) as [[a b]|]; [discriminate|]. eauto.
Qed.

Lemma installed_printers_rejects_marked_line_witness :
  exists s',
    Main.installed_printers
      (cups_host ("device for Zebra-Technologies-ZTC-ZT410-ABC123: " +:+ bench_uri
                  +:+ newline +:+ "device for ZPL-label: socket://10.0.0.7"
                  +:+ newline)
                 EmptyString)
      start = (s', Raise TypeError).
Proof.
  eapply installed_printers_rejects_marked_line; reflexivity.
Defined.

(** ** More of the installation *)

Section InstallFacts.

Lemma split_no_sep sep s :
  sep <> EmptyString -> Py.contains sep s = false -> Py.split sep s = [s].
Proof.
  intros Hsep H. rewrite split_eq by exact Hsep. unfold Py.contains in H.
  destruct (Py.cut sep s) as [[a b]|]; [discriminate|reflexivity].
Qed.

Lemma split1_no_sep sep s : Py.contains sep s = false -> Py.split1 sep s = [s].
Proof.
  unfold Py.split1, Py.contains.
  destruct (Py.cut sep s) as [[a b]|]; [discriminate|reflexivity].
Qed.

Lemma split1_again sep tail :
  getlast (Py.split1 sep (sep +:+ tail)) = ret tail.
Proof.
  unfold Py.split1. rewrite cut_unfold, strip_prefix_app. reflexivity.
Qed.

Lemma split1_head sep s :
  getitem (Py.split1 sep s) 0 = ret (List.hd EmptyString (Py.split1 sep s)).
Proof. unfold Py.split1. destruct (Py.cut sep s) as [[a b]|]; reflexivity. Qed.

End InstallFacts.

(** X18: [install_printer] checks the one Zebra line before it touches
    anything.  A line without [serial=], or with [serial=] and without
    [usb://], raises [IndexError]; a line that ends in [serial=] makes it
    log an error and return [False].  In the three cases it has only logged
    and queried the listing. *)
Theorem install_printer_checks_line (h : Host) (s : state) status out err line :
  h_spawn h (events s ++ [Log Info Zeb.discovering]) Zeb.lpinfo_cmd
    = Some (status, out, err) ->
  Zeb.zebra_lines out = [line] ->
  let queried := events s ++ [Log Info Zeb.discovering; Spawn Zeb.lpinfo_cmd] in
  (Py.contains "serial=" line = false ->
   Zeb.install_printer h s =
     ({| events := queried; answers := answers s |}, Raise IndexError))
  /\
  (forall serial,
     nth_error (Py.split "serial=" line) 1 = Some serial ->
     Py.contains "usb://" line = false ->
     Zeb.install_printer h s =
       ({| events := queried; answers := answers s |}, Raise IndexError))
  /\
  (Py.contains "usb://" line = true ->
   nth_error (Py.split "serial=" line) 1 = Some EmptyString ->
   Zeb.install_printer h s =
     ({| events := queried ++
           [Log Error ("Couldnt extract serial number from " +:+ line +:+ "!")];
         answers := answers s |},
      Ok false)).
Proof.
  intros H Hlines queried. subst queried.
  assert (Hfront : forall k : list string -> M bool,
            (r <- Zeb.system_command h Zeb.lpinfo_cmd ;;
             let '(_, stdout, _) := r in
             zebra_printers <- method stdout Zeb.zebra_lines ;; k zebra_printers)
              {| events := events s ++ [Log Info Zeb.discovering];
                 answers := answers s |}
            = k [line] {| events := (events s ++ [Log Info Zeb.discovering])
                                    ++ [Spawn Zeb.lpinfo_cmd];
                          answers := answers s |}).
  { intro k. run. rewrite H, Hlines. reflexivity. }
  repeat split.
  - intro Hno. unfold Zeb.install_printer. unfold bind at 1. cbv [log emit].
    rewrite Hfront. cbn [length Nat.eqb Nat.ltb Nat.leb getitem nth_error]. run.
    rewrite split_no_sep by (discriminate || exact Hno).
    cbn [getitem nth_error]. run. rewrite <- app_assoc. reflexivity.
  - intros serial Hserial Hno. unfold Zeb.install_printer. unfold bind at 1.
    cbv [log emit]. rewrite Hfront.
    cbn [length Nat.eqb Nat.ltb Nat.leb getitem nth_error]. run.
    unfold getitem at 1. rewrite Hserial. run.
    rewrite split1_no_sep by exact Hno.
    cbn [getitem nth_error]. run. rewrite <- app_assoc. reflexivity.
  - intros Hyes Hserial. unfold Zeb.install_printer. unfold bind at 1.
    cbv [log emit]. rewrite Hfront.
    cbn [length Nat.eqb Nat.ltb Nat.leb getitem nth_error]. run.
    unfold getitem at 1. rewrite Hserial. run.
    unfold Py.contains in Hyes. unfold Py.split1 at 1.
    destruct (Py.cut "usb://" line) as [[pre tail]|]; [|discriminate].
    cbn [getitem nth_error]. run.
    rewrite split1_again. run. rewrite split1_head. run.
    cbn [Py.truthy negb]. run. rewrite <- !app_assoc. reflexivity.
Qed.

Lemma install_printer_checks_line_witness :
  Zeb.install_printer
    (listing_host ("direct usb://Zebra%20Technologies/ZTC%20ZT410" +:+ newline) None)
    start =
    ({| events := [Log Info Zeb.discovering; Spawn Zeb.lpinfo_cmd];
        answers := answers start |},
     Raise IndexError)
  /\ Zeb.install_printer
       (listing_host ("direct usb://Zebra/ZT410?serial=" +:+ newline) None) start =
     ({| events := [Log Info Zeb.discovering; Spawn Zeb.lpinfo_cmd;
                    Log Error "Couldnt extract serial number from direct usb://Zebra/ZT410?serial=!"];
         answers := answers start |},
      Ok false).
Proof.
  split.
  - apply (proj1 (install_printer_checks_line
                    (listing_host ("direct usb://Zebra%20Technologies/ZTC%20ZT410"
                                   +:+ newline) None)
                    start 0 ("direct usb://Zebra%20Technologies/ZTC%20ZT410" +:+ newline)
                    EmptyString "direct usb://Zebra%20Technologies/ZTC%20ZT410"
                    eq_refl eq_refl)).
    reflexivity.
  - apply (proj2 (proj2 (install_printer_checks_line
                    (listing_host ("direct usb://Zebra/ZT410?serial=" +:+ newline) None)
                    start 0 ("direct usb://Zebra/ZT410?serial=" +:+ newline)
                    EmptyString "direct usb://Zebra/ZT410?serial="
                    eq_refl eq_refl))); reflexivity.
Defined.

(** Brings a run of [install_printer] on a line that parses to the point
    where the installed-queue listing has been read. *)
Ltac install_front H Hlines Hserial Hsplit Hlpstat :=
  unfold Zeb.install_printer; run; rewrite H, Hlines;
  cbn [length Nat.eqb Nat.ltb Nat.leb getitem nth_error]; run;
  unfold getitem at 1; rewrite Hserial; run; rewrite Hsplit;
  cbn [getitem nth_error]; run; rewrite split1_again; run;
  rewrite split1_head; run;
  cbn [Py.truthy negb]; run; rewrite Hlpstat; run.

(** X19: when the USB bus listing does not yield exactly one
    [vid:pid] pair, [install_printer] raises [ValueError] after it has
    registered the queue and restarted the spooler and before it has
    asked the operator or persisted anything: a half-done installation. *)
Theorem install_printer_stops_half_way (h : Host) (s : state) status out err
    line c serial' pre tail status' out' err' shell_status lsusb shell_err :
  let serial := String c serial' in
  let t1 := events s ++ [Log Info Zeb.discovering] in
  h_spawn h t1 Zeb.lpinfo_cmd = Some (status, out, err) ->
  Zeb.zebra_lines out = [line] ->
  nth_error (Py.split "serial=" line) 1 = Some serial ->
  Py.split1 "usb://" line = [pre; tail] ->
  h_spawn h (t1 ++ [Spawn Zeb.lpinfo_cmd]) "lpstat -v" = Some (status', out', err') ->
  Py.contains serial out' = false ->
  (forall t, h_shell h t Zeb.lsusb_cmd = (shell_status, lsusb, shell_err)) ->
  length (Py.split ":" (Zeb.bytes_strip lsusb)) <> 2%nat ->
  Zeb.install_printer h s =
    ({| events := events s ++
          [Log Info Zeb.discovering; Spawn Zeb.lpinfo_cmd; Spawn "lpstat -v";
           Log Info "Printer must be installed first.";
           Log Info (lpadmin_cmd serial tail);
           Spawn (lpadmin_cmd serial tail);
           Log Info "Restarting cups.service...";
           OsSystem "systemctl restart cups"; Sleep 2000;
           Shell Zeb.lsusb_cmd];
        answers := answers s |},
     Raise ValueError).
Proof.
  intros serial t1 H Hlines Hserial Hsplit Hlpstat Hfresh Hlsusb Hids.
  subst serial t1. install_front H Hlines Hserial Hsplit Hlpstat.
  rewrite Hfresh. cbn [negb]. run.
  fold (lpadmin_cmd (String c serial') tail).
  match goal with |- context [h_spawn ?h' ?t ?cmd] =>
    destruct (h_spawn h' t cmd) as [[[? ?] ?]|] end.
  all: run; rewrite Hlsusb.
  all: destruct (Py.split ":" (Zeb.bytes_strip lsusb)) as [|a [|b [|d l]]];
    try (simpl in Hids; congruence).
  all: rewrite <- !app_assoc; reflexivity.
Qed.

Lemma install_printer_stops_half_way_witness :
  Zeb.install_printer busless_host start =
    ({| events :=
          [Log Info Zeb.discovering; Spawn Zeb.lpinfo_cmd; Spawn "lpstat -v";
           Log Info "Printer must be installed first.";
           Log Info ("lpadmin -p 'Zebra-Technologies-ZTC-ZT410-ABC123' -v '"
                     +:+ bench_uri +:+ "' -E");
           Spawn ("lpadmin -p 'Zebra-Technologies-ZTC-ZT410-ABC123' -v '"
                  +:+ bench_uri +:+ "' -E");
           Log Info "Restarting cups.service...";
           OsSystem "systemctl restart cups"; Sleep 2000;
           Shell Zeb.lsusb_cmd];
        answers := answers start |},
     Raise ValueError).
Proof.
  apply (install_printer_stops_half_way busless_host start
           0 ("network lpd" +:+ newline +:+ bench_line +:+ newline) EmptyString
           bench_line "A" "BC123" "direct "
           "Zebra%20Technologies/ZTC%20ZT410?serial=ABC123"
           0 EmptyString EmptyString 1 EmptyString EmptyString);
    try reflexivity.
  vm_compute. lia.
Defined.

Lemma ask_role_answer junk a rest t :
  Forall (fun x => Py.lower x <> "r" /\ Py.lower x <> "s") junk ->
  Py.lower a = "r" \/ Py.lower a = "s" ->
  exists asked,
    Zeb.ask_role (junk ++ a :: rest) t
      = ({| events := t ++ asked; answers := rest |},
         Ok (String.eqb (Py.lower a) "s"))
    /\ forallb (fun e => negb (changes_setup e)) asked = true.
Proof.
  intros Hjunk Ha. revert t. induction Hjunk as [|x junk [Hr Hs] _ IH]; intro t.
  - cbn [app Zeb.ask_role]. destruct Ha as [-> | ->]; cbn;
      (eexists; split; reflexivity).
  - cbn [app Zeb.ask_role].
    apply String.eqb_neq in Hr, Hs. rewrite Hr, Hs.
    destruct (IH (t ++ [Log Info Zeb.role_prompt; Prompt.input_event "Your input"]))
      as (asked & -> & Hq).
    eexists. rewrite <- app_assoc. split; [reflexivity|].
    cbn [app forallb changes_setup negb andb Prompt.input_event]. exact Hq.
Qed.

Lemma install_tail_leaves (h : Host) sn vid pid st :
  exists after,
    events
      (let (s', r) := Zeb.init h sn vid pid st in
       match r with
       | Ok zebra =>
           let (s'', r') := Zeb.test_print h zebra s' in
           match r' with
           | Ok _ => (s'', Ok true)
           | Raise e => (s'', Raise e)
           end
       | Raise e => (s', Raise e)
       end).1
    = events st ++ after
    /\ forallb (fun e => negb (changes_setup e)) after = true.
Proof.
  apply (leaves_bind (Zeb.init h sn vid pid)
           (fun zebra => Zeb.test_print h zebra ;;; ret true)).
  - apply leaves_init.
  - intro zebra. apply leaves_bind; [apply leaves_test_print|].
    intro. apply leaves_ret.
Qed.

(** X20: when the serial is already in the installed-queue listing and the
    rule file exists, [install_printer] registers nothing and restarts
    nothing: it asks for the role until the answer is [r] or [s] in either
    case and persists [serial-vid-pid] under [MFG_PRINTER] for [r] and
    under [MFG_PRINTER_XXL] for [s]; that binding is the only change it
    makes to the set-up, the session and the test print that follow
    included. *)
Theorem install_printer_rebinds (h : Host) (s : state) status out err
    line c serial' pre tail status' out' err' shell_status lsusb shell_err
    vid pid junk a rest :
  let serial := String c serial' in
  let t1 := events s ++ [Log Info Zeb.discovering] in
  h_spawn h t1 Zeb.lpinfo_cmd = Some (status, out, err) ->
  Zeb.zebra_lines out = [line] ->
  nth_error (Py.split "serial=" line) 1 = Some serial ->
  Py.split1 "usb://" line = [pre; tail] ->
  h_spawn h (t1 ++ [Spawn Zeb.lpinfo_cmd]) "lpstat -v" = Some (status', out', err') ->
  Py.contains serial out' = true ->
  (forall t, h_shell h t Zeb.lsusb_cmd = (shell_status, lsusb, shell_err)) ->
  Py.split ":" (Zeb.bytes_strip lsusb) = [vid; pid] ->
  (forall t, h_isfile h t Zeb.rules_file = true) ->
  answers s = junk ++ a :: rest ->
  Forall (fun x => Py.lower x <> "r" /\ Py.lower x <> "s") junk ->
  Py.lower a = "r" \/ Py.lower a = "s" ->
  exists asked after,
    events (Zeb.install_printer h s).1 =
      events s ++
      [Log Info Zeb.discovering; Spawn Zeb.lpinfo_cmd; Spawn "lpstat -v";
       Shell Zeb.lsusb_cmd; IsFile Zeb.rules_file]
      ++ asked
      ++ [SetVariable (if String.eqb (Py.lower a) "s"
                       then "MFG_PRINTER_XXL" else "MFG_PRINTER")
                      (Py.join "-" [serial; vid; pid])]
      ++ after
    /\ forallb (fun e => negb (changes_setup e)) (asked ++ after) = true.
Proof.
  intros serial t1 H Hlines Hserial Hsplit Hlpstat Hthere Hlsusb Hids Hfile
         Hanswers Hjunk Ha.
  subst serial t1. install_front H Hlines Hserial Hsplit Hlpstat.
  rewrite Hthere. cbn [negb]. run. rewrite Hlsusb, Hids. run.
  rewrite Hfile. cbn [negb]. run. rewrite Hanswers.
  match goal with |- context [Zeb.ask_role _ ?t] =>
    destruct (ask_role_answer junk a rest t Hjunk Ha) as (asked & -> & Hasked) end.
  run.
  match goal with |- context [Zeb.init ?h' ?x ?y ?z ?st] =>
    destruct (install_tail_leaves h' x y z st) as (after & -> & Hafter) end.
  cbn [events]. exists asked, after. split.
  - rewrite <- !app_assoc. reflexivity.
  - rewrite forallb_app, Hasked, Hafter. reflexivity.
Qed.

Lemma install_printer_rebinds_witness :
  exists asked after,
    events (Zeb.install_printer installed_host supplementary).1 =
      [] ++
      [Log Info Zeb.discovering; Spawn Zeb.lpinfo_cmd; Spawn "lpstat -v";
       Shell Zeb.lsusb_cmd; IsFile Zeb.rules_file]
      ++ asked
      ++ [SetVariable "MFG_PRINTER_XXL" "ABC123-0a5f-0120"]
      ++ after
    /\ forallb (fun e => negb (changes_setup e)) (asked ++ after) = true.
Proof.
  apply (install_printer_rebinds installed_host supplementary
           0 (bench_line +:+ newline) EmptyString
           bench_line "A" "BC123" "direct "
           "Zebra%20Technologies/ZTC%20ZT410?serial=ABC123"
           0 ("device for Zebra-Technologies-ZTC-ZT410-ABC123: " +:+ bench_uri
              +:+ newline) EmptyString
           0 ("0a5f:0120" +:+ newline) EmptyString "0a5f" "0120" ["x"] "s" []);
    try reflexivity.
  - constructor; [|constructor]. split; vm_compute; discriminate.
  - right. reflexivity.
Defined.

(** ** Connecting by role *)

(** X21: with a binding [SN-VID-PID] under the role key, SN not empty,
    [connect] either raises, returns [None], or returns a session that
    carries exactly SN, VID and PID and whose device path is unset or a
    [/dev/usb/lp...] node. *)
Theorem connect_session_of_binding (h : Host) (printer : string) (s s' : state)
    binding sn vid pid (zebra : Zeb.Zebra) :
  h_environ h (events s) printer = Some binding ->
  Py.split "-" binding = [sn; vid; pid] ->
  sn <> EmptyString ->
  Zeb.connect h printer s = (s', Ok (Some zebra)) ->
  Zeb.serial_number zebra = sn /\ Zeb.vid zebra = vid /\ Zeb.pid zebra = pid
  /\ is_lp_node (Zeb.lp_path zebra).
Proof.
  intros Henv Hsplit Hne H. unfold Zeb.connect, try_except in H.
  unfold bind at 1 in H. cbv [peek] in H. rewrite Henv, Hsplit in H.
  unfold bind at 1 in H.
  destruct (Zeb.init h sn vid pid s) as [s1 [z|e]] eqn:Einit.
  - unfold bind at 1 in H.
    destruct (Zeb.is_connected h z s1) as [s2 [[|]|e]].
    + injection H as _ <-.
      destruct (init_keeps_identity _ _ _ _ _ _ _ Einit) as [Hnode Hid].
      destruct (Hid Hne) as (H1 & H2 & H3). auto.
    + discriminate.
    + destruct e; discriminate.
  - destruct e; discriminate.
Qed.

Lemma connect_session_of_binding_witness :
  exists s' zebra,
    Zeb.connect
      (scripted_host (fun _ => Some (0, "device for ZT-ABC123: " +:+ bench_uri, EmptyString))
                     (fun _ => Raise FileNotFoundError) (Some ["lp0"])
                     (fun _ => Some "ABC123-0a5f-0120"))
      "MFG_PRINTER" start = (s', Ok (Some zebra))
    /\ Zeb.serial_number zebra = "ABC123" /\ Zeb.vid zebra = "0a5f"
    /\ Zeb.pid zebra = "0120" /\ is_lp_node (Zeb.lp_path zebra).
Proof.
  set (host := scripted_host _ _ _ _).
  destruct (Zeb.connect host "MFG_PRINTER" start) as [s' [[zebra|]|e]] eqn:E;
    [|vm_compute in E; discriminate..].
  exists s', zebra. split; [reflexivity|].
  apply (connect_session_of_binding host "MFG_PRINTER" start s' "ABC123-0a5f-0120"
           "ABC123" "0a5f" "0120" zebra);
    [reflexivity | reflexivity | discriminate | exact E].
Defined.

(** ** Labels of the configuration table *)

Section TableFacts.

Lemma lstrip_by_idem f s : Py.lstrip_by f (Py.lstrip_by f s) = Py.lstrip_by f s.
Proof.
  induction s as [|c s IH]; [reflexivity|].
  simpl. destruct (f c) eqn:E; [exact IH|]. simpl. rewrite E. reflexivity.
Qed.

Lemma rstrip_by_prefix f s : exists q, s = Py.rstrip_by f s +:+ q.
Proof.
  unfold Py.rstrip_by. destruct (lstrip_by_suffix f (String.rev s)) as [p Hp].
  exists (String.rev p).
  rewrite <- rev_append, <- Hp, rev_rev. reflexivity.
Qed.

Lemma lstrip_rstrip f s :
  Py.lstrip_by f s = s -> Py.lstrip_by f (Py.rstrip_by f s) = Py.rstrip_by f s.
Proof.
  intro H. destruct (rstrip_by_prefix f s) as [q Hq].
  destruct (Py.rstrip_by f s) as [|c r]; [reflexivity|].
  rewrite Hq in H. rewrite append_cons in H. simpl in H. simpl.
  destruct (f c); [|reflexivity].
  exfalso. destruct (lstrip_by_suffix f (r +:+ q)) as [p Hp].
  rewrite H in Hp. apply (f_equal String.length) in Hp.
  rewrite (append_length p) in Hp. cbn [String.length] in Hp. lia.
Qed.

(** [strip] is idempotent. *)
Lemma strip_by_idem f s : Py.strip_by f (Py.strip_by f s) = Py.strip_by f s.
Proof.
  unfold Py.strip_by. rewrite lstrip_rstrip by apply lstrip_by_idem.
  unfold Py.rstrip_by. rewrite rev_rev, lstrip_by_idem. reflexivity.
Qed.

End TableFacts.

Lemma config_line_trimmed line (data : gmap string Zeb.value) :
  (forall label, is_Some (data !! label) -> Py.strip label = label) ->
  forall label, is_Some (Zeb.config_line line data !! label) ->
                Py.strip label = label.
Proof.
  intros Hdata label. rewrite config_line_fields.
  assert (Hins : forall v l,
            is_Some (<[ Py.strip l := Zeb.float_or_str v ]> data !! label) ->
            Py.strip label = label).
  { intros v l H. apply lookup_insert_is_Some in H as [<-|[_ H]]; [|auto].
    apply strip_by_idem. }
  destruct (Py.filter_none (Py.split "  " line)) as [|a [|b [|c [|d [|e l]]]]];
    eauto.
Qed.

(** X22: every label of a table that [get_config] returns is trimmed: it
    neither begins nor ends with whitespace, whatever the printer sent. *)
Theorem get_config_labels_trimmed (h : Host) (self : Zeb.Zebra) (s s' : state)
    (table : gmap string Zeb.value) :
  Zeb.get_config h self s = (s', Ok (Some table)) ->
  forall label, is_Some (table !! label) -> Py.strip label = label.
Proof.
  unfold Zeb.get_config. intro H. unfold bind at 1 in H.
  destruct (Zeb.command h self "^XA^HH^XZ" s) as [s1 [[[status stdout] stderr]|e]];
    [|discriminate].
  destruct (negb (status =? 124)); [discriminate|].
  unfold bind in H. destruct stdout as [text|]; [|discriminate].
  cbv [method ret] in H. injection H as _ <-.
  generalize (Py.split newline text). intro lines.
  assert (Hfold : forall (data : gmap string Zeb.value),
            (forall label, is_Some (data !! label) -> Py.strip label = label) ->
            forall label,
              is_Some (fold_left (fun data line => Zeb.config_line line data)
                         lines data !! label) ->
              Py.strip label = label).
  { induction lines as [|line lines IH]; intros data Hdata; [exact Hdata|].
    cbn [fold_left]. apply IH. apply config_line_trimmed. exact Hdata. }
  apply Hfold. intros label Hl. rewrite lookup_empty in Hl.
  destruct Hl as [? Hl]. discriminate.
Qed.

Lemma get_config_labels_trimmed_witness :
  exists s' table,
    Zeb.get_config bench_host bench_session start = (s', Ok (Some table))
    /\ is_Some (table !! "DARKNESS") /\ Py.strip "DARKNESS" = "DARKNESS".
Proof.
  destruct (Zeb.get_config bench_host bench_session start)
    as [s' [[table|]|e]] eqn:E; [|vm_compute in E; discriminate..].
  assert (Hin : is_Some (table !! "DARKNESS")).
  { vm_compute in E. injection E as _ <-. eexists. reflexivity. }
  exists s', table. split; [reflexivity|]. split; [exact Hin|].
  exact (get_config_labels_trimmed bench_host bench_session start s' table E
           "DARKNESS" Hin).
Defined.

(** ** Serial ports *)

Lemma port_of_node target s : System.port_of target s = (s, Ok (node_of target)).
Proof.
  unfold System.port_of, node_of, Py.rsplit1.
  destruct (Py.rcut "/" target) as [[a b]|]; reflexivity.
Qed.

(** X23: [get_serial_port] returns [None] without probing any port when no
    id is given, when only one id is given and [lsusb] does not show it, and
    when both are given and [lsusb] shows neither; it raises [TypeError]
    when an id is given and [lsusb] could not be run. *)
Theorem get_serial_port_gives_up (h : Host) (targets : list string)
    (vid pid : string) (s : state) :
  let asked := events s ++ [Spawn "lsusb"] in
  (vid = EmptyString -> pid = EmptyString ->
   System.get_serial_port h targets vid pid s =
     ({| events := asked ++ [Print "You must pass either vid or pid args."];
         answers := answers s |}, Ok None))
  /\
  (forall status out err,
     h_spawn h (events s) "lsusb" = Some (status, out, err) ->
     vid <> EmptyString -> Py.contains vid out = false ->
     pid = EmptyString \/ (pid <> EmptyString /\ Py.contains pid out = false) ->
     exists msg,
       System.get_serial_port h targets vid pid s =
         ({| events := asked ++ [Print msg]; answers := answers s |}, Ok None))
  /\
  (forall status out err,
     h_spawn h (events s) "lsusb" = Some (status, out, err) ->
     vid = EmptyString -> pid <> EmptyString -> Py.contains pid out = false ->
     exists msg,
       System.get_serial_port h targets vid pid s =
         ({| events := asked ++ [Print msg]; answers := answers s |}, Ok None))
  /\
  (h_spawn h (events s) "lsusb" = None ->
   vid <> EmptyString \/ pid <> EmptyString ->
   System.get_serial_port h targets vid pid s =
     ({| events := asked; answers := answers s |}, Raise TypeError)).
Proof.
  intro asked. subst asked. unfold System.get_serial_port. repeat split.
  - intros -> ->. cbv beta iota zeta delta
      [System.system_command bind ask emit ret raise is_in Py.truthy andb negb].
    cbn [events answers].
    destruct (h_spawn h (events s) "lsusb") as [[[? ?] ?]|];
      cbn; rewrite <- app_assoc; reflexivity.
  - intros status out err H Hv Hno Hpid.
    destruct vid as [|c v]; [congruence|].
    destruct Hpid as [-> | [Hp Hno']].
    + eexists. cbv beta iota zeta delta
        [System.system_command bind ask emit ret raise is_in Py.truthy andb negb].
      cbn [events answers]. rewrite H. cbn. rewrite Hno. cbn. reflexivity.
    + destruct pid as [|d q]; [congruence|]. eexists.
      cbv beta iota zeta delta
        [System.system_command bind ask emit ret raise is_in Py.truthy andb negb].
      cbn [events answers]. rewrite H. cbn. rewrite Hno. cbn. rewrite Hno'. cbn. reflexivity.
  - intros status out err H -> Hp Hno. destruct pid as [|d q]; [congruence|].
    eexists. cbv beta iota zeta delta
      [System.system_command bind ask emit ret raise is_in Py.truthy andb negb].
    cbn [events answers]. rewrite H. cbn. rewrite Hno. cbn. reflexivity.
  - intros H Hid.
    cbv beta iota zeta delta
      [System.system_command bind ask emit ret raise is_in].
    cbn [events answers]. rewrite H. cbn [events answers].
    destruct vid as [|c v], pid as [|d q]; cbn;
      try reflexivity. destruct Hid; congruence.
Qed.

Lemma get_serial_port_gives_up_witness :
  System.get_serial_port adapters_host adapter_links EmptyString EmptyString start =
    ({| events := [Spawn "lsusb"; Print "You must pass either vid or pid args."];
        answers := answers start |}, Ok None)
  /\ (exists msg,
        System.get_serial_port adapters_host adapter_links "10c4" "ea60" start =
          ({| events := [Spawn "lsusb"; Print msg]; answers := answers start |},
           Ok None))
  /\ System.get_serial_port bare_host adapter_links "10c4" EmptyString start =
       ({| events := [Spawn "lsusb"]; answers := answers start |}, Raise TypeError).
Proof.
  split; [|split].
  - apply (proj1 (get_serial_port_gives_up adapters_host adapter_links
                    EmptyString EmptyString start)); reflexivity.
  - apply (proj1 (proj2 (get_serial_port_gives_up adapters_host adapter_links
                           "10c4" "ea60" start))
             0 ("Bus 001 Device 004: ID 0403:6001" +:+ newline
                +:+ "Bus 001 Device 005: ID 067b:2303" +:+ newline) EmptyString);
      [reflexivity | discriminate | reflexivity |].
    right. split; [discriminate|reflexivity].
  - apply (proj2 (proj2 (proj2 (get_serial_port_gives_up bare_host adapter_links
                                  "10c4" EmptyString start))));
      [reflexivity | left; discriminate].
Defined.

Lemma scan_ports_vendor (h : Host) (vid : string)
    (vendor : string -> Z * string * string) (targets : list string) :
  vid <> EmptyString ->
  (forall t port, h_shell h t (System.vendor_cmd port) = vendor port) ->
  forall s,
    System.scan_ports h vid EmptyString targets false false s =
      ({| events := events s ++
            List.map (fun port => Shell (System.vendor_cmd port))
              (through (fun port => String.eqb vid (printed (vendor port)))
                 (List.map node_of targets));
          answers := answers s |},
       Ok (List.find (fun port => String.eqb vid (printed (vendor port)))
             (List.map node_of targets))).
Proof.
  intros Hvid Hshell. destruct vid as [|c v]; [congruence|].
  induction targets as [|target rest IH]; intro s.
  - destruct s as [ev an]. cbn. rewrite app_nil_r. reflexivity.
  - cbn [System.scan_ports List.map through List.find].
    unfold bind at 1. rewrite port_of_node.
    cbv beta iota zeta delta
      [bind ask ret System.pipeable_command Py.truthy andb negb orb].
    cbn [events answers]. rewrite Hshell.
    unfold printed at 1 3.
    destruct (vendor (node_of target)) as [[st out] err]. cbn [fst snd].
    destruct (String.eqb (String c v) (Py.strip out)).
    + reflexivity.
    + rewrite IH. cbn [events answers List.map]. rewrite <- app_assoc.
      reflexivity.
Qed.

(** X24: asked for a vendor id alone, one that [lsusb] shows, on a machine
    whose probes answer the same at any time, [get_serial_port] asks each
    port in turn for its vendor only, stops at the first port whose answer,
    stripped, is the id, and returns that port; it returns [None] after
    asking every port when none answers with the id. *)
Theorem get_serial_port_first_vendor (h : Host) (targets : list string)
    (vid : string) (vendor : string -> Z * string * string) (s : state)
    (status : Z) (out err : string) :
  vid <> EmptyString ->
  h_spawn h (events s) "lsusb" = Some (status, out, err) ->
  Py.contains vid out = true ->
  (forall t port, h_shell h t (System.vendor_cmd port) = vendor port) ->
  let hit port := String.eqb vid (printed (vendor port)) in
  System.get_serial_port h targets vid EmptyString s =
    ({| events := events s ++ Spawn "lsusb" ::
          List.map (fun port => Shell (System.vendor_cmd port))
            (through hit (List.map node_of targets));
        answers := answers s |},
     Ok (List.find hit (List.map node_of targets))).
Proof.
  intros Hvid Hlsusb Hshown Hshell hit. subst hit.
  unfold System.get_serial_port.
  pose proof (scan_ports_vendor h vid vendor targets Hvid Hshell) as Hscan.
  destruct vid as [|c v]; [congruence|].
  cbv beta iota zeta delta
    [System.system_command bind ask emit ret raise is_in Py.truthy andb negb].
  cbn [events answers]. rewrite Hlsusb. cbn iota beta. rewrite Hshown.
  cbn iota beta. rewrite Hscan. cbn [events answers].
  rewrite <- app_assoc. reflexivity.
Qed.

Lemma get_serial_port_first_vendor_witness :
  System.get_serial_port adapters_host adapter_links "067b" EmptyString start =
    ({| events := [Spawn "lsusb"; Shell (System.vendor_cmd "/dev/ttyUSB0");
                   Shell (System.vendor_cmd "/dev/ttyUSB1")];
        answers := answers start |},
     Ok (Some "/dev/ttyUSB1")).
Proof.
  exact (get_serial_port_first_vendor adapters_host adapter_links "067b"
           (fun port => h_shell adapters_host [] (System.vendor_cmd port)) start
           0 ("Bus 001 Device 004: ID 0403:6001" +:+ newline
              +:+ "Bus 001 Device 005: ID 067b:2303" +:+ newline) EmptyString
           ltac:(discriminate) eq_refl eq_refl (fun _ _ => eq_refl)).
Defined.

(** X25: asked for both ids, [get_serial_port] keeps a match from one port
    to the next: when the first port answers with the vendor id but not
    with the product id and the second port answers with the product id,
    the second port is returned, whatever vendor it reports. *)
Theorem get_serial_port_mixes_ports (h : Host) (first second : string)
    (rest : list string) (vid pid : string)
    (answer : string -> Z * string * string) (s : state)
    (status : Z) (out err : string) :
  vid <> EmptyString -> pid <> EmptyString ->
  h_spawn h (events s) "lsusb" = Some (status, out, err) ->
  Py.contains vid out = true \/ Py.contains pid out = true ->
  (forall t cmd, h_shell h t cmd = answer cmd) ->
  String.eqb vid (printed (answer (System.vendor_cmd (node_of first)))) = true ->
  String.eqb pid (printed (answer (System.model_cmd (node_of first)))) = false ->
  String.eqb pid (printed (answer (System.model_cmd (node_of second)))) = true ->
  System.get_serial_port h (first :: second :: rest) vid pid s =
    ({| events := events s ++
          [Spawn "lsusb";
           Shell (System.vendor_cmd (node_of first));
           Shell (System.model_cmd (node_of first));
           Shell (System.vendor_cmd (node_of second));
           Shell (System.model_cmd (node_of second))];
        answers := answers s |},
     Ok (Some (node_of second))).
Proof.
  intros Hvid Hpid Hlsusb Hshown Hshell Hv1 Hp1 Hp2.
  unfold System.get_serial_port.
  destruct vid as [|c v]; [congruence|]. destruct pid as [|d q]; [congruence|].
  assert (Hfront :
    (if Py.contains (String c v) out then false
     else negb (Py.contains (String d q) out)) = false).
  { destruct Hshown as [-> | ->]; [reflexivity|].
    destruct (Py.contains (String c v) out); reflexivity. }
  destruct (answer (System.vendor_cmd (node_of first))) as [[? v1] ?] eqn:E1.
  destruct (answer (System.model_cmd (node_of first))) as [[? m1] ?] eqn:E2.
  destruct (answer (System.vendor_cmd (node_of second))) as [[? v2] ?] eqn:E3.
  destruct (answer (System.model_cmd (node_of second))) as [[? m2] ?] eqn:E4.
  unfold printed in Hv1, Hp1, Hp2. cbn [fst snd] in Hv1, Hp1, Hp2.
  cbn [System.scan_ports].
  cbv beta iota zeta delta
    [System.system_command System.pipeable_command bind ask emit ret raise
     is_in Py.truthy andb negb orb].
  cbn [events answers]. rewrite Hlsusb. cbn iota beta.
  destruct (Py.contains (String c v) out) eqn:Ev;
    [|destruct (Py.contains (String d q) out) eqn:Ep; [|discriminate Hfront]];
    repeat first
      [ rewrite port_of_node | rewrite Hshell
      | rewrite E1 | rewrite E2 | rewrite E3 | rewrite E4
      | rewrite Hv1 | rewrite Hp1 | rewrite Hp2
      | progress cbn iota beta | progress cbn [events answers] ];
    destruct (String.eqb (String c v) (Py.strip v2));
    cbn iota beta; rewrite <- !app_assoc; reflexivity.
Qed.

Lemma get_serial_port_mixes_ports_witness :
  System.get_serial_port adapters_host adapter_links "0403" "2303" start =
    ({| events := [Spawn "lsusb";
                   Shell (System.vendor_cmd "/dev/ttyUSB0");
                   Shell (System.model_cmd "/dev/ttyUSB0");
                   Shell (System.vendor_cmd "/dev/ttyUSB1");
                   Shell (System.model_cmd "/dev/ttyUSB1")];
        answers := answers start |},
     Ok (Some "/dev/ttyUSB1"))
  /\ printed (h_shell adapters_host [] (System.vendor_cmd "/dev/ttyUSB1")) = "067b".
Proof.
  split; [|reflexivity].
  exact (get_serial_port_mixes_ports adapters_host "../../ttyUSB0" "../../ttyUSB1"
           [] "0403" "2303" (fun cmd => h_shell adapters_host [] cmd) start
           0 ("Bus 001 Device 004: ID 0403:6001" +:+ newline
              +:+ "Bus 001 Device 005: ID 067b:2303" +:+ newline) EmptyString
           ltac:(discriminate) ltac:(discriminate) eq_refl (or_introl eq_refl)
           (fun _ _ => eq_refl) eq_refl eq_refl eq_refl).
Defined.
